(** * basic_futures_bot: input validation, payload mapping and submission

    A shallow embedding of [src/basic_futures_bot.py].

    - Python [str] values are sequences of Unicode code points ([list N]);
      [len] is [length].
    - Python [float] values are IEEE 754 binary64 numbers, taken from the
      standard library's [spec_float] with [prec = 53], [emax = 1024].
    - A call that may raise is a value of [result]: [Return v] or
      [Raise e].
    - The builtins the bot relies on ([str.strip], [str.upper], [float])
      are modelled in [PyStr] and [PyFloat], with the whitespace, the
      upper-case mapping and the decimal digits of Unicode 14.0, the
      version of CPython 3.11. *)

From Stdlib Require Import ZArith NArith List Bool Ascii String Lia.
From Stdlib Require Import Floats.SpecFloat.
Import ListNotations.

Set Implicit Arguments.

(* ------------------------------------------------------------------ *)
(** ** Python strings *)
(* ------------------------------------------------------------------ *)

Module PyStr.

Local Open Scope N_scope.

Definition codepoint := N.
Definition str := list codepoint.

(** A source-code literal: every character of the bot's literals is
    ASCII, so the byte value is the code point. *)
Definition lit (s : string) : str :=
  List.map N_of_ascii (list_ascii_of_string s).

Fixpoint eqb (a b : str) : bool :=
  match a, b with
  | [], [] => true
  | x :: a', y :: b' => (x =? y) && eqb a' b'
  | _, _ => false
  end.

(** [x in {a, b, ...}] for a set display of string literals. *)
Definition mem (x : str) (l : list str) : bool := existsb (eqb x) l.

(** Truthiness of a string: [not s] is [negb (truthy s)]. *)
Definition truthy (s : str) : bool :=
  match s with [] => false | _ :: _ => true end.

Definition in_range (lo hi c : N) : bool := (lo <=? c) && (c <=? hi).

(** [str.isspace] on one code point (bidirectional type WS, B or S, or
    category Zs). *)
Definition isspace (c : codepoint) : bool :=
  in_range 0x09 0x0D c || in_range 0x1C 0x20 c
  || (c =? 0x85) || (c =? 0xA0) || (c =? 0x1680)
  || in_range 0x2000 0x200A c
  || (c =? 0x2028) || (c =? 0x2029) || (c =? 0x202F)
  || (c =? 0x205F) || (c =? 0x3000).

Fixpoint lstrip (s : str) : str :=
  match s with
  | c :: r => if isspace c then lstrip r else s
  | [] => []
  end.

Definition rstrip (s : str) : str := rev (lstrip (rev s)).

(** [s.strip()] *)
Definition strip (s : str) : str := rstrip (lstrip s).

Definition is_ascii_lower (c : codepoint) : bool := in_range 0x61 0x7A c.
Definition is_ascii_upper (c : codepoint) : bool := in_range 0x41 0x5A c.

(** The code points that [str.upper] changes, each with its upper-case
    form, in the order of the code points: the full case mapping of
    Unicode 14.0, the version of CPython 3.11.  A form can have two or
    three characters (sharp s, ligatures, letters with iota subscript). *)
Definition upper_table : list (codepoint * str) :=
  [ (0x61, [0x41]); (0x62, [0x42]); (0x63, [0x43]); (0x64, [0x44]);
    (0x65, [0x45]); (0x66, [0x46]); (0x67, [0x47]); (0x68, [0x48]);
    (0x69, [0x49]); (0x6A, [0x4A]); (0x6B, [0x4B]); (0x6C, [0x4C]);
    (0x6D, [0x4D]); (0x6E, [0x4E]); (0x6F, [0x4F]); (0x70, [0x50]);
    (0x71, [0x51]); (0x72, [0x52]); (0x73, [0x53]); (0x74, [0x54]);
    (0x75, [0x55]); (0x76, [0x56]); (0x77, [0x57]); (0x78, [0x58]);
    (0x79, [0x59]); (0x7A, [0x5A]); (0xB5, [0x39C]); (0xDF, [0x53; 0x53]);
    (0xE0, [0xC0]); (0xE1, [0xC1]); (0xE2, [0xC2]); (0xE3, [0xC3]);
    (0xE4, [0xC4]); (0xE5, [0xC5]); (0xE6, [0xC6]); (0xE7, [0xC7]);
    (0xE8, [0xC8]); (0xE9, [0xC9]); (0xEA, [0xCA]); (0xEB, [0xCB]);
    (0xEC, [0xCC]); (0xED, [0xCD]); (0xEE, [0xCE]); (0xEF, [0xCF]);
    (0xF0, [0xD0]); (0xF1, [0xD1]); (0xF2, [0xD2]); (0xF3, [0xD3]);
    (0xF4, [0xD4]); (0xF5, [0xD5]); (0xF6, [0xD6]); (0xF8, [0xD8]);
    (0xF9, [0xD9]); (0xFA, [0xDA]); (0xFB, [0xDB]); (0xFC, [0xDC]);
    (0xFD, [0xDD]); (0xFE, [0xDE]); (0xFF, [0x178]); (0x101, [0x100]);
    (0x103, [0x102]); (0x105, [0x104]); (0x107, [0x106]); (0x109, [0x108]);
    (0x10B, [0x10A]); (0x10D, [0x10C]); (0x10F, [0x10E]); (0x111, [0x110]);
    (0x113, [0x112]); (0x115, [0x114]); (0x117, [0x116]); (0x119, [0x118]);
    (0x11B, [0x11A]); (0x11D, [0x11C]); (0x11F, [0x11E]); (0x121, [0x120]);
    (0x123, [0x122]); (0x125, [0x124]); (0x127, [0x126]); (0x129, [0x128]);
    (0x12B, [0x12A]); (0x12D, [0x12C]); (0x12F, [0x12E]); (0x131, [0x49]);
    (0x133, [0x132]); (0x135, [0x134]); (0x137, [0x136]); (0x13A, [0x139]);
    (0x13C, [0x13B]); (0x13E, [0x13D]); (0x140, [0x13F]); (0x142, [0x141]);
    (0x144, [0x143]); (0x146, [0x145]); (0x148, [0x147]);
    (0x149, [0x2BC; 0x4E]); (0x14B, [0x14A]); (0x14D, [0x14C]);
    (0x14F, [0x14E]); (0x151, [0x150]); (0x153, [0x152]); (0x155, [0x154]);
    (0x157, [0x156]); (0x159, [0x158]); (0x15B, [0x15A]); (0x15D, [0x15C]);
    (0x15F, [0x15E]); (0x161, [0x160]); (0x163, [0x162]); (0x165, [0x164]);
    (0x167, [0x166]); (0x169, [0x168]); (0x16B, [0x16A]); (0x16D, [0x16C]);
    (0x16F, [0x16E]); (0x171, [0x170]); (0x173, [0x172]); (0x175, [0x174]);
    (0x177, [0x176]); (0x17A, [0x179]); (0x17C, [0x17B]); (0x17E, [0x17D]);
    (0x17F, [0x53]); (0x180, [0x243]); (0x183, [0x182]); (0x185, [0x184]);
    (0x188, [0x187]); (0x18C, [0x18B]); (0x192, [0x191]); (0x195, [0x1F6]);
    (0x199, [0x198]); (0x19A, [0x23D]); (0x19E, [0x220]); (0x1A1, [0x1A0]);
    (0x1A3, [0x1A2]); (0x1A5, [0x1A4]); (0x1A8, [0x1A7]); (0x1AD, [0x1AC]);
    (0x1B0, [0x1AF]); (0x1B4, [0x1B3]); (0x1B6, [0x1B5]); (0x1B9, [0x1B8]);
    (0x1BD, [0x1BC]); (0x1BF, [0x1F7]); (0x1C5, [0x1C4]); (0x1C6, [0x1C4]);
    (0x1C8, [0x1C7]); (0x1C9, [0x1C7]); (0x1CB, [0x1CA]); (0x1CC, [0x1CA]);
    (0x1CE, [0x1CD]); (0x1D0, [0x1CF]); (0x1D2, [0x1D1]); (0x1D4, [0x1D3]);
    (0x1D6, [0x1D5]); (0x1D8, [0x1D7]); (0x1DA, [0x1D9]); (0x1DC, [0x1DB]);
    (0x1DD, [0x18E]); (0x1DF, [0x1DE]); (0x1E1, [0x1E0]); (0x1E3, [0x1E2]);
    (0x1E5, [0x1E4]); (0x1E7, [0x1E6]); (0x1E9, [0x1E8]); (0x1EB, [0x1EA]);
    (0x1ED, [0x1EC]); (0x1EF, [0x1EE]); (0x1F0, [0x4A; 0x30C]);
    (0x1F2, [0x1F1]); (0x1F3, [0x1F1]); (0x1F5, [0x1F4]); (0x1F9, [0x1F8]);
    (0x1FB, [0x1FA]); (0x1FD, [0x1FC]); (0x1FF, [0x1FE]); (0x201, [0x200]);
    (0x203, [0x202]); (0x205, [0x204]); (0x207, [0x206]); (0x209, [0x208]);
    (0x20B, [0x20A]); (0x20D, [0x20C]); (0x20F, [0x20E]); (0x211, [0x210]);
    (0x213, [0x212]); (0x215, [0x214]); (0x217, [0x216]); (0x219, [0x218]);
    (0x21B, [0x21A]); (0x21D, [0x21C]); (0x21F, [0x21E]); (0x223, [0x222]);
    (0x225, [0x224]); (0x227, [0x226]); (0x229, [0x228]); (0x22B, [0x22A]);
    (0x22D, [0x22C]); (0x22F, [0x22E]); (0x231, [0x230]); (0x233, [0x232]);
    (0x23C, [0x23B]); (0x23F, [0x2C7E]); (0x240, [0x2C7F]); (0x242, [0x241]);
    (0x247, [0x246]); (0x249, [0x248]); (0x24B, [0x24A]); (0x24D, [0x24C]);
    (0x24F, [0x24E]); (0x250, [0x2C6F]); (0x251, [0x2C6D]);
    (0x252, [0x2C70]); (0x253, [0x181]); (0x254, [0x186]); (0x256, [0x189]);
    (0x257, [0x18A]); (0x259, [0x18F]); (0x25B, [0x190]); (0x25C, [0xA7AB]);
    (0x260, [0x193]); (0x261, [0xA7AC]); (0x263, [0x194]); (0x265, [0xA78D]);
    (0x266, [0xA7AA]); (0x268, [0x197]); (0x269, [0x196]); (0x26A, [0xA7AE]);
    (0x26B, [0x2C62]); (0x26C, [0xA7AD]); (0x26F, [0x19C]);
    (0x271, [0x2C6E]); (0x272, [0x19D]); (0x275, [0x19F]); (0x27D, [0x2C64]);
    (0x280, [0x1A6]); (0x282, [0xA7C5]); (0x283, [0x1A9]); (0x287, [0xA7B1]);
    (0x288, [0x1AE]); (0x289, [0x244]); (0x28A, [0x1B1]); (0x28B, [0x1B2]);
    (0x28C, [0x245]); (0x292, [0x1B7]); (0x29D, [0xA7B2]); (0x29E, [0xA7B0]);
    (0x345, [0x399]); (0x371, [0x370]); (0x373, [0x372]); (0x377, [0x376]);
    (0x37B, [0x3FD]); (0x37C, [0x3FE]); (0x37D, [0x3FF]);
    (0x390, [0x399; 0x308; 0x301]); (0x3AC, [0x386]); (0x3AD, [0x388]);
    (0x3AE, [0x389]); (0x3AF, [0x38A]); (0x3B0, [0x3A5; 0x308; 0x301]);
    (0x3B1, [0x391]); (0x3B2, [0x392]); (0x3B3, [0x393]); (0x3B4, [0x394]);
    (0x3B5, [0x395]); (0x3B6, [0x396]); (0x3B7, [0x397]); (0x3B8, [0x398]);
    (0x3B9, [0x399]); (0x3BA, [0x39A]); (0x3BB, [0x39B]); (0x3BC, [0x39C]);
    (0x3BD, [0x39D]); (0x3BE, [0x39E]); (0x3BF, [0x39F]); (0x3C0, [0x3A0]);
    (0x3C1, [0x3A1]); (0x3C2, [0x3A3]); (0x3C3, [0x3A3]); (0x3C4, [0x3A4]);
    (0x3C5, [0x3A5]); (0x3C6, [0x3A6]); (0x3C7, [0x3A7]); (0x3C8, [0x3A8]);
    (0x3C9, [0x3A9]); (0x3CA, [0x3AA]); (0x3CB, [0x3AB]); (0x3CC, [0x38C]);
    (0x3CD, [0x38E]); (0x3CE, [0x38F]); (0x3D0, [0x392]); (0x3D1, [0x398]);
    (0x3D5, [0x3A6]); (0x3D6, [0x3A0]); (0x3D7, [0x3CF]); (0x3D9, [0x3D8]);
    (0x3DB, [0x3DA]); (0x3DD, [0x3DC]); (0x3DF, [0x3DE]); (0x3E1, [0x3E0]);
    (0x3E3, [0x3E2]); (0x3E5, [0x3E4]); (0x3E7, [0x3E6]); (0x3E9, [0x3E8]);
    (0x3EB, [0x3EA]); (0x3ED, [0x3EC]); (0x3EF, [0x3EE]); (0x3F0, [0x39A]);
    (0x3F1, [0x3A1]); (0x3F2, [0x3F9]); (0x3F3, [0x37F]); (0x3F5, [0x395]);
    (0x3F8, [0x3F7]); (0x3FB, [0x3FA]); (0x430, [0x410]); (0x431, [0x411]);
    (0x432, [0x412]); (0x433, [0x413]); (0x434, [0x414]); (0x435, [0x415]);
    (0x436, [0x416]); (0x437, [0x417]); (0x438, [0x418]); (0x439, [0x419]);
    (0x43A, [0x41A]); (0x43B, [0x41B]); (0x43C, [0x41C]); (0x43D, [0x41D]);
    (0x43E, [0x41E]); (0x43F, [0x41F]); (0x440, [0x420]); (0x441, [0x421]);
    (0x442, [0x422]); (0x443, [0x423]); (0x444, [0x424]); (0x445, [0x425]);
    (0x446, [0x426]); (0x447, [0x427]); (0x448, [0x428]); (0x449, [0x429]);
    (0x44A, [0x42A]); (0x44B, [0x42B]); (0x44C, [0x42C]); (0x44D, [0x42D]);
    (0x44E, [0x42E]); (0x44F, [0x42F]); (0x450, [0x400]); (0x451, [0x401]);
    (0x452, [0x402]); (0x453, [0x403]); (0x454, [0x404]); (0x455, [0x405]);
    (0x456, [0x406]); (0x457, [0x407]); (0x458, [0x408]); (0x459, [0x409]);
    (0x45A, [0x40A]); (0x45B, [0x40B]); (0x45C, [0x40C]); (0x45D, [0x40D]);
    (0x45E, [0x40E]); (0x45F, [0x40F]); (0x461, [0x460]); (0x463, [0x462]);
    (0x465, [0x464]); (0x467, [0x466]); (0x469, [0x468]); (0x46B, [0x46A]);
    (0x46D, [0x46C]); (0x46F, [0x46E]); (0x471, [0x470]); (0x473, [0x472]);
    (0x475, [0x474]); (0x477, [0x476]); (0x479, [0x478]); (0x47B, [0x47A]);
    (0x47D, [0x47C]); (0x47F, [0x47E]); (0x481, [0x480]); (0x48B, [0x48A]);
    (0x48D, [0x48C]); (0x48F, [0x48E]); (0x491, [0x490]); (0x493, [0x492]);
    (0x495, [0x494]); (0x497, [0x496]); (0x499, [0x498]); (0x49B, [0x49A]);
    (0x49D, [0x49C]); (0x49F, [0x49E]); (0x4A1, [0x4A0]); (0x4A3, [0x4A2]);
    (0x4A5, [0x4A4]); (0x4A7, [0x4A6]); (0x4A9, [0x4A8]); (0x4AB, [0x4AA]);
    (0x4AD, [0x4AC]); (0x4AF, [0x4AE]); (0x4B1, [0x4B0]); (0x4B3, [0x4B2]);
    (0x4B5, [0x4B4]); (0x4B7, [0x4B6]); (0x4B9, [0x4B8]); (0x4BB, [0x4BA]);
    (0x4BD, [0x4BC]); (0x4BF, [0x4BE]); (0x4C2, [0x4C1]); (0x4C4, [0x4C3]);
    (0x4C6, [0x4C5]); (0x4C8, [0x4C7]); (0x4CA, [0x4C9]); (0x4CC, [0x4CB]);
    (0x4CE, [0x4CD]); (0x4CF, [0x4C0]); (0x4D1, [0x4D0]); (0x4D3, [0x4D2]);
    (0x4D5, [0x4D4]); (0x4D7, [0x4D6]); (0x4D9, [0x4D8]); (0x4DB, [0x4DA]);
    (0x4DD, [0x4DC]); (0x4DF, [0x4DE]); (0x4E1, [0x4E0]); (0x4E3, [0x4E2]);
    (0x4E5, [0x4E4]); (0x4E7, [0x4E6]); (0x4E9, [0x4E8]); (0x4EB, [0x4EA]);
    (0x4ED, [0x4EC]); (0x4EF, [0x4EE]); (0x4F1, [0x4F0]); (0x4F3, [0x4F2]);
    (0x4F5, [0x4F4]); (0x4F7, [0x4F6]); (0x4F9, [0x4F8]); (0x4FB, [0x4FA]);
    (0x4FD, [0x4FC]); (0x4FF, [0x4FE]); (0x501, [0x500]); (0x503, [0x502]);
    (0x505, [0x504]); (0x507, [0x506]); (0x509, [0x508]); (0x50B, [0x50A]);
    (0x50D, [0x50C]); (0x50F, [0x50E]); (0x511, [0x510]); (0x513, [0x512]);
    (0x515, [0x514]); (0x517, [0x516]); (0x519, [0x518]); (0x51B, [0x51A]);
    (0x51D, [0x51C]); (0x51F, [0x51E]); (0x521, [0x520]); (0x523, [0x522]);
    (0x525, [0x524]); (0x527, [0x526]); (0x529, [0x528]); (0x52B, [0x52A]);
    (0x52D, [0x52C]); (0x52F, [0x52E]); (0x561, [0x531]); (0x562, [0x532]);
    (0x563, [0x533]); (0x564, [0x534]); (0x565, [0x535]); (0x566, [0x536]);
    (0x567, [0x537]); (0x568, [0x538]); (0x569, [0x539]); (0x56A, [0x53A]);
    (0x56B, [0x53B]); (0x56C, [0x53C]); (0x56D, [0x53D]); (0x56E, [0x53E]);
    (0x56F, [0x53F]); (0x570, [0x540]); (0x571, [0x541]); (0x572, [0x542]);
    (0x573, [0x543]); (0x574, [0x544]); (0x575, [0x545]); (0x576, [0x546]);
    (0x577, [0x547]); (0x578, [0x548]); (0x579, [0x549]); (0x57A, [0x54A]);
    (0x57B, [0x54B]); (0x57C, [0x54C]); (0x57D, [0x54D]); (0x57E, [0x54E]);
    (0x57F, [0x54F]); (0x580, [0x550]); (0x581, [0x551]); (0x582, [0x552]);
    (0x583, [0x553]); (0x584, [0x554]); (0x585, [0x555]); (0x586, [0x556]);
    (0x587, [0x535; 0x552]); (0x10D0, [0x1C90]); (0x10D1, [0x1C91]);
    (0x10D2, [0x1C92]); (0x10D3, [0x1C93]); (0x10D4, [0x1C94]);
    (0x10D5, [0x1C95]); (0x10D6, [0x1C96]); (0x10D7, [0x1C97]);
    (0x10D8, [0x1C98]); (0x10D9, [0x1C99]); (0x10DA, [0x1C9A]);
    (0x10DB, [0x1C9B]); (0x10DC, [0x1C9C]); (0x10DD, [0x1C9D]);
    (0x10DE, [0x1C9E]); (0x10DF, [0x1C9F]); (0x10E0, [0x1CA0]);
    (0x10E1, [0x1CA1]); (0x10E2, [0x1CA2]); (0x10E3, [0x1CA3]);
    (0x10E4, [0x1CA4]); (0x10E5, [0x1CA5]); (0x10E6, [0x1CA6]);
    (0x10E7, [0x1CA7]); (0x10E8, [0x1CA8]); (0x10E9, [0x1CA9]);
    (0x10EA, [0x1CAA]); (0x10EB, [0x1CAB]); (0x10EC, [0x1CAC]);
    (0x10ED, [0x1CAD]); (0x10EE, [0x1CAE]); (0x10EF, [0x1CAF]);
    (0x10F0, [0x1CB0]); (0x10F1, [0x1CB1]); (0x10F2, [0x1CB2]);
    (0x10F3, [0x1CB3]); (0x10F4, [0x1CB4]); (0x10F5, [0x1CB5]);
    (0x10F6, [0x1CB6]); (0x10F7, [0x1CB7]); (0x10F8, [0x1CB8]);
    (0x10F9, [0x1CB9]); (0x10FA, [0x1CBA]); (0x10FD, [0x1CBD]);
    (0x10FE, [0x1CBE]); (0x10FF, [0x1CBF]); (0x13F8, [0x13F0]);
    (0x13F9, [0x13F1]); (0x13FA, [0x13F2]); (0x13FB, [0x13F3]);
    (0x13FC, [0x13F4]); (0x13FD, [0x13F5]); (0x1C80, [0x412]);
    (0x1C81, [0x414]); (0x1C82, [0x41E]); (0x1C83, [0x421]);
    (0x1C84, [0x422]); (0x1C85, [0x422]); (0x1C86, [0x42A]);
    (0x1C87, [0x462]); (0x1C88, [0xA64A]); (0x1D79, [0xA77D]);
    (0x1D7D, [0x2C63]); (0x1D8E, [0xA7C6]); (0x1E01, [0x1E00]);
    (0x1E03, [0x1E02]); (0x1E05, [0x1E04]); (0x1E07, [0x1E06]);
    (0x1E09, [0x1E08]); (0x1E0B, [0x1E0A]); (0x1E0D, [0x1E0C]);
    (0x1E0F, [0x1E0E]); (0x1E11, [0x1E10]); (0x1E13, [0x1E12]);
    (0x1E15, [0x1E14]); (0x1E17, [0x1E16]); (0x1E19, [0x1E18]);
    (0x1E1B, [0x1E1A]); (0x1E1D, [0x1E1C]); (0x1E1F, [0x1E1E]);
    (0x1E21, [0x1E20]); (0x1E23, [0x1E22]); (0x1E25, [0x1E24]);
    (0x1E27, [0x1E26]); (0x1E29, [0x1E28]); (0x1E2B, [0x1E2A]);
    (0x1E2D, [0x1E2C]); (0x1E2F, [0x1E2E]); (0x1E31, [0x1E30]);
    (0x1E33, [0x1E32]); (0x1E35, [0x1E34]); (0x1E37, [0x1E36]);
    (0x1E39, [0x1E38]); (0x1E3B, [0x1E3A]); (0x1E3D, [0x1E3C]);
    (0x1E3F, [0x1E3E]); (0x1E41, [0x1E40]); (0x1E43, [0x1E42]);
    (0x1E45, [0x1E44]); (0x1E47, [0x1E46]); (0x1E49, [0x1E48]);
    (0x1E4B, [0x1E4A]); (0x1E4D, [0x1E4C]); (0x1E4F, [0x1E4E]);
    (0x1E51, [0x1E50]); (0x1E53, [0x1E52]); (0x1E55, [0x1E54]);
    (0x1E57, [0x1E56]); (0x1E59, [0x1E58]); (0x1E5B, [0x1E5A]);
    (0x1E5D, [0x1E5C]); (0x1E5F, [0x1E5E]); (0x1E61, [0x1E60]);
    (0x1E63, [0x1E62]); (0x1E65, [0x1E64]); (0x1E67, [0x1E66]);
    (0x1E69, [0x1E68]); (0x1E6B, [0x1E6A]); (0x1E6D, [0x1E6C]);
    (0x1E6F, [0x1E6E]); (0x1E71, [0x1E70]); (0x1E73, [0x1E72]);
    (0x1E75, [0x1E74]); (0x1E77, [0x1E76]); (0x1E79, [0x1E78]);
    (0x1E7B, [0x1E7A]); (0x1E7D, [0x1E7C]); (0x1E7F, [0x1E7E]);
    (0x1E81, [0x1E80]); (0x1E83, [0x1E82]); (0x1E85, [0x1E84]);
    (0x1E87, [0x1E86]); (0x1E89, [0x1E88]); (0x1E8B, [0x1E8A]);
    (0x1E8D, [0x1E8C]); (0x1E8F, [0x1E8E]); (0x1E91, [0x1E90]);
    (0x1E93, [0x1E92]); (0x1E95, [0x1E94]); (0x1E96, [0x48; 0x331]);
    (0x1E97, [0x54; 0x308]); (0x1E98, [0x57; 0x30A]);
    (0x1E99, [0x59; 0x30A]); (0x1E9A, [0x41; 0x2BE]); (0x1E9B, [0x1E60]);
    (0x1EA1, [0x1EA0]); (0x1EA3, [0x1EA2]); (0x1EA5, [0x1EA4]);
    (0x1EA7, [0x1EA6]); (0x1EA9, [0x1EA8]); (0x1EAB, [0x1EAA]);
    (0x1EAD, [0x1EAC]); (0x1EAF, [0x1EAE]); (0x1EB1, [0x1EB0]);
    (0x1EB3, [0x1EB2]); (0x1EB5, [0x1EB4]); (0x1EB7, [0x1EB6]);
    (0x1EB9, [0x1EB8]); (0x1EBB, [0x1EBA]); (0x1EBD, [0x1EBC]);
    (0x1EBF, [0x1EBE]); (0x1EC1, [0x1EC0]); (0x1EC3, [0x1EC2]);
    (0x1EC5, [0x1EC4]); (0x1EC7, [0x1EC6]); (0x1EC9, [0x1EC8]);
    (0x1ECB, [0x1ECA]); (0x1ECD, [0x1ECC]); (0x1ECF, [0x1ECE]);
    (0x1ED1, [0x1ED0]); (0x1ED3, [0x1ED2]); (0x1ED5, [0x1ED4]);
    (0x1ED7, [0x1ED6]); (0x1ED9, [0x1ED8]); (0x1EDB, [0x1EDA]);
    (0x1EDD, [0x1EDC]); (0x1EDF, [0x1EDE]); (0x1EE1, [0x1EE0]);
    (0x1EE3, [0x1EE2]); (0x1EE5, [0x1EE4]); (0x1EE7, [0x1EE6]);
    (0x1EE9, [0x1EE8]); (0x1EEB, [0x1EEA]); (0x1EED, [0x1EEC]);
    (0x1EEF, [0x1EEE]); (0x1EF1, [0x1EF0]); (0x1EF3, [0x1EF2]);
    (0x1EF5, [0x1EF4]); (0x1EF7, [0x1EF6]); (0x1EF9, [0x1EF8]);
    (0x1EFB, [0x1EFA]); (0x1EFD, [0x1EFC]); (0x1EFF, [0x1EFE]);
    (0x1F00, [0x1F08]); (0x1F01, [0x1F09]); (0x1F02, [0x1F0A]);
    (0x1F03, [0x1F0B]); (0x1F04, [0x1F0C]); (0x1F05, [0x1F0D]);
    (0x1F06, [0x1F0E]); (0x1F07, [0x1F0F]); (0x1F10, [0x1F18]);
    (0x1F11, [0x1F19]); (0x1F12, [0x1F1A]); (0x1F13, [0x1F1B]);
    (0x1F14, [0x1F1C]); (0x1F15, [0x1F1D]); (0x1F20, [0x1F28]);
    (0x1F21, [0x1F29]); (0x1F22, [0x1F2A]); (0x1F23, [0x1F2B]);
    (0x1F24, [0x1F2C]); (0x1F25, [0x1F2D]); (0x1F26, [0x1F2E]);
    (0x1F27, [0x1F2F]); (0x1F30, [0x1F38]); (0x1F31, [0x1F39]);
    (0x1F32, [0x1F3A]); (0x1F33, [0x1F3B]); (0x1F34, [0x1F3C]);
    (0x1F35, [0x1F3D]); (0x1F36, [0x1F3E]); (0x1F37, [0x1F3F]);
    (0x1F40, [0x1F48]); (0x1F41, [0x1F49]); (0x1F42, [0x1F4A]);
    (0x1F43, [0x1F4B]); (0x1F44, [0x1F4C]); (0x1F45, [0x1F4D]);
    (0x1F50, [0x3A5; 0x313]); (0x1F51, [0x1F59]);
    (0x1F52, [0x3A5; 0x313; 0x300]); (0x1F53, [0x1F5B]);
    (0x1F54, [0x3A5; 0x313; 0x301]); (0x1F55, [0x1F5D]);
    (0x1F56, [0x3A5; 0x313; 0x342]); (0x1F57, [0x1F5F]); (0x1F60, [0x1F68]);
    (0x1F61, [0x1F69]); (0x1F62, [0x1F6A]); (0x1F63, [0x1F6B]);
    (0x1F64, [0x1F6C]); (0x1F65, [0x1F6D]); (0x1F66, [0x1F6E]);
    (0x1F67, [0x1F6F]); (0x1F70, [0x1FBA]); (0x1F71, [0x1FBB]);
    (0x1F72, [0x1FC8]); (0x1F73, [0x1FC9]); (0x1F74, [0x1FCA]);
    (0x1F75, [0x1FCB]); (0x1F76, [0x1FDA]); (0x1F77, [0x1FDB]);
    (0x1F78, [0x1FF8]); (0x1F79, [0x1FF9]); (0x1F7A, [0x1FEA]);
    (0x1F7B, [0x1FEB]); (0x1F7C, [0x1FFA]); (0x1F7D, [0x1FFB]);
    (0x1F80, [0x1F08; 0x399]); (0x1F81, [0x1F09; 0x399]);
    (0x1F82, [0x1F0A; 0x399]); (0x1F83, [0x1F0B; 0x399]);
    (0x1F84, [0x1F0C; 0x399]); (0x1F85, [0x1F0D; 0x399]);
    (0x1F86, [0x1F0E; 0x399]); (0x1F87, [0x1F0F; 0x399]);
    (0x1F88, [0x1F08; 0x399]); (0x1F89, [0x1F09; 0x399]);
    (0x1F8A, [0x1F0A; 0x399]); (0x1F8B, [0x1F0B; 0x399]);
    (0x1F8C, [0x1F0C; 0x399]); (0x1F8D, [0x1F0D; 0x399]);
    (0x1F8E, [0x1F0E; 0x399]); (0x1F8F, [0x1F0F; 0x399]);
    (0x1F90, [0x1F28; 0x399]); (0x1F91, [0x1F29; 0x399]);
    (0x1F92, [0x1F2A; 0x399]); (0x1F93, [0x1F2B; 0x399]);
    (0x1F94, [0x1F2C; 0x399]); (0x1F95, [0x1F2D; 0x399]);
    (0x1F96, [0x1F2E; 0x399]); (0x1F97, [0x1F2F; 0x399]);
    (0x1F98, [0x1F28; 0x399]); (0x1F99, [0x1F29; 0x399]);
    (0x1F9A, [0x1F2A; 0x399]); (0x1F9B, [0x1F2B; 0x399]);
    (0x1F9C, [0x1F2C; 0x399]); (0x1F9D, [0x1F2D; 0x399]);
    (0x1F9E, [0x1F2E; 0x399]); (0x1F9F, [0x1F2F; 0x399]);
    (0x1FA0, [0x1F68; 0x399]); (0x1FA1, [0x1F69; 0x399]);
    (0x1FA2, [0x1F6A; 0x399]); (0x1FA3, [0x1F6B; 0x399]);
    (0x1FA4, [0x1F6C; 0x399]); (0x1FA5, [0x1F6D; 0x399]);
    (0x1FA6, [0x1F6E; 0x399]); (0x1FA7, [0x1F6F; 0x399]);
    (0x1FA8, [0x1F68; 0x399]); (0x1FA9, [0x1F69; 0x399]);
    (0x1FAA, [0x1F6A; 0x399]); (0x1FAB, [0x1F6B; 0x399]);
    (0x1FAC, [0x1F6C; 0x399]); (0x1FAD, [0x1F6D; 0x399]);
    (0x1FAE, [0x1F6E; 0x399]); (0x1FAF, [0x1F6F; 0x399]); (0x1FB0, [0x1FB8]);
    (0x1FB1, [0x1FB9]); (0x1FB2, [0x1FBA; 0x399]); (0x1FB3, [0x391; 0x399]);
    (0x1FB4, [0x386; 0x399]); (0x1FB6, [0x391; 0x342]);
    (0x1FB7, [0x391; 0x342; 0x399]); (0x1FBC, [0x391; 0x399]);
    (0x1FBE, [0x399]); (0x1FC2, [0x1FCA; 0x399]); (0x1FC3, [0x397; 0x399]);
    (0x1FC4, [0x389; 0x399]); (0x1FC6, [0x397; 0x342]);
    (0x1FC7, [0x397; 0x342; 0x399]); (0x1FCC, [0x397; 0x399]);
    (0x1FD0, [0x1FD8]); (0x1FD1, [0x1FD9]); (0x1FD2, [0x399; 0x308; 0x300]);
    (0x1FD3, [0x399; 0x308; 0x301]); (0x1FD6, [0x399; 0x342]);
    (0x1FD7, [0x399; 0x308; 0x342]); (0x1FE0, [0x1FE8]); (0x1FE1, [0x1FE9]);
    (0x1FE2, [0x3A5; 0x308; 0x300]); (0x1FE3, [0x3A5; 0x308; 0x301]);
    (0x1FE4, [0x3A1; 0x313]); (0x1FE5, [0x1FEC]); (0x1FE6, [0x3A5; 0x342]);
    (0x1FE7, [0x3A5; 0x308; 0x342]); (0x1FF2, [0x1FFA; 0x399]);
    (0x1FF3, [0x3A9; 0x399]); (0x1FF4, [0x38F; 0x399]);
    (0x1FF6, [0x3A9; 0x342]); (0x1FF7, [0x3A9; 0x342; 0x399]);
    (0x1FFC, [0x3A9; 0x399]); (0x214E, [0x2132]); (0x2170, [0x2160]);
    (0x2171, [0x2161]); (0x2172, [0x2162]); (0x2173, [0x2163]);
    (0x2174, [0x2164]); (0x2175, [0x2165]); (0x2176, [0x2166]);
    (0x2177, [0x2167]); (0x2178, [0x2168]); (0x2179, [0x2169]);
    (0x217A, [0x216A]); (0x217B, [0x216B]); (0x217C, [0x216C]);
    (0x217D, [0x216D]); (0x217E, [0x216E]); (0x217F, [0x216F]);
    (0x2184, [0x2183]); (0x24D0, [0x24B6]); (0x24D1, [0x24B7]);
    (0x24D2, [0x24B8]); (0x24D3, [0x24B9]); (0x24D4, [0x24BA]);
    (0x24D5, [0x24BB]); (0x24D6, [0x24BC]); (0x24D7, [0x24BD]);
    (0x24D8, [0x24BE]); (0x24D9, [0x24BF]); (0x24DA, [0x24C0]);
    (0x24DB, [0x24C1]); (0x24DC, [0x24C2]); (0x24DD, [0x24C3]);
    (0x24DE, [0x24C4]); (0x24DF, [0x24C5]); (0x24E0, [0x24C6]);
    (0x24E1, [0x24C7]); (0x24E2, [0x24C8]); (0x24E3, [0x24C9]);
    (0x24E4, [0x24CA]); (0x24E5, [0x24CB]); (0x24E6, [0x24CC]);
    (0x24E7, [0x24CD]); (0x24E8, [0x24CE]); (0x24E9, [0x24CF]);
    (0x2C30, [0x2C00]); (0x2C31, [0x2C01]); (0x2C32, [0x2C02]);
    (0x2C33, [0x2C03]); (0x2C34, [0x2C04]); (0x2C35, [0x2C05]);
    (0x2C36, [0x2C06]); (0x2C37, [0x2C07]); (0x2C38, [0x2C08]);
    (0x2C39, [0x2C09]); (0x2C3A, [0x2C0A]); (0x2C3B, [0x2C0B]);
    (0x2C3C, [0x2C0C]); (0x2C3D, [0x2C0D]); (0x2C3E, [0x2C0E]);
    (0x2C3F, [0x2C0F]); (0x2C40, [0x2C10]); (0x2C41, [0x2C11]);
    (0x2C42, [0x2C12]); (0x2C43, [0x2C13]); (0x2C44, [0x2C14]);
    (0x2C45, [0x2C15]); (0x2C46, [0x2C16]); (0x2C47, [0x2C17]);
    (0x2C48, [0x2C18]); (0x2C49, [0x2C19]); (0x2C4A, [0x2C1A]);
    (0x2C4B, [0x2C1B]); (0x2C4C, [0x2C1C]); (0x2C4D, [0x2C1D]);
    (0x2C4E, [0x2C1E]); (0x2C4F, [0x2C1F]); (0x2C50, [0x2C20]);
    (0x2C51, [0x2C21]); (0x2C52, [0x2C22]); (0x2C53, [0x2C23]);
    (0x2C54, [0x2C24]); (0x2C55, [0x2C25]); (0x2C56, [0x2C26]);
    (0x2C57, [0x2C27]); (0x2C58, [0x2C28]); (0x2C59, [0x2C29]);
    (0x2C5A, [0x2C2A]); (0x2C5B, [0x2C2B]); (0x2C5C, [0x2C2C]);
    (0x2C5D, [0x2C2D]); (0x2C5E, [0x2C2E]); (0x2C5F, [0x2C2F]);
    (0x2C61, [0x2C60]); (0x2C65, [0x23A]); (0x2C66, [0x23E]);
    (0x2C68, [0x2C67]); (0x2C6A, [0x2C69]); (0x2C6C, [0x2C6B]);
    (0x2C73, [0x2C72]); (0x2C76, [0x2C75]); (0x2C81, [0x2C80]);
    (0x2C83, [0x2C82]); (0x2C85, [0x2C84]); (0x2C87, [0x2C86]);
    (0x2C89, [0x2C88]); (0x2C8B, [0x2C8A]); (0x2C8D, [0x2C8C]);
    (0x2C8F, [0x2C8E]); (0x2C91, [0x2C90]); (0x2C93, [0x2C92]);
    (0x2C95, [0x2C94]); (0x2C97, [0x2C96]); (0x2C99, [0x2C98]);
    (0x2C9B, [0x2C9A]); (0x2C9D, [0x2C9C]); (0x2C9F, [0x2C9E]);
    (0x2CA1, [0x2CA0]); (0x2CA3, [0x2CA2]); (0x2CA5, [0x2CA4]);
    (0x2CA7, [0x2CA6]); (0x2CA9, [0x2CA8]); (0x2CAB, [0x2CAA]);
    (0x2CAD, [0x2CAC]); (0x2CAF, [0x2CAE]); (0x2CB1, [0x2CB0]);
    (0x2CB3, [0x2CB2]); (0x2CB5, [0x2CB4]); (0x2CB7, [0x2CB6]);
    (0x2CB9, [0x2CB8]); (0x2CBB, [0x2CBA]); (0x2CBD, [0x2CBC]);
    (0x2CBF, [0x2CBE]); (0x2CC1, [0x2CC0]); (0x2CC3, [0x2CC2]);
    (0x2CC5, [0x2CC4]); (0x2CC7, [0x2CC6]); (0x2CC9, [0x2CC8]);
    (0x2CCB, [0x2CCA]); (0x2CCD, [0x2CCC]); (0x2CCF, [0x2CCE]);
    (0x2CD1, [0x2CD0]); (0x2CD3, [0x2CD2]); (0x2CD5, [0x2CD4]);
    (0x2CD7, [0x2CD6]); (0x2CD9, [0x2CD8]); (0x2CDB, [0x2CDA]);
    (0x2CDD, [0x2CDC]); (0x2CDF, [0x2CDE]); (0x2CE1, [0x2CE0]);
    (0x2CE3, [0x2CE2]); (0x2CEC, [0x2CEB]); (0x2CEE, [0x2CED]);
    (0x2CF3, [0x2CF2]); (0x2D00, [0x10A0]); (0x2D01, [0x10A1]);
    (0x2D02, [0x10A2]); (0x2D03, [0x10A3]); (0x2D04, [0x10A4]);
    (0x2D05, [0x10A5]); (0x2D06, [0x10A6]); (0x2D07, [0x10A7]);
    (0x2D08, [0x10A8]); (0x2D09, [0x10A9]); (0x2D0A, [0x10AA]);
    (0x2D0B, [0x10AB]); (0x2D0C, [0x10AC]); (0x2D0D, [0x10AD]);
    (0x2D0E, [0x10AE]); (0x2D0F, [0x10AF]); (0x2D10, [0x10B0]);
    (0x2D11, [0x10B1]); (0x2D12, [0x10B2]); (0x2D13, [0x10B3]);
    (0x2D14, [0x10B4]); (0x2D15, [0x10B5]); (0x2D16, [0x10B6]);
    (0x2D17, [0x10B7]); (0x2D18, [0x10B8]); (0x2D19, [0x10B9]);
    (0x2D1A, [0x10BA]); (0x2D1B, [0x10BB]); (0x2D1C, [0x10BC]);
    (0x2D1D, [0x10BD]); (0x2D1E, [0x10BE]); (0x2D1F, [0x10BF]);
    (0x2D20, [0x10C0]); (0x2D21, [0x10C1]); (0x2D22, [0x10C2]);
    (0x2D23, [0x10C3]); (0x2D24, [0x10C4]); (0x2D25, [0x10C5]);
    (0x2D27, [0x10C7]); (0x2D2D, [0x10CD]); (0xA641, [0xA640]);
    (0xA643, [0xA642]); (0xA645, [0xA644]); (0xA647, [0xA646]);
    (0xA649, [0xA648]); (0xA64B, [0xA64A]); (0xA64D, [0xA64C]);
    (0xA64F, [0xA64E]); (0xA651, [0xA650]); (0xA653, [0xA652]);
    (0xA655, [0xA654]); (0xA657, [0xA656]); (0xA659, [0xA658]);
    (0xA65B, [0xA65A]); (0xA65D, [0xA65C]); (0xA65F, [0xA65E]);
    (0xA661, [0xA660]); (0xA663, [0xA662]); (0xA665, [0xA664]);
    (0xA667, [0xA666]); (0xA669, [0xA668]); (0xA66B, [0xA66A]);
    (0xA66D, [0xA66C]); (0xA681, [0xA680]); (0xA683, [0xA682]);
    (0xA685, [0xA684]); (0xA687, [0xA686]); (0xA689, [0xA688]);
    (0xA68B, [0xA68A]); (0xA68D, [0xA68C]); (0xA68F, [0xA68E]);
    (0xA691, [0xA690]); (0xA693, [0xA692]); (0xA695, [0xA694]);
    (0xA697, [0xA696]); (0xA699, [0xA698]); (0xA69B, [0xA69A]);
    (0xA723, [0xA722]); (0xA725, [0xA724]); (0xA727, [0xA726]);
    (0xA729, [0xA728]); (0xA72B, [0xA72A]); (0xA72D, [0xA72C]);
    (0xA72F, [0xA72E]); (0xA733, [0xA732]); (0xA735, [0xA734]);
    (0xA737, [0xA736]); (0xA739, [0xA738]); (0xA73B, [0xA73A]);
    (0xA73D, [0xA73C]); (0xA73F, [0xA73E]); (0xA741, [0xA740]);
    (0xA743, [0xA742]); (0xA745, [0xA744]); (0xA747, [0xA746]);
    (0xA749, [0xA748]); (0xA74B, [0xA74A]); (0xA74D, [0xA74C]);
    (0xA74F, [0xA74E]); (0xA751, [0xA750]); (0xA753, [0xA752]);
    (0xA755, [0xA754]); (0xA757, [0xA756]); (0xA759, [0xA758]);
    (0xA75B, [0xA75A]); (0xA75D, [0xA75C]); (0xA75F, [0xA75E]);
    (0xA761, [0xA760]); (0xA763, [0xA762]); (0xA765, [0xA764]);
    (0xA767, [0xA766]); (0xA769, [0xA768]); (0xA76B, [0xA76A]);
    (0xA76D, [0xA76C]); (0xA76F, [0xA76E]); (0xA77A, [0xA779]);
    (0xA77C, [0xA77B]); (0xA77F, [0xA77E]); (0xA781, [0xA780]);
    (0xA783, [0xA782]); (0xA785, [0xA784]); (0xA787, [0xA786]);
    (0xA78C, [0xA78B]); (0xA791, [0xA790]); (0xA793, [0xA792]);
    (0xA794, [0xA7C4]); (0xA797, [0xA796]); (0xA799, [0xA798]);
    (0xA79B, [0xA79A]); (0xA79D, [0xA79C]); (0xA79F, [0xA79E]);
    (0xA7A1, [0xA7A0]); (0xA7A3, [0xA7A2]); (0xA7A5, [0xA7A4]);
    (0xA7A7, [0xA7A6]); (0xA7A9, [0xA7A8]); (0xA7B5, [0xA7B4]);
    (0xA7B7, [0xA7B6]); (0xA7B9, [0xA7B8]); (0xA7BB, [0xA7BA]);
    (0xA7BD, [0xA7BC]); (0xA7BF, [0xA7BE]); (0xA7C1, [0xA7C0]);
    (0xA7C3, [0xA7C2]); (0xA7C8, [0xA7C7]); (0xA7CA, [0xA7C9]);
    (0xA7D1, [0xA7D0]); (0xA7D7, [0xA7D6]); (0xA7D9, [0xA7D8]);
    (0xA7F6, [0xA7F5]); (0xAB53, [0xA7B3]); (0xAB70, [0x13A0]);
    (0xAB71, [0x13A1]); (0xAB72, [0x13A2]); (0xAB73, [0x13A3]);
    (0xAB74, [0x13A4]); (0xAB75, [0x13A5]); (0xAB76, [0x13A6]);
    (0xAB77, [0x13A7]); (0xAB78, [0x13A8]); (0xAB79, [0x13A9]);
    (0xAB7A, [0x13AA]); (0xAB7B, [0x13AB]); (0xAB7C, [0x13AC]);
    (0xAB7D, [0x13AD]); (0xAB7E, [0x13AE]); (0xAB7F, [0x13AF]);
    (0xAB80, [0x13B0]); (0xAB81, [0x13B1]); (0xAB82, [0x13B2]);
    (0xAB83, [0x13B3]); (0xAB84, [0x13B4]); (0xAB85, [0x13B5]);
    (0xAB86, [0x13B6]); (0xAB87, [0x13B7]); (0xAB88, [0x13B8]);
    (0xAB89, [0x13B9]); (0xAB8A, [0x13BA]); (0xAB8B, [0x13BB]);
    (0xAB8C, [0x13BC]); (0xAB8D, [0x13BD]); (0xAB8E, [0x13BE]);
    (0xAB8F, [0x13BF]); (0xAB90, [0x13C0]); (0xAB91, [0x13C1]);
    (0xAB92, [0x13C2]); (0xAB93, [0x13C3]); (0xAB94, [0x13C4]);
    (0xAB95, [0x13C5]); (0xAB96, [0x13C6]); (0xAB97, [0x13C7]);
    (0xAB98, [0x13C8]); (0xAB99, [0x13C9]); (0xAB9A, [0x13CA]);
    (0xAB9B, [0x13CB]); (0xAB9C, [0x13CC]); (0xAB9D, [0x13CD]);
    (0xAB9E, [0x13CE]); (0xAB9F, [0x13CF]); (0xABA0, [0x13D0]);
    (0xABA1, [0x13D1]); (0xABA2, [0x13D2]); (0xABA3, [0x13D3]);
    (0xABA4, [0x13D4]); (0xABA5, [0x13D5]); (0xABA6, [0x13D6]);
    (0xABA7, [0x13D7]); (0xABA8, [0x13D8]); (0xABA9, [0x13D9]);
    (0xABAA, [0x13DA]); (0xABAB, [0x13DB]); (0xABAC, [0x13DC]);
    (0xABAD, [0x13DD]); (0xABAE, [0x13DE]); (0xABAF, [0x13DF]);
    (0xABB0, [0x13E0]); (0xABB1, [0x13E1]); (0xABB2, [0x13E2]);
    (0xABB3, [0x13E3]); (0xABB4, [0x13E4]); (0xABB5, [0x13E5]);
    (0xABB6, [0x13E6]); (0xABB7, [0x13E7]); (0xABB8, [0x13E8]);
    (0xABB9, [0x13E9]); (0xABBA, [0x13EA]); (0xABBB, [0x13EB]);
    (0xABBC, [0x13EC]); (0xABBD, [0x13ED]); (0xABBE, [0x13EE]);
    (0xABBF, [0x13EF]); (0xFB00, [0x46; 0x46]); (0xFB01, [0x46; 0x49]);
    (0xFB02, [0x46; 0x4C]); (0xFB03, [0x46; 0x46; 0x49]);
    (0xFB04, [0x46; 0x46; 0x4C]); (0xFB05, [0x53; 0x54]);
    (0xFB06, [0x53; 0x54]); (0xFB13, [0x544; 0x546]);
    (0xFB14, [0x544; 0x535]); (0xFB15, [0x544; 0x53B]);
    (0xFB16, [0x54E; 0x546]); (0xFB17, [0x544; 0x53D]); (0xFF41, [0xFF21]);
    (0xFF42, [0xFF22]); (0xFF43, [0xFF23]); (0xFF44, [0xFF24]);
    (0xFF45, [0xFF25]); (0xFF46, [0xFF26]); (0xFF47, [0xFF27]);
    (0xFF48, [0xFF28]); (0xFF49, [0xFF29]); (0xFF4A, [0xFF2A]);
    (0xFF4B, [0xFF2B]); (0xFF4C, [0xFF2C]); (0xFF4D, [0xFF2D]);
    (0xFF4E, [0xFF2E]); (0xFF4F, [0xFF2F]); (0xFF50, [0xFF30]);
    (0xFF51, [0xFF31]); (0xFF52, [0xFF32]); (0xFF53, [0xFF33]);
    (0xFF54, [0xFF34]); (0xFF55, [0xFF35]); (0xFF56, [0xFF36]);
    (0xFF57, [0xFF37]); (0xFF58, [0xFF38]); (0xFF59, [0xFF39]);
    (0xFF5A, [0xFF3A]); (0x10428, [0x10400]); (0x10429, [0x10401]);
    (0x1042A, [0x10402]); (0x1042B, [0x10403]); (0x1042C, [0x10404]);
    (0x1042D, [0x10405]); (0x1042E, [0x10406]); (0x1042F, [0x10407]);
    (0x10430, [0x10408]); (0x10431, [0x10409]); (0x10432, [0x1040A]);
    (0x10433, [0x1040B]); (0x10434, [0x1040C]); (0x10435, [0x1040D]);
    (0x10436, [0x1040E]); (0x10437, [0x1040F]); (0x10438, [0x10410]);
    (0x10439, [0x10411]); (0x1043A, [0x10412]); (0x1043B, [0x10413]);
    (0x1043C, [0x10414]); (0x1043D, [0x10415]); (0x1043E, [0x10416]);
    (0x1043F, [0x10417]); (0x10440, [0x10418]); (0x10441, [0x10419]);
    (0x10442, [0x1041A]); (0x10443, [0x1041B]); (0x10444, [0x1041C]);
    (0x10445, [0x1041D]); (0x10446, [0x1041E]); (0x10447, [0x1041F]);
    (0x10448, [0x10420]); (0x10449, [0x10421]); (0x1044A, [0x10422]);
    (0x1044B, [0x10423]); (0x1044C, [0x10424]); (0x1044D, [0x10425]);
    (0x1044E, [0x10426]); (0x1044F, [0x10427]); (0x104D8, [0x104B0]);
    (0x104D9, [0x104B1]); (0x104DA, [0x104B2]); (0x104DB, [0x104B3]);
    (0x104DC, [0x104B4]); (0x104DD, [0x104B5]); (0x104DE, [0x104B6]);
    (0x104DF, [0x104B7]); (0x104E0, [0x104B8]); (0x104E1, [0x104B9]);
    (0x104E2, [0x104BA]); (0x104E3, [0x104BB]); (0x104E4, [0x104BC]);
    (0x104E5, [0x104BD]); (0x104E6, [0x104BE]); (0x104E7, [0x104BF]);
    (0x104E8, [0x104C0]); (0x104E9, [0x104C1]); (0x104EA, [0x104C2]);
    (0x104EB, [0x104C3]); (0x104EC, [0x104C4]); (0x104ED, [0x104C5]);
    (0x104EE, [0x104C6]); (0x104EF, [0x104C7]); (0x104F0, [0x104C8]);
    (0x104F1, [0x104C9]); (0x104F2, [0x104CA]); (0x104F3, [0x104CB]);
    (0x104F4, [0x104CC]); (0x104F5, [0x104CD]); (0x104F6, [0x104CE]);
    (0x104F7, [0x104CF]); (0x104F8, [0x104D0]); (0x104F9, [0x104D1]);
    (0x104FA, [0x104D2]); (0x104FB, [0x104D3]); (0x10597, [0x10570]);
    (0x10598, [0x10571]); (0x10599, [0x10572]); (0x1059A, [0x10573]);
    (0x1059B, [0x10574]); (0x1059C, [0x10575]); (0x1059D, [0x10576]);
    (0x1059E, [0x10577]); (0x1059F, [0x10578]); (0x105A0, [0x10579]);
    (0x105A1, [0x1057A]); (0x105A3, [0x1057C]); (0x105A4, [0x1057D]);
    (0x105A5, [0x1057E]); (0x105A6, [0x1057F]); (0x105A7, [0x10580]);
    (0x105A8, [0x10581]); (0x105A9, [0x10582]); (0x105AA, [0x10583]);
    (0x105AB, [0x10584]); (0x105AC, [0x10585]); (0x105AD, [0x10586]);
    (0x105AE, [0x10587]); (0x105AF, [0x10588]); (0x105B0, [0x10589]);
    (0x105B1, [0x1058A]); (0x105B3, [0x1058C]); (0x105B4, [0x1058D]);
    (0x105B5, [0x1058E]); (0x105B6, [0x1058F]); (0x105B7, [0x10590]);
    (0x105B8, [0x10591]); (0x105B9, [0x10592]); (0x105BB, [0x10594]);
    (0x105BC, [0x10595]); (0x10CC0, [0x10C80]); (0x10CC1, [0x10C81]);
    (0x10CC2, [0x10C82]); (0x10CC3, [0x10C83]); (0x10CC4, [0x10C84]);
    (0x10CC5, [0x10C85]); (0x10CC6, [0x10C86]); (0x10CC7, [0x10C87]);
    (0x10CC8, [0x10C88]); (0x10CC9, [0x10C89]); (0x10CCA, [0x10C8A]);
    (0x10CCB, [0x10C8B]); (0x10CCC, [0x10C8C]); (0x10CCD, [0x10C8D]);
    (0x10CCE, [0x10C8E]); (0x10CCF, [0x10C8F]); (0x10CD0, [0x10C90]);
    (0x10CD1, [0x10C91]); (0x10CD2, [0x10C92]); (0x10CD3, [0x10C93]);
    (0x10CD4, [0x10C94]); (0x10CD5, [0x10C95]); (0x10CD6, [0x10C96]);
    (0x10CD7, [0x10C97]); (0x10CD8, [0x10C98]); (0x10CD9, [0x10C99]);
    (0x10CDA, [0x10C9A]); (0x10CDB, [0x10C9B]); (0x10CDC, [0x10C9C]);
    (0x10CDD, [0x10C9D]); (0x10CDE, [0x10C9E]); (0x10CDF, [0x10C9F]);
    (0x10CE0, [0x10CA0]); (0x10CE1, [0x10CA1]); (0x10CE2, [0x10CA2]);
    (0x10CE3, [0x10CA3]); (0x10CE4, [0x10CA4]); (0x10CE5, [0x10CA5]);
    (0x10CE6, [0x10CA6]); (0x10CE7, [0x10CA7]); (0x10CE8, [0x10CA8]);
    (0x10CE9, [0x10CA9]); (0x10CEA, [0x10CAA]); (0x10CEB, [0x10CAB]);
    (0x10CEC, [0x10CAC]); (0x10CED, [0x10CAD]); (0x10CEE, [0x10CAE]);
    (0x10CEF, [0x10CAF]); (0x10CF0, [0x10CB0]); (0x10CF1, [0x10CB1]);
    (0x10CF2, [0x10CB2]); (0x118C0, [0x118A0]); (0x118C1, [0x118A1]);
    (0x118C2, [0x118A2]); (0x118C3, [0x118A3]); (0x118C4, [0x118A4]);
    (0x118C5, [0x118A5]); (0x118C6, [0x118A6]); (0x118C7, [0x118A7]);
    (0x118C8, [0x118A8]); (0x118C9, [0x118A9]); (0x118CA, [0x118AA]);
    (0x118CB, [0x118AB]); (0x118CC, [0x118AC]); (0x118CD, [0x118AD]);
    (0x118CE, [0x118AE]); (0x118CF, [0x118AF]); (0x118D0, [0x118B0]);
    (0x118D1, [0x118B1]); (0x118D2, [0x118B2]); (0x118D3, [0x118B3]);
    (0x118D4, [0x118B4]); (0x118D5, [0x118B5]); (0x118D6, [0x118B6]);
    (0x118D7, [0x118B7]); (0x118D8, [0x118B8]); (0x118D9, [0x118B9]);
    (0x118DA, [0x118BA]); (0x118DB, [0x118BB]); (0x118DC, [0x118BC]);
    (0x118DD, [0x118BD]); (0x118DE, [0x118BE]); (0x118DF, [0x118BF]);
    (0x16E60, [0x16E40]); (0x16E61, [0x16E41]); (0x16E62, [0x16E42]);
    (0x16E63, [0x16E43]); (0x16E64, [0x16E44]); (0x16E65, [0x16E45]);
    (0x16E66, [0x16E46]); (0x16E67, [0x16E47]); (0x16E68, [0x16E48]);
    (0x16E69, [0x16E49]); (0x16E6A, [0x16E4A]); (0x16E6B, [0x16E4B]);
    (0x16E6C, [0x16E4C]); (0x16E6D, [0x16E4D]); (0x16E6E, [0x16E4E]);
    (0x16E6F, [0x16E4F]); (0x16E70, [0x16E50]); (0x16E71, [0x16E51]);
    (0x16E72, [0x16E52]); (0x16E73, [0x16E53]); (0x16E74, [0x16E54]);
    (0x16E75, [0x16E55]); (0x16E76, [0x16E56]); (0x16E77, [0x16E57]);
    (0x16E78, [0x16E58]); (0x16E79, [0x16E59]); (0x16E7A, [0x16E5A]);
    (0x16E7B, [0x16E5B]); (0x16E7C, [0x16E5C]); (0x16E7D, [0x16E5D]);
    (0x16E7E, [0x16E5E]); (0x16E7F, [0x16E5F]); (0x1E922, [0x1E900]);
    (0x1E923, [0x1E901]); (0x1E924, [0x1E902]); (0x1E925, [0x1E903]);
    (0x1E926, [0x1E904]); (0x1E927, [0x1E905]); (0x1E928, [0x1E906]);
    (0x1E929, [0x1E907]); (0x1E92A, [0x1E908]); (0x1E92B, [0x1E909]);
    (0x1E92C, [0x1E90A]); (0x1E92D, [0x1E90B]); (0x1E92E, [0x1E90C]);
    (0x1E92F, [0x1E90D]); (0x1E930, [0x1E90E]); (0x1E931, [0x1E90F]);
    (0x1E932, [0x1E910]); (0x1E933, [0x1E911]); (0x1E934, [0x1E912]);
    (0x1E935, [0x1E913]); (0x1E936, [0x1E914]); (0x1E937, [0x1E915]);
    (0x1E938, [0x1E916]); (0x1E939, [0x1E917]); (0x1E93A, [0x1E918]);
    (0x1E93B, [0x1E919]); (0x1E93C, [0x1E91A]); (0x1E93D, [0x1E91B]);
    (0x1E93E, [0x1E91C]); (0x1E93F, [0x1E91D]); (0x1E940, [0x1E91E]);
    (0x1E941, [0x1E91F]); (0x1E942, [0x1E920]); (0x1E943, [0x1E921]) ].

(** Full upper-case mapping of one code point: a code point that is not
    in the table is its own upper-case form. *)
Definition upper_cp (c : codepoint) : str :=
  match find (fun e => fst e =? c) upper_table with
  | Some e => snd e
  | None => [c]
  end.

(** [s.upper()] *)
Definition upper (s : str) : str := flat_map upper_cp s.

(** Folding of ASCII letter case only, used to say that two strings
    differ in nothing but the case of their ASCII letters. *)
Definition ascii_fold (c : codepoint) : codepoint :=
  if is_ascii_lower c then c - 0x20 else c.

Definition same_modulo_case (a b : str) : Prop :=
  List.map ascii_fold a = List.map ascii_fold b.

Definition is_ascii (s : str) : bool := forallb (fun c => c <? 0x80) s.

(** [needle in s] as a proposition. *)
Definition contains (s needle : str) : Prop :=
  exists pre post, s = pre ++ needle ++ post.

End PyStr.

Abbreviation str := PyStr.str.
Abbreviation lit := PyStr.lit.

(* ------------------------------------------------------------------ *)
(** ** Python floats and the [float(str)] constructor *)
(* ------------------------------------------------------------------ *)

Module PyFloat.

Local Open Scope N_scope.

(** binary64 *)
Definition prec : Z := 53.
Definition emax : Z := 1024.

Definition float := spec_float.

Definition zero : float := S754_zero false.
Definition nan : float := S754_nan.
Definition inf (negative : bool) : float := S754_infinity negative.

(** [a <= b] and [a > b] on floats; both are [False] when either side is
    a NaN. *)
Definition le (a b : float) : bool := SFleb a b.
Definition gt (a b : float) : bool := SFltb b a.

Definition is_digit (c : N) : bool := PyStr.in_range 0x30 0x39 c.

(** C-locale whitespace of the parser ([Py_ISSPACE]). *)
Definition c_isspace (c : N) : bool := PyStr.in_range 0x09 0x0D c || (c =? 0x20).

(** The digits zero of the decimal digits of Unicode 14.0 (general
    category Nd); the nine code points after each are its digits one to
    nine. *)
Definition decimal_zeros : list N :=
  [ 0x30; 0x660; 0x6F0; 0x7C0; 0x966; 0x9E6; 0xA66; 0xAE6; 0xB66; 0xBE6;
    0xC66; 0xCE6; 0xD66; 0xDE6; 0xE50; 0xED0; 0xF20; 0x1040; 0x1090; 0x17E0;
    0x1810; 0x1946; 0x19D0; 0x1A80; 0x1A90; 0x1B50; 0x1BB0; 0x1C40; 0x1C50;
    0xA620; 0xA8D0; 0xA900; 0xA9D0; 0xA9F0; 0xAA50; 0xABF0; 0xFF10; 0x104A0;
    0x10D30; 0x11066; 0x110F0; 0x11136; 0x111D0; 0x112F0; 0x11450; 0x114D0;
    0x11650; 0x116C0; 0x11730; 0x118E0; 0x11950; 0x11C50; 0x11D50; 0x11DA0;
    0x16A60; 0x16AC0; 0x16B50; 0x1D7CE; 0x1D7D8; 0x1D7E2; 0x1D7EC; 0x1D7F6;
    0x1E140; 0x1E2F0; 0x1E950; 0x1FBF0 ].

(** Decimal value of a code point that is a decimal digit
    ([Py_UNICODE_TODECIMAL]). *)
Definition to_decimal (c : N) : option N :=
  match find (fun z => (z <=? c) && (c <=? z + 9)) decimal_zeros with
  | Some z => Some (c - z)
  | None => None
  end.

(** Step 1: a string that is not pure ASCII has its Unicode whitespace
    replaced by a space and its Unicode digits by ASCII digits; at the
    first other non-ASCII character a question mark is written and the
    rest is dropped. *)
Fixpoint transform_non_ascii (s : str) : str :=
  match s with
  | [] => []
  | c :: r =>
      if c <? 127 then c :: transform_non_ascii r
      else if PyStr.isspace c then 0x20 :: transform_non_ascii r
      else match to_decimal c with
           | Some d => (0x30 + d) :: transform_non_ascii r
           | None => [0x3F]
           end
  end.

Definition to_ascii (s : str) : str :=
  if PyStr.is_ascii s then s else transform_non_ascii s.

(** Step 2: leading and trailing C whitespace is removed. *)
Fixpoint c_lstrip (s : str) : str :=
  match s with
  | c :: r => if c_isspace c then c_lstrip r else s
  | [] => []
  end.

Definition c_strip (s : str) : str := rev (c_lstrip (rev (c_lstrip s))).

(** Step 3: an underscore is accepted only between two digits and is
    removed; [prev] is the previous character (NUL at the start). *)
Fixpoint drop_underscores (prev : N) (s : str) : option str :=
  match s with
  | [] => if prev =? 0x5F then None else Some []
  | c :: r =>
      if c =? 0x5F then
        if is_digit prev then drop_underscores c r else None
      else if (prev =? 0x5F) && negb (is_digit c) then None
      else option_map (cons c) (drop_underscores c r)
  end.

(** Step 4: the numeral.  *)
Fixpoint span_digits (s : str) : str * str :=
  match s with
  | c :: r =>
      if is_digit c then let (d, t) := span_digits r in (c :: d, t)
      else ([], s)
  | [] => ([], [])
  end.

Definition digits_value (d : str) : Z :=
  fold_left (fun acc c => (10 * acc + Z.of_N (c - 0x30))%Z) d 0%Z.

Definition take_sign (s : str) : bool * str :=
  match s with
  | 0x2D :: r => (true, r)
  | 0x2B :: r => (false, r)
  | _ => (false, s)
  end.

(** The correctly rounded (to nearest, ties to even) binary64 value of
    [d * 10^e] for [d >= 0]; it overflows to an infinity and underflows
    to a subnormal or a zero. *)
Definition round_decimal (negative : bool) (d e : Z) : float :=
  match d with
  | Zpos m =>
      let num := (m * Z.to_pos (10 ^ Z.max e 0))%positive in
      let den := Z.to_pos (10 ^ Z.max (- e) 0) in
      SFdiv prec emax (S754_finite negative num 0) (S754_finite false den 0)
  | _ => S754_zero negative
  end.

(** [[sign] digits [. digits] [(e|E) [sign] digits]] with at least one
    digit before the exponent; an exponent marker without digits is not
    consumed.  Returns the value and the unread rest. *)
Definition parse_decimal (s : str) : option (float * str) :=
  let (neg, s0) := take_sign s in
  let (ip, s1) := span_digits s0 in
  let (fp, s2) :=
    match s1 with
    | 0x2E :: r => span_digits r
    | _ => ([], s1)
    end in
  match ip ++ fp with
  | [] => None
  | ds =>
      let (ex, s3) :=
        match s2 with
        | c :: r =>
            if (c =? 0x65) || (c =? 0x45) then
              let (eneg, r0) := take_sign r in
              let (ed, r1) := span_digits r0 in
              match ed with
              | [] => (0%Z, s2)
              | _ => ((if eneg then - digits_value ed else digits_value ed)%Z, r1)
              end
            else (0%Z, s2)
        | [] => (0%Z, s2)
        end in
      Some (round_decimal neg (digits_value ds) (ex - Z.of_nat (List.length fp)), s3)
  end.

Definition c_tolower (c : N) : N := if PyStr.is_ascii_upper c then c + 0x20 else c.

(** [t] (lower case) is a prefix of [s] up to ASCII case; returns the rest. *)
Fixpoint match_nocase (t s : str) : option str :=
  match t, s with
  | [], _ => Some s
  | x :: t', c :: s' => if c_tolower c =? x then match_nocase t' s' else None
  | _ :: _, [] => None
  end.

(** [[sign] inf[inity]] and [[sign] nan], in any letter case. *)
Definition parse_inf_or_nan (s : str) : option (float * str) :=
  let (neg, s0) := take_sign s in
  match match_nocase (lit "inf") s0 with
  | Some r =>
      match match_nocase (lit "inity") r with
      | Some r' => Some (inf neg, r')
      | None => Some (inf neg, r)
      end
  | None =>
      match match_nocase (lit "nan") s0 with
      | Some r => Some (nan, r)
      | None => None
      end
  end.

(** [float(s)] for a string [s]; [None] stands for [ValueError].  The
    whole of the stripped string must be consumed. *)
Definition of_str (s : str) : option float :=
  match c_strip (to_ascii s) with
  | [] => None
  | t =>
      match drop_underscores 0 t with
      | None => None
      | Some u =>
          match
            match parse_decimal u with
            | Some r => Some r
            | None => parse_inf_or_nan u
            end
          with
          | Some (x, []) => Some x
          | _ => None
          end
      end
  end.

End PyFloat.

Abbreviation float := PyFloat.float.

(* ------------------------------------------------------------------ *)
(** ** Exceptions and results *)
(* ------------------------------------------------------------------ *)

(** The two exception classes the bot itself raises, with [str(e)]. *)
Inductive exn : Type :=
| ValueError (msg : str)
| TradingBotError (msg : str).

Inductive result (A : Type) : Type :=
| Return (a : A)
| Raise (e : exn).

Arguments Return {A} a.
Arguments Raise {A} e.

Definition bind {A B : Type} (r : result A) (k : A -> result B) : result B :=
  match r with
  | Return a => k a
  | Raise e => Raise e
  end.

Notation "x <- r ;; k" := (bind r (fun x => k))
  (at level 61, r at next level, right associativity).

Definition raises {A : Type} (r : result A) : Prop := exists e, r = Raise e.

(* ------------------------------------------------------------------ *)
(** ** Data containers *)
(* ------------------------------------------------------------------ *)

(** [@dataclass OrderParams] *)
Record OrderParams : Type := mkOrderParams {
  symbol : str;
  side : str;
  order_type : str;
  quantity : float;
  price : option float;
  stop_price : option float
}.

(** The [argparse.Namespace] built by [parse_args]: the four required
    options are always strings, the others are [None] when not given. *)
Record Namespace : Type := mkNamespace {
  ns_api_key : option str;
  ns_api_secret : option str;
  ns_symbol : str;
  ns_side : str;
  ns_type : str;
  ns_qty : str;
  ns_price : option str;
  ns_stop_price : option str
}.

(* ------------------------------------------------------------------ *)
(** ** Validation logic ([class InputValidator]) *)
(* ------------------------------------------------------------------ *)

Module InputValidator.

Definition validate_symbol (symbol : str) : result str :=
  if negb (PyStr.truthy symbol) || negb (PyStr.truthy (PyStr.strip symbol)) then
    Raise (ValueError (lit "Symbol must not be empty."))
  else
    let symbol := PyStr.upper (PyStr.strip symbol) in
    if (List.length symbol <? 6)%nat then
      Raise (ValueError (lit "Symbol looks invalid (too short). Example: BTCUSDT."))
    else Return symbol.

Definition validate_side (side : str) : result str :=
  if negb (PyStr.truthy side) then
    Raise (ValueError (lit "Side must be provided (BUY or SELL)."))
  else
    let side_upper := PyStr.upper (PyStr.strip side) in
    if negb (PyStr.mem side_upper [lit "BUY"; lit "SELL"]) then
      Raise (ValueError (lit "Side must be BUY or SELL."))
    else Return side_upper.

(** [aliases.get(t, t)] for the alias dictionary of [validate_order_type]. *)
Definition aliases_get (t : str) : str :=
  if PyStr.eqb t (lit "MKT") then lit "MARKET"
  else if PyStr.eqb t (lit "STOP-LIMIT") then lit "STOP_LIMIT"
  else if PyStr.eqb t (lit "STOPLIMIT") then lit "STOP_LIMIT"
  else t.

Definition validate_order_type (order_type : str) : result str :=
  if negb (PyStr.truthy order_type) then
    Raise (ValueError (lit "Order type must be provided."))
  else
    let t := PyStr.upper (PyStr.strip order_type) in
    let t := aliases_get t in
    if negb (PyStr.mem t [lit "MARKET"; lit "LIMIT"; lit "STOP_LIMIT"]) then
      Raise (ValueError (lit "Order type must be MARKET, LIMIT, or STOP_LIMIT."))
    else Return t.

Definition validate_positive_float (value field_name : str) : result float :=
  match PyFloat.of_str value with
  | None => Raise (ValueError (field_name ++ lit " must be a number."))
  | Some f =>
      if PyFloat.le f PyFloat.zero then
        Raise (ValueError (field_name ++ lit " must be greater than 0."))
      else Return f
  end.

Definition validate_order_params (args : Namespace) : result OrderParams :=
  symbol <- validate_symbol (ns_symbol args) ;;
  side <- validate_side (ns_side args) ;;
  order_type <- validate_order_type (ns_type args) ;;
  quantity <- validate_positive_float (ns_qty args) (lit "Quantity") ;;
  price <-
    (if PyStr.mem order_type [lit "LIMIT"; lit "STOP_LIMIT"] then
       match ns_price args with
       | None =>
           Raise (ValueError (lit "Price is required for LIMIT and STOP_LIMIT orders."))
       | Some v => p <- validate_positive_float v (lit "Price") ;; Return (Some p)
       end
     else Return None) ;;
  stop_price <-
    (if PyStr.eqb order_type (lit "STOP_LIMIT") then
       match ns_stop_price args with
       | None =>
           Raise (ValueError (lit "stop-price is required for STOP_LIMIT orders."))
       | Some v => p <- validate_positive_float v (lit "Stop price") ;; Return (Some p)
       end
     else Return None) ;;
  Return (mkOrderParams symbol side order_type quantity price stop_price).

End InputValidator.

(* ------------------------------------------------------------------ *)
(** ** Request payloads ([Dict[str, Any]]) *)
(* ------------------------------------------------------------------ *)

(** The values the bot stores in a payload. *)
Inductive pyval : Type :=
| VNone
| VStr (s : str)
| VFloat (f : float).

(** [Optional[float]] as a Python value. *)
Definition of_optional (o : option float) : pyval :=
  match o with
  | Some f => VFloat f
  | None => VNone
  end.

(** A dictionary in insertion order. *)
Definition dict := list (str * pyval).

(** [d[k] = v]: an existing key keeps its position. *)
Fixpoint dict_set (d : dict) (k : str) (v : pyval) : dict :=
  match d with
  | [] => [(k, v)]
  | (k', v') :: r =>
      if PyStr.eqb k' k then (k', v) :: r else (k', v') :: dict_set r k v
  end.

(** [d.get(k)], with [None] for a missing key kept apart from a stored
    [VNone]. *)
Fixpoint dict_get (d : dict) (k : str) : option pyval :=
  match d with
  | [] => None
  | (k', v') :: r => if PyStr.eqb k' k then Some v' else dict_get r k
  end.

Definition has_key (d : dict) (k : str) : bool :=
  match dict_get d k with Some _ => true | None => false end.

(* ------------------------------------------------------------------ *)
(** ** The exchange client *)
(* ------------------------------------------------------------------ *)

(** Classes of the exceptions a client call can raise: the three the
    bot imports from [binance.exceptions], and any other subclass of
    [Exception]. *)
Inductive client_exception_class : Type :=
| BinanceAPIException
| BinanceOrderException
| BinanceRequestException
| OtherException.

Record client_exception : Type := mkClientException {
  exc_class : client_exception_class;
  exc_str : str   (* str(e) *)
}.

(** The exceptions outside [Exception]: [KeyboardInterrupt],
    [SystemExit], and any other direct [BaseException]. *)
Inductive base_exception : Type :=
| KeyboardInterrupt
| SystemExit
| OtherBaseException.

(** What the call of [client.futures_create_order] with the payload as
    keyword arguments can do.  [Interrupts b] is a [BaseException]
    outside [Exception] arriving during the call, such as the
    interruption by the operator: not an error of the client. *)
Inductive client_outcome : Type :=
| Responds (response : dict)
| Throws (e : client_exception)
| Interrupts (b : base_exception).

Definition client := dict -> client_outcome.

(** What a call of [place_order] can do. *)
Inductive place_outcome : Type :=
| Placed (response : dict)
| Fails (e : exn)
| ClientExceptionEscapes (e : client_exception)
| Interrupted (b : base_exception).

(* ------------------------------------------------------------------ *)
(** ** Trading logic ([class BasicBot]) *)
(* ------------------------------------------------------------------ *)

Module BasicBot.

Definition _build_order_payload (params : OrderParams) : result dict :=
  let payload : dict :=
    [ (lit "symbol", VStr (symbol params));
      (lit "side", VStr (side params));
      (lit "type", VNone);
      (lit "quantity", VFloat (quantity params)) ] in
  if PyStr.eqb (order_type params) (lit "MARKET") then
    let payload := dict_set payload (lit "type") (VStr (lit "MARKET")) in
    Return payload
  else if PyStr.eqb (order_type params) (lit "LIMIT") then
    let payload := dict_set payload (lit "type") (VStr (lit "LIMIT")) in
    let payload := dict_set payload (lit "timeInForce") (VStr (lit "GTC")) in
    let payload := dict_set payload (lit "price") (of_optional (price params)) in
    Return payload
  else if PyStr.eqb (order_type params) (lit "STOP_LIMIT") then
    let payload := dict_set payload (lit "type") (VStr (lit "STOP")) in
    let payload := dict_set payload (lit "timeInForce") (VStr (lit "GTC")) in
    let payload := dict_set payload (lit "price") (of_optional (price params)) in
    let payload := dict_set payload (lit "stopPrice") (of_optional (stop_price params)) in
    Return payload
  else
    Raise (TradingBotError
             (lit "Unsupported internal order type: " ++ order_type params)).

(** [isinstance(e, (BinanceAPIException, BinanceOrderException,
    BinanceRequestException))] *)
Definition is_binance_exception (c : client_exception_class) : bool :=
  match c with
  | BinanceAPIException | BinanceOrderException | BinanceRequestException => true
  | OtherException => false
  end.

(** [isinstance(e, Exception)] *)
Definition is_exception (c : client_exception_class) : bool :=
  match c with
  | BinanceAPIException | BinanceOrderException | BinanceRequestException => true
  | OtherException => true
  end.

(** The payload is built outside the [try]; inside it the two [except]
    clauses are tried in order and an exception that matches neither
    propagates. *)
Definition place_order (cl : client) (params : OrderParams) : place_outcome :=
  match _build_order_payload params with
  | Raise e => Fails e
  | Return payload =>
      match cl payload with
      | Responds response => Placed response
      | Throws e =>
          if is_binance_exception (exc_class e) then
            Fails (TradingBotError (lit "Binance API error: " ++ exc_str e))
          else if is_exception (exc_class e) then
            Fails (TradingBotError
                     (lit "Unexpected error while placing order: " ++ exc_str e))
          else ClientExceptionEscapes e
      | Interrupts b => Interrupted b
      end
  end.

End BasicBot.

(* ------------------------------------------------------------------ *)
(** ** Credentials *)
(* ------------------------------------------------------------------ *)

(** The process environment behind [os.getenv]. *)
Definition environ := str -> option str.

(** Truthiness of an [Optional[str]]. *)
Definition truthy_opt (o : option str) : bool :=
  match o with
  | Some s => PyStr.truthy s
  | None => false
  end.

(** [a or b] *)
Definition py_or (a b : option str) : option str :=
  if truthy_opt a then a else b.

Definition resolve_credentials (getenv : environ) (args : Namespace)
  : result (option str * option str) :=
  let api_key := py_or (ns_api_key args) (getenv (lit "BINANCE_API_KEY")) in
  let api_secret := py_or (ns_api_secret args) (getenv (lit "BINANCE_API_SECRET")) in
  if negb (truthy_opt api_key) || negb (truthy_opt api_secret) then
    Raise (TradingBotError
             (lit "API credentials are required. Provide --api-key / --api-secret or set BINANCE_API_KEY / BINANCE_API_SECRET environment variables."))
  else Return (api_key, api_secret).

(* ------------------------------------------------------------------ *)
(** ** Logging configuration ([setup_logging]) *)
(* ------------------------------------------------------------------ *)

(** A handler with its level and the two format strings of its
    formatter; a logger with its level and its list of handlers. *)
Record Handler : Type := mkHandler {
  handler_level : Z;
  handler_fmt : str;
  handler_datefmt : str
}.

Record Logger : Type := mkLogger {
  logger_level : Z;
  logger_handlers : list Handler
}.

(** [logging.INFO] *)
Definition INFO : Z := 20.

(** [setup_logging(level)] on the root logger.  The handler is a new
    object, so [addHandler] appends it. *)
Definition setup_logging (level : Z) (logger : Logger) : Logger :=
  let logger := mkLogger level (logger_handlers logger) in
  let logger :=
    match logger_handlers logger with
    | _ :: _ => mkLogger (logger_level logger) []
    | [] => logger
    end in
  let console_handler :=
    mkHandler level
      (lit "%(asctime)s | %(name)s | %(levelname)s | %(message)s")
      (lit "%Y-%m-%d %H:%M:%S") in
  mkLogger (logger_level logger) (logger_handlers logger ++ [console_handler]).

(* ------------------------------------------------------------------ *)
(** ** Construction of the bot ([BasicBot.__init__]) *)
(* ------------------------------------------------------------------ *)

(** A client object is the dictionary of its attributes: [hasattr] is
    [has_key], an assignment to an attribute is [dict_set].  The
    constructor [Client(api_key, api_secret, testnet=...)] and the
    method [futures_create_order] belong to the external library; they
    are arguments of the model, and the constructor is taken to return. *)
Definition client_object := dict.

Definition client_constructor := option str -> option str -> bool -> client_object.

Definition client_method := client_object -> client.

Record Bot : Type := mkBot { bot_client : client_object }.

Module BasicBotObject.

Definition TESTNET_FUTURES_BASE_URL : str :=
  lit "https://testnet.binancefuture.com/fapi".

Definition __init__ (Client : client_constructor)
  (api_key api_secret : option str) (testnet : bool) : result Bot :=
  if negb testnet then
    Raise (TradingBotError (lit "This bot is restricted to Binance Futures TESTNET."))
  else
    let cl := Client api_key api_secret true in
    let cl :=
      if has_key cl (lit "FUTURES_URL") then
        dict_set cl (lit "FUTURES_URL") (VStr TESTNET_FUTURES_BASE_URL)
      else cl in
    let cl :=
      if has_key cl (lit "FUTURES_DATA_URL") then
        dict_set cl (lit "FUTURES_DATA_URL") (VStr TESTNET_FUTURES_BASE_URL)
      else cl in
    Return (mkBot cl).

(** [self.place_order(params)]: the method of the stored client is the
    one called. *)
Definition place_order (futures_create_order : client_method) (self : Bot)
  (params : OrderParams) : place_outcome :=
  BasicBot.place_order (futures_create_order (bot_client self)) params.

End BasicBotObject.

(* ------------------------------------------------------------------ *)
(** ** Output ([print_order_summary]) and the entry point ([main]) *)
(* ------------------------------------------------------------------ *)

(** The line feed. *)
Definition nl : str := [0x0A%N].

(** [str(e)] of an exception of the bot. *)
Definition exn_str (e : exn) : str :=
  match e with
  | ValueError msg => msg
  | TradingBotError msg => msg
  end.

(** What is in flight when the [try] block of [main] is left by an
    exception. *)
Inductive raised : Type :=
| RaisedExn (e : exn)
| RaisedClientException (e : client_exception)
| RaisedBaseException (b : base_exception).

(** What [parse_args] does: it returns the namespace, or [argparse]
    leaves by [SystemExit] (a command line it rejects, or [--help]).
    What [argparse] writes itself is not a call of [print]. *)
Inductive parse_outcome : Type :=
| Parsed (args : Namespace)
| ParseExits.

(** The run of [main] as seen from outside: the arguments of the
    successive calls of [print], the exception that left [main], if
    any, and the root logger as [main] leaves it.  Log records go to the
    standard error stream and are left out. *)
Record main_result : Type := mkMainResult {
  stdout : list str;
  uncaught : option raised;
  root_logger : Logger
}.

Section Output.

(** The text of a float in an f-string, a builtin. *)
Variable float_repr : float -> str.

(** The text of a value in an f-string. *)
Definition format_value (v : pyval) : str :=
  match v with
  | VNone => lit "None"
  | VStr s => s
  | VFloat f => float_repr f
  end.

(** [d.get(k)], a missing key giving [None]. *)
Definition py_get (d : dict) (k : str) : pyval :=
  match dict_get d k with
  | Some v => v
  | None => VNone
  end.

Definition print_order_summary (order : dict) : list str :=
  let order_id := py_get order (lit "orderId") in
  let symbol := py_get order (lit "symbol") in
  let side := py_get order (lit "side") in
  let o_type := py_get order (lit "type") in
  let status := py_get order (lit "status") in
  let executed_qty := py_get order (lit "executedQty") in
  [ nl ++ lit "=== Order Summary ===";
    lit "Order ID         : " ++ format_value order_id;
    lit "Symbol           : " ++ format_value symbol;
    lit "Side             : " ++ format_value side;
    lit "Type             : " ++ format_value o_type;
    lit "Status           : " ++ format_value status;
    lit "Executed Quantity: " ++ format_value executed_qty;
    lit "=====================" ++ nl ].

(** The [try] block of [main] up to the response. *)
Definition main_try (getenv : environ) (Client : client_constructor)
  (futures_create_order : client_method) (parsed : parse_outcome)
  : dict + raised :=
  match parsed with
  | ParseExits => inr (RaisedBaseException SystemExit)
  | Parsed args =>
      match InputValidator.validate_order_params args with
      | Raise e => inr (RaisedExn e)
      | Return params =>
          match resolve_credentials getenv args with
          | Raise e => inr (RaisedExn e)
          | Return (api_key, api_secret) =>
              match BasicBotObject.__init__ Client api_key api_secret true with
              | Raise e => inr (RaisedExn e)
              | Return bot =>
                  match BasicBotObject.place_order futures_create_order bot params
                  with
                  | Placed order_response => inl order_response
                  | Fails e => inr (RaisedExn e)
                  | ClientExceptionEscapes e => inr (RaisedClientException e)
                  | Interrupted b => inr (RaisedBaseException b)
                  end
              end
          end
      end
  end.

(** [main]: the logging set up at level INFO, then the summary on
    success and one line per handled exception; an exception that none
    of the three handlers matches leaves [main].  [logger] is the root
    logger as [main] finds it. *)
Definition main (logger : Logger) (getenv : environ) (Client : client_constructor)
  (futures_create_order : client_method) (parsed : parse_outcome) : main_result :=
  let logger := setup_logging INFO logger in
  match main_try getenv Client futures_create_order parsed with
  | inl order_response =>
      mkMainResult (print_order_summary order_response) None logger
  | inr (RaisedExn (ValueError msg)) =>
      mkMainResult [lit "Error: " ++ exn_str (ValueError msg)] None logger
  | inr (RaisedExn (TradingBotError msg)) =>
      mkMainResult [lit "Error: " ++ exn_str (TradingBotError msg)] None logger
  | inr (RaisedBaseException KeyboardInterrupt) =>
      mkMainResult [nl ++ lit "Execution interrupted by user."] None logger
  | inr (RaisedBaseException b) =>
      mkMainResult [] (Some (RaisedBaseException b)) logger
  | inr (RaisedClientException e) =>
      mkMainResult [] (Some (RaisedClientException e)) logger
  end.

End Output.

(* ------------------------------------------------------------------ *)
(** ** Vocabulary of the properties *)
(* ------------------------------------------------------------------ *)

(** *** Errors by name *)

Definition symbol_empty_error : exn :=
  ValueError (lit "Symbol must not be empty.").

Definition symbol_short_error : exn :=
  ValueError (lit "Symbol looks invalid (too short). Example: BTCUSDT.").

Definition price_required_error : exn :=
  ValueError (lit "Price is required for LIMIT and STOP_LIMIT orders.").

Definition stop_price_required_error : exn :=
  ValueError (lit "stop-price is required for STOP_LIMIT orders.").

Definition credentials_error : exn :=
  TradingBotError
    (lit "API credentials are required. Provide --api-key / --api-secret or set BINANCE_API_KEY / BINANCE_API_SECRET environment variables.").

(** *** Order types *)

(** The canonical order types. *)
Definition canonical_types : list str :=
  [lit "MARKET"; lit "LIMIT"; lit "STOP_LIMIT"].

(** The names the validator accepts and what each resolves to. *)
Definition type_names : list (str * str) :=
  [ (lit "MKT", lit "MARKET");
    (lit "STOP-LIMIT", lit "STOP_LIMIT");
    (lit "STOPLIMIT", lit "STOP_LIMIT");
    (lit "MARKET", lit "MARKET");
    (lit "LIMIT", lit "LIMIT");
    (lit "STOP_LIMIT", lit "STOP_LIMIT") ].

(** *** Validation rules *)

(** The two conditional blocks of [InputValidator.validate_order_params], as functions
    of the resolved order type. *)
Definition price_block (order_type : str) (args : Namespace)
  : result (option float) :=
  if PyStr.mem order_type [lit "LIMIT"; lit "STOP_LIMIT"] then
    match ns_price args with
    | None => Raise price_required_error
    | Some v => p <- InputValidator.validate_positive_float v (lit "Price") ;; Return (Some p)
    end
  else Return None.

Definition stop_price_block (order_type : str) (args : Namespace)
  : result (option float) :=
  if PyStr.eqb order_type (lit "STOP_LIMIT") then
    match ns_stop_price args with
    | None => Raise stop_price_required_error
    | Some v => p <- InputValidator.validate_positive_float v (lit "Stop price") ;; Return (Some p)
    end
  else Return None.

(** The same arguments with other price options. *)
Definition with_prices (args : Namespace) (pr sp : option str) : Namespace :=
  mkNamespace (ns_api_key args) (ns_api_secret args) (ns_symbol args)
    (ns_side args) (ns_type args) (ns_qty args) pr sp.

(** The four unconditional rules pass on [args]. *)
Definition basics_pass (args : Namespace) : Prop :=
  (exists s, InputValidator.validate_symbol (ns_symbol args) = Return s)
  /\ (exists s, InputValidator.validate_side (ns_side args) = Return s)
  /\ (exists t, InputValidator.validate_order_type (ns_type args) = Return t)
  /\ (exists q, InputValidator.validate_positive_float (ns_qty args) (lit "Quantity") = Return q).

(** The error a call raised, if any. *)
Definition error_of {A : Type} (r : result A) : option exn :=
  match r with
  | Raise e => Some e
  | Return _ => None
  end.

(** The rules of the validator in their order, each as the error it
    reports on [args], if any.  The price and the stop-price rule apply
    to the order type the third rule resolved; they report nothing when
    there is none. *)
Definition rule_errors (args : Namespace) : list (option exn) :=
  [ error_of (InputValidator.validate_symbol (ns_symbol args));
    error_of (InputValidator.validate_side (ns_side args));
    error_of (InputValidator.validate_order_type (ns_type args));
    error_of (InputValidator.validate_positive_float (ns_qty args) (lit "Quantity"));
    match InputValidator.validate_order_type (ns_type args) with
    | Return t => error_of (price_block t args)
    | Raise _ => None
    end;
    match InputValidator.validate_order_type (ns_type args) with
    | Return t => error_of (stop_price_block t args)
    | Raise _ => None
    end ].

(** The error of the earliest rule that reports one. *)
Fixpoint first_error (l : list (option exn)) : option exn :=
  match l with
  | [] => None
  | Some e :: _ => Some e
  | None :: r => first_error r
  end.

(** *** Payloads *)

(** The four entries every payload starts with, [type] filled in. *)
Definition base_payload (p : OrderParams) (exchange_type : str) : dict :=
  [ (lit "symbol", VStr (symbol p));
    (lit "side", VStr (side p));
    (lit "type", VStr exchange_type);
    (lit "quantity", VFloat (quantity p)) ].

(** *** Credentials *)

(** A value that is present and not empty. *)
Definition non_empty (o : option str) : option str :=
  match o with
  | Some (c :: r) => Some (c :: r)
  | _ => None
  end.

(** The credential chosen from a command-line value and an environment
    value: the first if it is present and not empty, otherwise the
    second if it is set and not empty, otherwise none. *)
Definition chosen (cli env : option str) : option str :=
  match non_empty cli with
  | Some v => Some v
  | None => non_empty env
  end.

(** *** Sample inputs *)

(** The binary64 values of the texts [0.01], [50000] and [49000]; that
    of [0.001] appears in [market_intent]. *)
Definition f_0_01 : float := S754_finite false 5764607523034235 (-59).

Definition f_50000 : float := S754_finite false 6871947673600000 (-37).

Definition f_49000 : float := S754_finite false 6734508720128000 (-37).

(** Sample command lines: symbol BTCUSDT, side buy, quantity 0.001. *)
Definition sample_args (type : str) (pr sp : option str) : Namespace :=
  mkNamespace None None (lit "BTCUSDT") (lit "buy") type (lit "0.001") pr sp.

(** The intent of [symbol=BTCUSDT, side=buy, type=mkt, qty=0.001]. *)
Definition market_intent : OrderParams :=
  mkOrderParams (lit "BTCUSDT") (lit "BUY") (lit "MARKET")
    (S754_finite false 4611686018427388 (-62)) None None.

(** A client that rejects every order, and one whose connection drops. *)
Definition rejecting_client : client :=
  fun _ => Throws (mkClientException BinanceAPIException
                     (lit "APIError(code=-2019): Margin is insufficient.")).

Definition unreachable_client : client :=
  fun _ => Throws (mkClientException OtherException (lit "Connection refused")).

(** An environment given by the values of the two variables. *)
Definition env_of (key secret : option str) : environ :=
  fun name =>
    if PyStr.eqb name (lit "BINANCE_API_KEY") then key
    else if PyStr.eqb name (lit "BINANCE_API_SECRET") then secret
    else None.

(** A command line with the given credential options. *)
Definition credential_args (key secret : option str) : Namespace :=
  mkNamespace key secret (lit "BTCUSDT") (lit "BUY") (lit "MARKET") (lit "1")
    None None.

(** *** Further errors by name *)

Definition side_missing_error : exn :=
  ValueError (lit "Side must be provided (BUY or SELL).").

Definition side_invalid_error : exn :=
  ValueError (lit "Side must be BUY or SELL.").

Definition type_missing_error : exn :=
  ValueError (lit "Order type must be provided.").

Definition type_invalid_error : exn :=
  ValueError (lit "Order type must be MARKET, LIMIT, or STOP_LIMIT.").

Definition mainnet_error : exn :=
  TradingBotError (lit "This bot is restricted to Binance Futures TESTNET.").

(** *** Further vocabulary *)

(** The sides the validator returns. *)
Definition sides : list str := [lit "BUY"; lit "SELL"].

(** The types the exchange is sent. *)
Definition exchange_types : list str := [lit "MARKET"; lit "LIMIT"; lit "STOP"].

(** The keys a payload can have. *)
Definition payload_keys : list str :=
  [ lit "symbol"; lit "side"; lit "type"; lit "quantity";
    lit "timeInForce"; lit "price"; lit "stopPrice" ].

(** The keys of a response the summary reads. *)
Definition summary_keys : list str :=
  [ lit "orderId"; lit "symbol"; lit "side"; lit "type"; lit "status";
    lit "executedQty" ].

(** The two attributes of a client the constructor of the bot rewrites. *)
Definition url_attributes : list str := [lit "FUTURES_URL"; lit "FUTURES_DATA_URL"].

(** Whether the first character of a string is whitespace. *)
Definition first_space (s : str) : bool :=
  match s with
  | c :: _ => PyStr.isspace c
  | [] => false
  end.

(** The same command line with other texts for symbol, side and type. *)
Definition with_texts (args : Namespace) (sym sd ty : str) : Namespace :=
  mkNamespace (ns_api_key args) (ns_api_secret args) sym sd ty (ns_qty args)
    (ns_price args) (ns_stop_price args).

(** Successive calls of [setup_logging], one per level of the list. *)
Definition setup_logging_runs (levels : list Z) (logger : Logger) : Logger :=
  fold_left (fun lg level => setup_logging level lg) levels logger.

(** The handler [setup_logging] installs. *)
Definition console_handler (level : Z) : Handler :=
  mkHandler level
    (lit "%(asctime)s | %(name)s | %(levelname)s | %(message)s")
    (lit "%Y-%m-%d %H:%M:%S").

(** *** Further sample inputs *)

(** A constructor whose objects carry the mainnet URLs, and one whose
    objects have no futures attributes. *)
Definition mainnet_constructor : client_constructor :=
  fun _ _ testnet =>
    [ (lit "API_URL", VStr (lit "https://api.binance.com/api"));
      (lit "FUTURES_URL", VStr (lit "https://fapi.binance.com/fapi"));
      (lit "FUTURES_DATA_URL", VStr (lit "https://fapi.binance.com/futures/data")) ].

Definition bare_constructor : client_constructor :=
  fun _ _ _ => [ (lit "API_URL", VStr (lit "https://api.binance.com/api")) ].

(** A method that answers every order with the same record, one that
    rejects, one that is interrupted; the root logger of a fresh
    process (level WARNING, no handler) and a float printer. *)
Definition sample_response : dict :=
  [ (lit "orderId", VStr (lit "12345")); (lit "symbol", VStr (lit "BTCUSDT"));
    (lit "status", VStr (lit "NEW")); (lit "clientOrderId", VStr (lit "x-1"));
    (lit "executedQty", VStr (lit "0")); (lit "type", VStr (lit "MARKET"));
    (lit "side", VStr (lit "BUY")) ].

Definition answering_method : client_method := fun _ _ => Responds sample_response.

Definition rejecting_method : client_method := fun _ => rejecting_client.

Definition interrupted_method : client_method :=
  fun _ _ => Interrupts KeyboardInterrupt.

Definition exiting_method : client_method := fun _ _ => Interrupts SystemExit.

Definition initial_logger : Logger := mkLogger 30 [].

(** The command line and the intent of [type=stop-limit, qty=0.001,
    price=50000, stop-price=49000], and its payload. *)
Definition stop_limit_args : Namespace :=
  sample_args (lit "stop-limit") (Some (lit "50000")) (Some (lit "49000")).

Definition stop_limit_intent : OrderParams :=
  mkOrderParams (lit "BTCUSDT") (lit "BUY") (lit "STOP_LIMIT")
    (S754_finite false 4611686018427388 (-62)) (Some f_50000) (Some f_49000).

Definition stop_limit_payload : dict :=
  base_payload stop_limit_intent (lit "STOP")
  ++ [ (lit "timeInForce", VStr (lit "GTC"));
       (lit "price", VFloat f_50000);
       (lit "stopPrice", VFloat f_49000) ].

Definition sample_float_repr : float -> str := fun _ => lit "<float>".

Definition full_env : environ := env_of (Some (lit "env-key")) (Some (lit "env-secret")).

(** *** Code points *)

(** The ASCII code points, U+0000 to U+007F. *)
Definition ascii_codepoints : list N := List.map N.of_nat (seq 0 128).

(** *** Tactics *)

(** Inversion of a chain of [bind]s that returned. *)
Ltac bind_inv H :=
  repeat match type of H with
         | bind ?r _ = Return _ =>
             let a := fresh "v" in
             let Ha := fresh "Hv" in
             destruct r as [a|] eqn:Ha;
             [ unfold bind at 1 in H; cbv beta iota in H | discriminate H ]
         end.

(** Settles every comparison of the goal that linear arithmetic decides. *)
Ltac decide_tests :=
  repeat match goal with
         | |- context [N.leb ?a ?b] =>
             first [ rewrite (proj2 (N.leb_le a b)) by lia
                   | rewrite (proj2 (N.leb_gt a b)) by lia ]
         | |- context [N.eqb ?a ?b] =>
             first [ rewrite (proj2 (N.eqb_eq a b)) by lia
                   | rewrite (proj2 (N.eqb_neq a b)) by lia ]
         | |- context [N.ltb ?a ?b] =>
             first [ rewrite (proj2 (N.ltb_lt a b)) by lia
                   | rewrite (proj2 (N.ltb_ge a b)) by lia ]
         end.

(* ================================================================== *)
(** * Properties *)
(* ================================================================== *)

(* ------------------------------------------------------------------ *)
(** ** Strings *)
(* ------------------------------------------------------------------ *)

Section StrFacts.

Import PyStr.

Lemma str_eqb_eq (a b : str) : eqb a b = true <-> a = b.
Proof.
  revert b; induction a as [|x a IH]; intros [|y b]; simpl; split;
    try congruence; try reflexivity.
  - intros H. apply andb_prop in H as [Hx Hr].
    apply N.eqb_eq in Hx. apply IH in Hr. congruence.
  - intros H. injection H as -> ->.
    rewrite N.eqb_refl. simpl. now apply IH.
Qed.

Lemma str_eqb_refl (a : str) : eqb a a = true.
Proof. now apply str_eqb_eq. Qed.

Lemma str_eqb_neq (a b : str) : eqb a b = false <-> a <> b.
Proof.
  split.
  - intros H E. apply str_eqb_eq in E. congruence.
  - intros H. destruct (eqb a b) eqn:E; [|reflexivity].
    apply str_eqb_eq in E. contradiction.
Qed.

Lemma str_mem_In (x : str) (l : list str) : mem x l = true <-> In x l.
Proof.
  unfold mem. rewrite existsb_exists. split.
  - intros (y & Hy & E). apply str_eqb_eq in E. now subst.
  - intros H. exists x. split; [assumption | apply str_eqb_refl].
Qed.

End StrFacts.

(* ------------------------------------------------------------------ *)
(** ** Results *)
(* ------------------------------------------------------------------ *)

Lemma Return_not_raises {A : Type} (a : A) : ~ raises (Return a).
Proof. intros [e H]. discriminate. Qed.

(* ------------------------------------------------------------------ *)
(** ** Floats and [validate_positive_float] *)
(* ------------------------------------------------------------------ *)

(** A float is not [<= 0] exactly when it is [> 0] or a NaN. *)
Lemma not_le_zero (f : float) :
  PyFloat.le f PyFloat.zero = false <->
  PyFloat.gt f PyFloat.zero = true \/ f = PyFloat.nan.
Proof.
  unfold PyFloat.le, PyFloat.gt, PyFloat.zero, PyFloat.nan, SFleb, SFltb.
  destruct f as [s|[|]| |[|] m e]; simpl; split; intros H;
    try discriminate; try (left; reflexivity); try (right; reflexivity);
    try reflexivity; destruct H; discriminate.
Qed.

(** The three outcomes of [validate_positive_float], by what [float]
    makes of the text. *)
Lemma validate_positive_float_cases (value field_name : str) :
  match PyFloat.of_str value with
  | None =>
      InputValidator.validate_positive_float value field_name
      = Raise (ValueError (field_name ++ lit " must be a number."))
  | Some f =>
      if PyFloat.le f PyFloat.zero then
        InputValidator.validate_positive_float value field_name
        = Raise (ValueError (field_name ++ lit " must be greater than 0."))
      else
        InputValidator.validate_positive_float value field_name = Return f
  end.
Proof.
  unfold InputValidator.validate_positive_float.
  destruct (PyFloat.of_str value) as [f|]; [|reflexivity].
  destruct (PyFloat.le f PyFloat.zero); reflexivity.
Qed.

(** A text that parses to a float greater than zero is accepted and its
    value returned. *)
Lemma validate_positive_float_accepts (value field_name : str) (f : float) :
  PyFloat.of_str value = Some f ->
  PyFloat.gt f PyFloat.zero = true ->
  InputValidator.validate_positive_float value field_name = Return f.
Proof.
  intros Hp Hg. unfold InputValidator.validate_positive_float. rewrite Hp.
  assert (E : PyFloat.le f PyFloat.zero = false)
    by (apply not_le_zero; now left).
  now rewrite E.
Qed.

(** Whatever is returned is the parsed value and is not [<= 0]. *)
Lemma validate_positive_float_Return (value field_name : str) (f : float) :
  InputValidator.validate_positive_float value field_name = Return f ->
  PyFloat.of_str value = Some f /\ PyFloat.le f PyFloat.zero = false.
Proof.
  unfold InputValidator.validate_positive_float.
  destruct (PyFloat.of_str value) as [g|]; [|discriminate].
  destruct (PyFloat.le g PyFloat.zero) eqn:E; [discriminate|].
  intros [= ->]. now split.
Qed.

(** Every error of [validate_positive_float] is a [ValueError] whose
    message starts with the field name. *)
Lemma validate_positive_float_Raise (value field_name : str) (e : exn) :
  InputValidator.validate_positive_float value field_name = Raise e ->
  e = ValueError (field_name ++ lit " must be a number.")
  \/ e = ValueError (field_name ++ lit " must be greater than 0.").
Proof.
  unfold InputValidator.validate_positive_float.
  destruct (PyFloat.of_str value) as [g|].
  - destruct (PyFloat.le g PyFloat.zero); [|discriminate].
    intros [= <-]. now right.
  - intros [= <-]. now left.
Qed.

(** C2 (defect).  The text [nan] parses as a float that is not greater
    than zero, and yet validation of each of the three numeric fields
    accepts it and returns the NaN. *)
Theorem validate_positive_float_accepts_nan :
  PyFloat.of_str (lit "nan") = Some PyFloat.nan
  /\ PyFloat.gt PyFloat.nan PyFloat.zero = false
  /\ InputValidator.validate_positive_float (lit "nan") (lit "Quantity")
     = Return PyFloat.nan
  /\ InputValidator.validate_positive_float (lit "nan") (lit "Price")
     = Return PyFloat.nan
  /\ InputValidator.validate_positive_float (lit "nan") (lit "Stop price")
     = Return PyFloat.nan.
Proof. repeat split; vm_compute; reflexivity. Qed.

(* ------------------------------------------------------------------ *)
(** ** Trimming and case *)
(* ------------------------------------------------------------------ *)

Section StripUpper.

Import PyStr.
Local Open Scope N_scope.

Lemma is_ascii_lower_bounds (c : codepoint) :
  is_ascii_lower c = true -> 0x61 <= c <= 0x7A.
Proof.
  unfold is_ascii_lower, in_range. intros H.
  apply andb_prop in H as [H1 H2].
  apply N.leb_le in H1, H2. lia.
Qed.

(** A code point is changed by [upper_cp] exactly when the table lists
    it. *)
Lemma upper_cp_cases (c : codepoint) :
  (exists u, In (c, u) upper_table /\ upper_cp c = u)
  \/ (upper_cp c = [c] /\ find (fun e => fst e =? c) upper_table = None).
Proof.
  unfold upper_cp.
  destruct (find (fun e => fst e =? c) upper_table) as [[k u]|] eqn:E.
  - apply find_some in E as [Hin Hk]. simpl in Hk. apply N.eqb_eq in Hk.
    subst k. left. exists u. now split.
  - right. now split.
Qed.

Lemma In_ascii_codepoints (c : codepoint) : c < 0x80 -> In c ascii_codepoints.
Proof.
  intros H. unfold ascii_codepoints.
  rewrite <- (N2Nat.id c). apply in_map, in_seq. lia.
Qed.

(** On ASCII the table holds the letters a to z and nothing else. *)
Lemma upper_cp_ascii (c : codepoint) : c < 0x80 -> upper_cp c = [ascii_fold c].
Proof.
  intros H.
  assert (Hall : forallb (fun x => eqb (upper_cp x) [ascii_fold x])
                   ascii_codepoints = true) by (vm_compute; reflexivity).
  rewrite forallb_forall in Hall.
  apply str_eqb_eq, Hall, In_ascii_codepoints, H.
Qed.

Lemma upper_cp_fold (c : codepoint) : upper_cp (ascii_fold c) = upper_cp c.
Proof.
  unfold ascii_fold. destruct (is_ascii_lower c) eqn:E; [|reflexivity].
  apply is_ascii_lower_bounds in E.
  rewrite !upper_cp_ascii by lia. f_equal.
  unfold ascii_fold, is_ascii_lower, in_range. decide_tests. reflexivity.
Qed.

Lemma isspace_fold (c : codepoint) : isspace (ascii_fold c) = isspace c.
Proof.
  unfold ascii_fold. destruct (is_ascii_lower c) eqn:E; [|reflexivity].
  apply is_ascii_lower_bounds in E.
  unfold isspace, in_range. decide_tests. reflexivity.
Qed.

Lemma upper_fold (s : str) : upper (List.map ascii_fold s) = upper s.
Proof.
  unfold upper. induction s as [|c s IH]; simpl; [reflexivity|].
  now rewrite upper_cp_fold, IH.
Qed.

Lemma lstrip_map (f : codepoint -> codepoint) (s : str) :
  (forall c, isspace (f c) = isspace c) ->
  lstrip (List.map f s) = List.map f (lstrip s).
Proof.
  intros Hf. induction s as [|c s IH]; simpl; [reflexivity|].
  rewrite Hf. destruct (isspace c); [assumption | reflexivity].
Qed.

Lemma strip_map (f : codepoint -> codepoint) (s : str) :
  (forall c, isspace (f c) = isspace c) ->
  strip (List.map f s) = List.map f (strip s).
Proof.
  intros Hf. unfold strip, rstrip.
  rewrite (lstrip_map _ _ Hf), <- map_rev, (lstrip_map _ _ Hf), map_rev.
  reflexivity.
Qed.

(** Strings that differ only in the case of ASCII letters have the same
    trimmed upper-case form, and are empty together. *)
Lemma same_modulo_case_upper_strip (a b : str) :
  same_modulo_case a b -> upper (strip a) = upper (strip b).
Proof.
  unfold same_modulo_case. intros H.
  rewrite <- (upper_fold (strip a)), <- (upper_fold (strip b)).
  rewrite <- !(strip_map _ _ isspace_fold). now rewrite H.
Qed.

Lemma same_modulo_case_truthy (a b : str) :
  same_modulo_case a b -> truthy a = truthy b.
Proof.
  unfold same_modulo_case. destruct a, b; simpl; intros H;
    try reflexivity; discriminate.
Qed.

(** Trimming keeps only characters of the string. *)
Lemma lstrip_incl (s : str) (c : codepoint) : In c (lstrip s) -> In c s.
Proof.
  induction s as [|x s IH]; simpl; [tauto|].
  destruct (isspace x); [right; now apply IH | tauto].
Qed.

Lemma strip_incl (s : str) (c : codepoint) : In c (strip s) -> In c s.
Proof.
  unfold strip, rstrip. intros H.
  apply in_rev, lstrip_incl in H. apply in_rev in H.
  now apply lstrip_incl.
Qed.

Lemma is_ascii_strip (s : str) : is_ascii s = true -> is_ascii (strip s) = true.
Proof.
  unfold is_ascii. rewrite !forallb_forall.
  intros H c Hc. apply H. now apply strip_incl.
Qed.

(** On ASCII text [upper] maps character by character. *)
Lemma upper_length_ascii (s : str) :
  is_ascii s = true -> List.length (upper s) = List.length s.
Proof.
  unfold upper, is_ascii.
  induction s as [|c s IH]; simpl; [reflexivity|].
  intros H. apply andb_prop in H as [Hc Hs].
  rewrite length_app, (IH Hs). f_equal.
  apply N.ltb_lt in Hc. now rewrite upper_cp_ascii.
Qed.

(** No upper-case form in the table is empty. *)
Lemma upper_cp_nonempty (c : codepoint) : (1 <= List.length (upper_cp c))%nat.
Proof.
  assert (Hall : forallb (fun e => negb (Nat.eqb (List.length (snd e)) 0))
                   upper_table = true) by (vm_compute; reflexivity).
  rewrite forallb_forall in Hall.
  destruct (upper_cp_cases c) as [(u & Hin & ->) | [-> _]]; [|simpl; lia].
  specialize (Hall _ Hin). simpl in Hall.
  destruct (List.length u); [discriminate | lia].
Qed.

(** [upper] never shortens a string. *)
Lemma upper_length_ge (s : str) : (List.length s <= List.length (upper s))%nat.
Proof.
  unfold upper. induction s as [|c s IH]; simpl; [lia|].
  rewrite length_app. pose proof (upper_cp_nonempty c). lia.
Qed.

End StripUpper.

(* ------------------------------------------------------------------ *)
(** ** [validate_symbol] *)
(* ------------------------------------------------------------------ *)

(** The test [not symbol or not symbol.strip()] is emptiness of the
    trimmed string. *)
Lemma symbol_empty_test (s : str) :
  negb (PyStr.truthy s) || negb (PyStr.truthy (PyStr.strip s))
  = negb (PyStr.truthy (PyStr.strip s)).
Proof. destruct s; reflexivity. Qed.

(** C4 as stated fails: the trimmed form of three sharp s has three
    characters, fewer than six, and validation accepts the symbol,
    because the length is taken after the conversion to upper case. *)
Lemma validate_symbol_accepts_short_trimmed :
  let s : str := [0xDF; 0xDF; 0xDF]%N in
  PyStr.strip s = s
  /\ (List.length (PyStr.strip s) < 6)%nat
  /\ InputValidator.validate_symbol s = Return (lit "SSSSSS").
Proof. split; [|split]; vm_compute; [reflexivity | lia | reflexivity]. Qed.

(** C4 (amended).  Validation trims the symbol; it fails when the
    trimmed string is empty, fails when the upper-case form of the
    trimmed string has fewer than six characters, and otherwise returns
    that upper-case form.  The upper-case form is never shorter than the
    trimmed string, and has the same length when the symbol is ASCII, so
    an ASCII symbol whose trimmed form has fewer than six characters
    fails. *)
Theorem validate_symbol_spec (s : str) :
  let t := PyStr.strip s in
  let u := PyStr.upper t in
  (t = [] -> InputValidator.validate_symbol s = Raise symbol_empty_error)
  /\ (t <> [] -> (List.length u < 6)%nat ->
      InputValidator.validate_symbol s = Raise symbol_short_error)
  /\ (t <> [] -> (6 <= List.length u)%nat ->
      InputValidator.validate_symbol s = Return u)
  /\ (List.length t <= List.length u)%nat
  /\ (PyStr.is_ascii s = true -> List.length u = List.length t)
  /\ (PyStr.is_ascii s = true -> (List.length t < 6)%nat ->
      raises (InputValidator.validate_symbol s)).
Proof.
  intros t u. unfold InputValidator.validate_symbol.
  rewrite symbol_empty_test. fold t. fold u.
  assert (Hlen : PyStr.is_ascii s = true -> List.length u = List.length t).
  { intros Ha. apply upper_length_ascii. now apply is_ascii_strip. }
  repeat split.
  - intros ->. reflexivity.
  - intros Ht Hu. destruct t; [congruence|]. simpl.
    apply Nat.ltb_lt in Hu. now rewrite Hu.
  - intros Ht Hu. destruct t; [congruence|]. simpl.
    apply Nat.ltb_ge in Hu. now rewrite Hu.
  - apply upper_length_ge.
  - exact Hlen.
  - intros Ha Hu. rewrite <- (Hlen Ha) in Hu.
    destruct t; simpl.
    + now exists symbol_empty_error.
    + apply Nat.ltb_lt in Hu. rewrite Hu. now exists symbol_short_error.
Qed.

Lemma validate_symbol_spec_witness :
  InputValidator.validate_symbol (lit "  ") = Raise symbol_empty_error
  /\ InputValidator.validate_symbol (lit " btc ") = Raise symbol_short_error
  /\ InputValidator.validate_symbol (lit " btcusdt ") = Return (lit "BTCUSDT")
  /\ raises (InputValidator.validate_symbol (lit "ethu ")).
Proof.
  split; [|split; [|split]].
  - apply (validate_symbol_spec (lit "  ")). reflexivity.
  - apply (validate_symbol_spec (lit " btc ")); vm_compute; [discriminate | lia].
  - apply (validate_symbol_spec (lit " btcusdt ")); vm_compute; [discriminate | lia].
  - apply (validate_symbol_spec (lit "ethu ")); vm_compute; [reflexivity | lia].
Defined.

(** Whatever [validate_symbol] returns is the upper-case form of the
    trimmed input and has at least six characters. *)
Lemma validate_symbol_Return (s u : str) :
  InputValidator.validate_symbol s = Return u ->
  u = PyStr.upper (PyStr.strip s) /\ (6 <= List.length u)%nat.
Proof.
  unfold InputValidator.validate_symbol. rewrite symbol_empty_test.
  destruct (negb (PyStr.truthy (PyStr.strip s))); [discriminate|].
  destruct (Nat.ltb_spec (List.length (PyStr.upper (PyStr.strip s))) 6);
    [discriminate|].
  intros [= <-]. now split.
Qed.

(* ------------------------------------------------------------------ *)
(** ** [validate_side] and [validate_order_type] *)
(* ------------------------------------------------------------------ *)

Lemma validate_side_Return (s u : str) :
  InputValidator.validate_side s = Return u -> u = lit "BUY" \/ u = lit "SELL".
Proof.
  unfold InputValidator.validate_side.
  destruct (negb (PyStr.truthy s)); [discriminate|].
  destruct (PyStr.mem _ _) eqn:E; [|discriminate].
  intros [= <-]. apply str_mem_In in E. simpl in E. intuition auto.
Qed.

Lemma validate_order_type_Return (s t : str) :
  InputValidator.validate_order_type s = Return t -> In t canonical_types.
Proof.
  unfold InputValidator.validate_order_type.
  destruct (negb (PyStr.truthy s)); [discriminate|].
  destruct (PyStr.mem _ _) eqn:E; [|discriminate].
  intros [= <-]. now apply str_mem_In in E.
Qed.

(** The outcome depends on the input only through its truthiness and
    its trimmed upper-case form. *)
Lemma validate_order_type_ext (a b : str) :
  PyStr.truthy a = PyStr.truthy b ->
  PyStr.upper (PyStr.strip a) = PyStr.upper (PyStr.strip b) ->
  InputValidator.validate_order_type a = InputValidator.validate_order_type b.
Proof.
  intros Ht Hu. unfold InputValidator.validate_order_type.
  now rewrite Ht, Hu.
Qed.

Lemma validate_order_type_canonical (t : str) :
  In t canonical_types -> InputValidator.validate_order_type t = Return t.
Proof.
  simpl. intros [<-|[<-|[<-|[]]]]; vm_compute; reflexivity.
Qed.

(** C5.  Order-type validation does not see the case of ASCII letters:
    two inputs that differ only in letter case have the same outcome;
    so every casing of MKT, STOP-LIMIT, STOPLIMIT, MARKET, LIMIT and
    STOP_LIMIT resolves to the canonical type of that name.  A canonical
    type validates to itself, and so does every validated result. *)
Theorem validate_order_type_case_insensitive_idempotent :
  (forall a b : str,
      PyStr.same_modulo_case a b ->
      InputValidator.validate_order_type a = InputValidator.validate_order_type b)
  /\ (forall name canon s : str,
         In (name, canon) type_names ->
         PyStr.same_modulo_case s name ->
         InputValidator.validate_order_type s = Return canon)
  /\ (forall t : str,
         In t canonical_types ->
         InputValidator.validate_order_type t = Return t)
  /\ (forall s t : str,
         InputValidator.validate_order_type s = Return t ->
         InputValidator.validate_order_type t = Return t).
Proof.
  assert (Hcase : forall a b : str,
             PyStr.same_modulo_case a b ->
             InputValidator.validate_order_type a
             = InputValidator.validate_order_type b).
  { intros a b H. apply validate_order_type_ext.
    - now apply same_modulo_case_truthy.
    - now apply same_modulo_case_upper_strip. }
  split; [exact Hcase|]. split; [|split].
  - intros name canon s Hin Hs. rewrite (Hcase _ _ Hs).
    simpl in Hin.
    repeat (destruct Hin as [Hin|Hin];
            [injection Hin as <- <-; vm_compute; reflexivity|]).
    contradiction.
  - exact validate_order_type_canonical.
  - intros s t H. apply validate_order_type_canonical.
    now apply validate_order_type_Return in H.
Qed.

Lemma validate_order_type_case_insensitive_idempotent_witness :
  InputValidator.validate_order_type (lit "sToP-LiMiT")
  = InputValidator.validate_order_type (lit "STOP-limit")
  /\ InputValidator.validate_order_type (lit "mKt") = Return (lit "MARKET")
  /\ InputValidator.validate_order_type (lit "LIMIT") = Return (lit "LIMIT")
  /\ InputValidator.validate_order_type (lit "STOP_LIMIT") = Return (lit "STOP_LIMIT").
Proof.
  destruct validate_order_type_case_insensitive_idempotent
    as (Hcase & Hname & Hcanon & Hidem).
  split; [|split; [|split]].
  - apply Hcase. reflexivity.
  - apply (Hname (lit "MKT")); [simpl; tauto | reflexivity].
  - apply Hcanon. simpl. tauto.
  - apply (Hidem (lit "stoplimit")). reflexivity.
Defined.

(* ------------------------------------------------------------------ *)
(** ** [_build_order_payload] *)
(* ------------------------------------------------------------------ *)

(** C1.  The payload follows the mapping table: MARKET gives exchange
    type MARKET and no [timeInForce], [price] or [stopPrice] key; LIMIT
    gives exchange type LIMIT, [timeInForce] GTC and the price of the
    intent; STOP_LIMIT gives exchange type STOP, [timeInForce] GTC, the
    price and the stop price of the intent.  In each case [symbol],
    [side] and [quantity] are those of the intent, and the payload is
    determined by the intent alone. *)
Theorem build_order_payload_table (p : OrderParams) :
  (order_type p = lit "MARKET" ->
   BasicBot._build_order_payload p = Return (base_payload p (lit "MARKET"))
   /\ has_key (base_payload p (lit "MARKET")) (lit "timeInForce") = false
   /\ has_key (base_payload p (lit "MARKET")) (lit "price") = false
   /\ has_key (base_payload p (lit "MARKET")) (lit "stopPrice") = false)
  /\ (order_type p = lit "LIMIT" ->
      BasicBot._build_order_payload p
      = Return (base_payload p (lit "LIMIT")
                ++ [ (lit "timeInForce", VStr (lit "GTC"));
                     (lit "price", of_optional (price p)) ]))
  /\ (order_type p = lit "STOP_LIMIT" ->
      BasicBot._build_order_payload p
      = Return (base_payload p (lit "STOP")
                ++ [ (lit "timeInForce", VStr (lit "GTC"));
                     (lit "price", of_optional (price p));
                     (lit "stopPrice", of_optional (stop_price p)) ]))
  /\ (forall d : dict,
         BasicBot._build_order_payload p = Return d ->
         dict_get d (lit "symbol") = Some (VStr (symbol p))
         /\ dict_get d (lit "side") = Some (VStr (side p))
         /\ dict_get d (lit "quantity") = Some (VFloat (quantity p)))
  /\ (forall q : OrderParams,
         q = p -> BasicBot._build_order_payload q = BasicBot._build_order_payload p).
Proof.
  unfold BasicBot._build_order_payload.
  split; [|split; [|split; [|split]]].
  - intros ->. repeat split; reflexivity.
  - intros ->. reflexivity.
  - intros ->. reflexivity.
  - intros d.
    destruct (PyStr.eqb (order_type p) (lit "MARKET"));
      [intros [= <-]; repeat split; reflexivity|].
    destruct (PyStr.eqb (order_type p) (lit "LIMIT"));
      [intros [= <-]; repeat split; reflexivity|].
    destruct (PyStr.eqb (order_type p) (lit "STOP_LIMIT"));
      [intros [= <-]; repeat split; reflexivity|].
    discriminate.
  - intros q ->. reflexivity.
Qed.

(** The three rows of the table on the numbers of the STOP_LIMIT
    scenario: quantity 0.01, price 50000, stop price 49000. *)
Lemma build_order_payload_table_witness :
  BasicBot._build_order_payload
    (mkOrderParams (lit "BTCUSDT") (lit "BUY") (lit "MARKET") f_0_01 None None)
  = Return [ (lit "symbol", VStr (lit "BTCUSDT")); (lit "side", VStr (lit "BUY"));
             (lit "type", VStr (lit "MARKET")); (lit "quantity", VFloat f_0_01) ]
  /\ BasicBot._build_order_payload
       (mkOrderParams (lit "BTCUSDT") (lit "SELL") (lit "LIMIT") f_0_01
          (Some f_50000) None)
     = Return [ (lit "symbol", VStr (lit "BTCUSDT")); (lit "side", VStr (lit "SELL"));
                (lit "type", VStr (lit "LIMIT")); (lit "quantity", VFloat f_0_01);
                (lit "timeInForce", VStr (lit "GTC"));
                (lit "price", VFloat f_50000) ]
  /\ BasicBot._build_order_payload
       (mkOrderParams (lit "BTCUSDT") (lit "SELL") (lit "STOP_LIMIT") f_0_01
          (Some f_50000) (Some f_49000))
     = Return [ (lit "symbol", VStr (lit "BTCUSDT")); (lit "side", VStr (lit "SELL"));
                (lit "type", VStr (lit "STOP")); (lit "quantity", VFloat f_0_01);
                (lit "timeInForce", VStr (lit "GTC"));
                (lit "price", VFloat f_50000);
                (lit "stopPrice", VFloat f_49000) ].
Proof.
  split; [|split].
  - apply (build_order_payload_table
             (mkOrderParams (lit "BTCUSDT") (lit "BUY") (lit "MARKET") f_0_01
                None None)).
    reflexivity.
  - apply (build_order_payload_table
             (mkOrderParams (lit "BTCUSDT") (lit "SELL") (lit "LIMIT") f_0_01
                (Some f_50000) None)).
    reflexivity.
  - apply (build_order_payload_table
             (mkOrderParams (lit "BTCUSDT") (lit "SELL") (lit "STOP_LIMIT") f_0_01
                (Some f_50000) (Some f_49000))).
    reflexivity.
Defined.

(** The fallback branch is taken exactly outside the three types. *)
Lemma build_order_payload_Raise (p : OrderParams) (e : exn) :
  BasicBot._build_order_payload p = Raise e ->
  ~ In (order_type p) canonical_types
  /\ e = TradingBotError (lit "Unsupported internal order type: " ++ order_type p).
Proof.
  unfold BasicBot._build_order_payload.
  destruct (PyStr.eqb (order_type p) (lit "MARKET")) eqn:E1; [discriminate|].
  destruct (PyStr.eqb (order_type p) (lit "LIMIT")) eqn:E2; [discriminate|].
  destruct (PyStr.eqb (order_type p) (lit "STOP_LIMIT")) eqn:E3; [discriminate|].
  intros [= <-]. split; [|reflexivity].
  apply str_eqb_neq in E1, E2, E3. simpl. intuition congruence.
Qed.

Lemma build_order_payload_canonical (p : OrderParams) :
  In (order_type p) canonical_types ->
  exists d, BasicBot._build_order_payload p = Return d.
Proof.
  intros H. destruct (BasicBot._build_order_payload p) as [d|e] eqn:E;
    [now exists d|].
  apply build_order_payload_Raise in E as [Hn _]. contradiction.
Qed.

(* ------------------------------------------------------------------ *)
(** ** [validate_order_params] *)
(* ------------------------------------------------------------------ *)

Section OrderParamsFacts.

Import InputValidator.

Lemma validate_order_params_eq (args : Namespace) :
  validate_order_params args =
  (symbol <- validate_symbol (ns_symbol args) ;;
   side <- validate_side (ns_side args) ;;
   order_type <- validate_order_type (ns_type args) ;;
   quantity <- validate_positive_float (ns_qty args) (lit "Quantity") ;;
   price <- price_block order_type args ;;
   stop_price <- stop_price_block order_type args ;;
   Return (mkOrderParams symbol side order_type quantity price stop_price)).
Proof. reflexivity. Qed.

Lemma price_block_Return (t : str) (args : Namespace) (o : option float) :
  price_block t args = Return o ->
  (PyStr.mem t [lit "LIMIT"; lit "STOP_LIMIT"] = false /\ o = None)
  \/ (PyStr.mem t [lit "LIMIT"; lit "STOP_LIMIT"] = true
      /\ exists v f, ns_price args = Some v /\ o = Some f
                     /\ validate_positive_float v (lit "Price") = Return f).
Proof.
  unfold price_block.
  destruct (PyStr.mem t _); [|intros [= <-]; now left].
  destruct (ns_price args) as [v|]; [|discriminate].
  destruct (validate_positive_float v (lit "Price")) as [f|e] eqn:E;
    [|discriminate].
  simpl. intros [= <-]. right. split; [reflexivity|]. now exists v, f.
Qed.

Lemma stop_price_block_Return (t : str) (args : Namespace) (o : option float) :
  stop_price_block t args = Return o ->
  (PyStr.eqb t (lit "STOP_LIMIT") = false /\ o = None)
  \/ (PyStr.eqb t (lit "STOP_LIMIT") = true
      /\ exists v f, ns_stop_price args = Some v /\ o = Some f
                     /\ validate_positive_float v (lit "Stop price") = Return f).
Proof.
  unfold stop_price_block.
  destruct (PyStr.eqb t _); [|intros [= <-]; now left].
  destruct (ns_stop_price args) as [v|]; [|discriminate].
  destruct (validate_positive_float v (lit "Stop price")) as [f|e] eqn:E;
    [|discriminate].
  simpl. intros [= <-]. right. split; [reflexivity|]. now exists v, f.
Qed.

(** What a successful validation says about each rule. *)
Lemma validate_order_params_Return (args : Namespace) (p : OrderParams) :
  validate_order_params args = Return p ->
  validate_symbol (ns_symbol args) = Return (symbol p)
  /\ validate_side (ns_side args) = Return (side p)
  /\ validate_order_type (ns_type args) = Return (order_type p)
  /\ validate_positive_float (ns_qty args) (lit "Quantity") = Return (quantity p)
  /\ price_block (order_type p) args = Return (price p)
  /\ stop_price_block (order_type p) args = Return (stop_price p).
Proof.
  rewrite validate_order_params_eq. intros H. bind_inv H.
  injection H as <-. simpl. repeat split; assumption.
Qed.

End OrderParamsFacts.

(** C8.  The rules are applied in the order symbol, side, order type,
    quantity, price, stop price, and the outcome of validation is the
    error of the earliest rule that fails; an intent is returned only
    when no rule fails, and then every field of it is the result of its
    rule; a failure returns no intent. *)
Theorem first_failure_wins (args : Namespace) :
  error_of (InputValidator.validate_order_params args)
  = first_error (rule_errors args)
  /\ (forall p : OrderParams,
         InputValidator.validate_order_params args = Return p ->
         first_error (rule_errors args) = None
         /\ InputValidator.validate_symbol (ns_symbol args) = Return (symbol p)
         /\ InputValidator.validate_side (ns_side args) = Return (side p)
         /\ InputValidator.validate_order_type (ns_type args) = Return (order_type p)
         /\ InputValidator.validate_positive_float (ns_qty args) (lit "Quantity")
            = Return (quantity p)
         /\ price_block (order_type p) args = Return (price p)
         /\ stop_price_block (order_type p) args = Return (stop_price p))
  /\ (forall e : exn,
         InputValidator.validate_order_params args = Raise e ->
         first_error (rule_errors args) = Some e
         /\ forall p : OrderParams,
             InputValidator.validate_order_params args <> Return p).
Proof.
  assert (H1 : error_of (InputValidator.validate_order_params args)
               = first_error (rule_errors args)).
  { rewrite validate_order_params_eq. unfold rule_errors.
    destruct (InputValidator.validate_symbol (ns_symbol args)); [|reflexivity].
    destruct (InputValidator.validate_side (ns_side args)); [|reflexivity].
    destruct (InputValidator.validate_order_type (ns_type args)) as [t|];
      [|reflexivity].
    destruct (InputValidator.validate_positive_float (ns_qty args) (lit "Quantity"));
      [|reflexivity].
    simpl.
    destruct (price_block t args); [|reflexivity].
    destruct (stop_price_block t args); reflexivity. }
  split; [exact H1|]. split.
  - intros p Hp. split.
    + rewrite <- H1, Hp. reflexivity.
    + now apply validate_order_params_Return.
  - intros e He. split.
    + rewrite <- H1, He. reflexivity.
    + intros p Hp. congruence.
Qed.

(** An input with a bad symbol, a bad side, a bad type and a bad
    quantity reports the symbol; with the symbol repaired, the side. *)
Lemma first_failure_wins_witness :
  InputValidator.validate_order_params
    (mkNamespace None None (lit "btc") (lit "hold") (lit "swap") (lit "-1")
       None None)
  = Raise symbol_short_error
  /\ first_error
       (rule_errors
          (mkNamespace None None (lit "btcusdt") (lit "hold") (lit "swap")
             (lit "-1") None None))
     = Some (ValueError (lit "Side must be BUY or SELL.")).
Proof.
  split.
  - reflexivity.
  - apply (first_failure_wins
             (mkNamespace None None (lit "btcusdt") (lit "hold") (lit "swap")
                (lit "-1") None None)).
    reflexivity.
Defined.

(** The errors of a supplied but invalid price or stop price are not the
    errors of a missing one. *)
Lemma invalid_price_error_distinct (v : str) (e : exn) :
  InputValidator.validate_positive_float v (lit "Price") = Raise e ->
  e <> price_required_error.
Proof.
  intros H. apply validate_positive_float_Raise in H as [-> | ->];
    intros E; vm_compute in E; discriminate.
Qed.

Lemma invalid_stop_price_error_distinct (v : str) (e : exn) :
  InputValidator.validate_positive_float v (lit "Stop price") = Raise e ->
  e <> stop_price_required_error.
Proof.
  intros H. apply validate_positive_float_Raise in H as [-> | ->];
    intros E; vm_compute in E; discriminate.
Qed.

(** C3.  With the order type resolved to [t]: a LIMIT or STOP_LIMIT
    input without a price fails; a STOP_LIMIT input without a stop price
    fails; for MARKET the outcome does not depend on the two price
    options, and it is a success as soon as symbol, side and quantity
    pass.  When the earlier rules pass, a missing price raises the
    price-required error and a supplied invalid price raises another
    error, that of [validate_positive_float]; likewise for the stop
    price once the price has passed. *)
Theorem required_prices (args : Namespace) (t : str) :
  InputValidator.validate_order_type (ns_type args) = Return t ->
  (t = lit "LIMIT" \/ t = lit "STOP_LIMIT" ->
   ns_price args = None ->
   raises (InputValidator.validate_order_params args))
  /\ (t = lit "STOP_LIMIT" ->
      ns_stop_price args = None ->
      raises (InputValidator.validate_order_params args))
  /\ (t = lit "MARKET" ->
      (forall pr sp : option str,
          InputValidator.validate_order_params (with_prices args pr sp)
          = InputValidator.validate_order_params args)
      /\ (basics_pass args ->
          exists p, InputValidator.validate_order_params args = Return p
                    /\ price p = None /\ stop_price p = None))
  /\ (t = lit "LIMIT" \/ t = lit "STOP_LIMIT" ->
      basics_pass args ->
      (ns_price args = None ->
       InputValidator.validate_order_params args = Raise price_required_error)
      /\ (forall (v : str) (e : exn),
             ns_price args = Some v ->
             InputValidator.validate_positive_float v (lit "Price") = Raise e ->
             InputValidator.validate_order_params args = Raise e
             /\ e <> price_required_error))
  /\ (t = lit "STOP_LIMIT" ->
      basics_pass args ->
      (exists f, price_block t args = Return f) ->
      (ns_stop_price args = None ->
       InputValidator.validate_order_params args = Raise stop_price_required_error)
      /\ (forall (v : str) (e : exn),
             ns_stop_price args = Some v ->
             InputValidator.validate_positive_float v (lit "Stop price") = Raise e ->
             InputValidator.validate_order_params args = Raise e
             /\ e <> stop_price_required_error)).
Proof.
  intros Ht.
  assert (Hraise : forall e,
             error_of (InputValidator.validate_order_params args) = Some e ->
             raises (InputValidator.validate_order_params args)).
  { intros e. destruct (InputValidator.validate_order_params args) as [p|e'];
      [discriminate | intros _; now exists e']. }
  assert (Hbasic : basics_pass args ->
             InputValidator.validate_order_params args
             = (price <- price_block t args ;;
                stop_price <- stop_price_block t args ;;
                Return (mkOrderParams
                          (match InputValidator.validate_symbol (ns_symbol args)
                           with Return s => s | Raise _ => [] end)
                          (match InputValidator.validate_side (ns_side args)
                           with Return s => s | Raise _ => [] end)
                          t
                          (match InputValidator.validate_positive_float
                                   (ns_qty args) (lit "Quantity")
                           with Return q => q | Raise _ => PyFloat.zero end)
                          price stop_price))).
  { intros ((s & Hs) & (d & Hd) & _ & (q & Hq)).
    rewrite validate_order_params_eq, Hs, Hd, Ht, Hq. reflexivity. }
  split; [|split; [|split; [|split]]].
  - intros Hl Hp.
    assert (Hb : price_block t args = Raise price_required_error).
    { unfold price_block. rewrite Hp. destruct Hl as [-> | ->]; reflexivity. }
    rewrite validate_order_params_eq, Ht.
    destruct (InputValidator.validate_symbol (ns_symbol args));
      [|eexists; reflexivity].
    destruct (InputValidator.validate_side (ns_side args));
      [|eexists; reflexivity].
    destruct (InputValidator.validate_positive_float (ns_qty args) (lit "Quantity"));
      [|eexists; reflexivity].
    simpl. rewrite Hb. eexists; reflexivity.
  - intros -> Hp.
    assert (Hb : stop_price_block (lit "STOP_LIMIT") args
                 = Raise stop_price_required_error).
    { unfold stop_price_block. rewrite Hp. reflexivity. }
    rewrite validate_order_params_eq, Ht.
    destruct (InputValidator.validate_symbol (ns_symbol args));
      [|eexists; reflexivity].
    destruct (InputValidator.validate_side (ns_side args));
      [|eexists; reflexivity].
    destruct (InputValidator.validate_positive_float (ns_qty args) (lit "Quantity"));
      [|eexists; reflexivity].
    simpl.
    destruct (price_block (lit "STOP_LIMIT") args); [|eexists; reflexivity].
    simpl. rewrite Hb. eexists; reflexivity.
  - intros ->. split.
    + intros pr sp. rewrite !validate_order_params_eq. simpl.
      rewrite Ht.
      destruct (InputValidator.validate_symbol (ns_symbol args)); [|reflexivity].
      destruct (InputValidator.validate_side (ns_side args)); [|reflexivity].
      reflexivity.
    + intros Hb. rewrite (Hbasic Hb). eexists. split; [reflexivity|].
      split; reflexivity.
  - intros Hl Hb. rewrite (Hbasic Hb). split.
    + intros Hp. unfold price_block. rewrite Hp.
      destruct Hl as [-> | ->]; reflexivity.
    + intros v e Hp He. split; [|now apply invalid_price_error_distinct with v].
      unfold price_block. rewrite Hp, He.
      destruct Hl as [-> | ->]; reflexivity.
  - intros -> Hb (f & Hf). rewrite (Hbasic Hb), Hf. split.
    + intros Hp. unfold stop_price_block. rewrite Hp. reflexivity.
    + intros v e Hp He. split; [|now apply invalid_stop_price_error_distinct with v].
      unfold stop_price_block. rewrite Hp, He. reflexivity.
Qed.

Lemma sample_args_basics_pass (type t : str) (pr sp : option str) :
  InputValidator.validate_order_type type = Return t ->
  basics_pass (sample_args type pr sp).
Proof.
  intros Ht. repeat split; simpl.
  - eexists. vm_compute. reflexivity.
  - eexists. vm_compute. reflexivity.
  - now exists t.
  - eexists. vm_compute. reflexivity.
Qed.

Lemma required_prices_witness :
  InputValidator.validate_order_params (sample_args (lit "limit") None None)
  = Raise price_required_error
  /\ raises (InputValidator.validate_order_params
               (sample_args (lit "stop-limit") (Some (lit "50000")) None))
  /\ InputValidator.validate_order_params
       (sample_args (lit "stop-limit") (Some (lit "50000")) None)
     = Raise stop_price_required_error
  /\ InputValidator.validate_order_params
       (with_prices (sample_args (lit "mkt") None None)
          (Some (lit "abc")) (Some (lit "-1")))
     = InputValidator.validate_order_params (sample_args (lit "mkt") None None)
  /\ (exists p, InputValidator.validate_order_params
                  (sample_args (lit "mkt") (Some (lit "abc")) None) = Return p
                /\ price p = None /\ stop_price p = None)
  /\ (InputValidator.validate_order_params
        (sample_args (lit "limit") (Some (lit "abc")) None)
      = Raise (ValueError (lit "Price must be a number."))
      /\ ValueError (lit "Price must be a number.") <> price_required_error).
Proof.
  split; [|split; [|split; [|split; [|split]]]].
  - apply (@required_prices (sample_args (lit "limit") None None) (lit "LIMIT"));
      [reflexivity | now left | | reflexivity].
    now apply sample_args_basics_pass with (lit "LIMIT").
  - apply (@required_prices
             (sample_args (lit "stop-limit") (Some (lit "50000")) None)
             (lit "STOP_LIMIT")); reflexivity.
  - apply (@required_prices
             (sample_args (lit "stop-limit") (Some (lit "50000")) None)
             (lit "STOP_LIMIT")); try reflexivity.
    + now apply sample_args_basics_pass with (lit "STOP_LIMIT").
    + eexists. vm_compute. reflexivity.
  - apply (@required_prices (sample_args (lit "mkt") None None) (lit "MARKET"));
      reflexivity.
  - apply (@required_prices (sample_args (lit "mkt") (Some (lit "abc")) None)
             (lit "MARKET")); try reflexivity.
    now apply sample_args_basics_pass with (lit "MARKET").
  - apply (@required_prices (sample_args (lit "limit") (Some (lit "abc")) None)
             (lit "LIMIT")) with (v := lit "abc"); try reflexivity.
    + now left.
    + now apply sample_args_basics_pass with (lit "LIMIT").
Defined.

(** What validation guarantees of the two price fields: each is set
    exactly for the order types that need it, and a value that is set is
    the parsed text of its option and is not [<= 0]; it is therefore
    greater than zero or a NaN. *)
Lemma validated_prices (args : Namespace) (p : OrderParams) :
  InputValidator.validate_order_params args = Return p ->
  In (order_type p) canonical_types
  /\ (price p <> None <-> order_type p = lit "LIMIT" \/ order_type p = lit "STOP_LIMIT")
  /\ (stop_price p <> None <-> order_type p = lit "STOP_LIMIT")
  /\ (forall f, price p = Some f ->
        PyFloat.gt f PyFloat.zero = true \/ f = PyFloat.nan)
  /\ (forall f, stop_price p = Some f ->
        PyFloat.gt f PyFloat.zero = true \/ f = PyFloat.nan).
Proof.
  intros H. apply validate_order_params_Return in H
    as (_ & _ & Ht & _ & Hp & Hs).
  apply validate_order_type_Return in Ht.
  split; [assumption|].
  apply price_block_Return in Hp. apply stop_price_block_Return in Hs.
  split; [|split; [|split]].
  - destruct Hp as [(Hm & ->) | (Hm & v & f & _ & -> & _)].
    + split; [congruence|]. intros Hl.
      assert (In (order_type p) [lit "LIMIT"; lit "STOP_LIMIT"])
        by (simpl; intuition auto).
      apply str_mem_In in H. congruence.
    + split; [|discriminate]. intros _.
      apply str_mem_In in Hm. simpl in Hm. intuition auto.
  - destruct Hs as [(Hm & ->) | (Hm & v & f & _ & -> & _)].
    + split; [congruence|]. intros Hl. apply str_eqb_neq in Hm. congruence.
    + split; [|discriminate]. intros _. now apply str_eqb_eq in Hm.
  - intros f Hf.
    destruct Hp as [(_ & E) | (_ & v & g & _ & E & Hv)]; [congruence|].
    assert (g = f) by congruence. subst g.
    apply validate_positive_float_Return in Hv as [_ Hv].
    now apply not_le_zero.
  - intros f Hf.
    destruct Hs as [(_ & E) | (_ & v & g & _ & E & Hv)]; [congruence|].
    assert (g = f) by congruence. subst g.
    apply validate_positive_float_Return in Hv as [_ Hv].
    now apply not_le_zero.
Qed.

(** C7 (defect).  A LIMIT order with the price text [nan] is validated
    into an intent whose price is set to a NaN, which is not a positive
    float; the same happens to the stop price of a STOP_LIMIT order. *)
Theorem validated_price_may_be_nan :
  InputValidator.validate_order_params
    (sample_args (lit "LIMIT") (Some (lit "nan")) None)
  = Return (mkOrderParams (lit "BTCUSDT") (lit "BUY") (lit "LIMIT")
              (S754_finite false 4611686018427388 (-62))
              (Some PyFloat.nan) None)
  /\ InputValidator.validate_order_params
       (sample_args (lit "STOP_LIMIT") (Some (lit "50000")) (Some (lit "nan")))
     = Return (mkOrderParams (lit "BTCUSDT") (lit "BUY") (lit "STOP_LIMIT")
                 (S754_finite false 4611686018427388 (-62))
                 (Some f_50000) (Some PyFloat.nan))
  /\ PyFloat.gt PyFloat.nan PyFloat.zero = false.
Proof. repeat split; vm_compute; reflexivity. Qed.

(** C9.  The order type of a validated intent is MARKET, LIMIT or
    STOP_LIMIT, so building its payload returns a payload and does not
    raise the unsupported-type error. *)
Theorem validated_intent_builds (args : Namespace) (p : OrderParams) :
  InputValidator.validate_order_params args = Return p ->
  In (order_type p) canonical_types
  /\ (exists d, BasicBot._build_order_payload p = Return d)
  /\ BasicBot._build_order_payload p
     <> Raise (TradingBotError
                 (lit "Unsupported internal order type: " ++ order_type p))
  /\ ~ raises (BasicBot._build_order_payload p).
Proof.
  intros H. apply validate_order_params_Return in H as (_ & _ & Ht & _).
  apply validate_order_type_Return in Ht.
  destruct (build_order_payload_canonical p Ht) as [d Hd].
  split; [assumption|]. split; [now exists d|].
  rewrite Hd. split; [discriminate | apply Return_not_raises].
Qed.

(** The MARKET scenario: [mkt] is validated and mapped. *)
Lemma validated_intent_builds_witness :
  In (lit "MARKET") canonical_types
  /\ (exists d,
         BasicBot._build_order_payload
           (mkOrderParams (lit "BTCUSDT") (lit "BUY") (lit "MARKET")
              (S754_finite false 4611686018427388 (-62)) None None)
         = Return d).
Proof.
  pose proof (@validated_intent_builds
                (sample_args (lit "mkt") None None)
                (mkOrderParams (lit "BTCUSDT") (lit "BUY") (lit "MARKET")
                   (S754_finite false 4611686018427388 (-62)) None None)) as H.
  assert (E : InputValidator.validate_order_params
                (sample_args (lit "mkt") None None)
              = Return (mkOrderParams (lit "BTCUSDT") (lit "BUY") (lit "MARKET")
                          (S754_finite false 4611686018427388 (-62)) None None))
    by (vm_compute; reflexivity).
  destruct (H E) as (H1 & H2 & _). split; assumption.
Defined.

(* ------------------------------------------------------------------ *)
(** ** [place_order] *)
(* ------------------------------------------------------------------ *)

Lemma contains_suffix (pre s : str) : PyStr.contains (pre ++ s) s.
Proof. exists pre, []. now rewrite app_nil_r. Qed.

(** C6.  When the client raises an exception during the submission of
    the payload, whether one of the Binance classes or any other,
    [place_order] fails with a [TradingBotError] whose message contains
    the message of that exception; and no outcome of [place_order] is an
    exception of the client that escaped. *)
Theorem place_order_wraps_client_exceptions
  (cl : client) (params : OrderParams) :
  (forall (payload : dict) (e : client_exception),
      BasicBot._build_order_payload params = Return payload ->
      cl payload = Throws e ->
      exists msg,
        BasicBot.place_order cl params = Fails (TradingBotError msg)
        /\ PyStr.contains msg (exc_str e))
  /\ (forall e : client_exception,
         BasicBot.place_order cl params <> ClientExceptionEscapes e)
  /\ (forall e : exn,
         BasicBot.place_order cl params = Fails e ->
         exists msg, e = TradingBotError msg).
Proof.
  unfold BasicBot.place_order. split; [|split].
  - intros payload e Hb Hc. rewrite Hb, Hc.
    destruct (BasicBot.is_binance_exception (exc_class e)).
    + eexists. split; [reflexivity | apply contains_suffix].
    + destruct (BasicBot.is_exception (exc_class e)) eqn:E.
      * eexists. split; [reflexivity | apply contains_suffix].
      * destruct (exc_class e); discriminate.
  - intros e.
    destruct (BasicBot._build_order_payload params) as [payload|]; [|discriminate].
    destruct (cl payload) as [r|e'|b]; try discriminate.
    destruct (BasicBot.is_binance_exception (exc_class e')); [discriminate|].
    destruct (BasicBot.is_exception (exc_class e')) eqn:E; [discriminate|].
    destruct (exc_class e'); discriminate.
  - intros e.
    destruct (BasicBot._build_order_payload params) as [payload|e0] eqn:Hb.
    + destruct (cl payload) as [r|e'|b]; try discriminate.
      destruct (BasicBot.is_binance_exception (exc_class e'));
        [intros [= <-]; eexists; reflexivity|].
      destruct (BasicBot.is_exception (exc_class e'));
        [intros [= <-]; eexists; reflexivity | discriminate].
    + intros [= <-]. apply build_order_payload_Raise in Hb as [_ ->].
      eexists; reflexivity.
Qed.

Lemma place_order_wraps_client_exceptions_witness :
  (exists msg,
      BasicBot.place_order rejecting_client market_intent
      = Fails (TradingBotError msg)
      /\ PyStr.contains msg (lit "APIError(code=-2019): Margin is insufficient."))
  /\ (exists msg,
         BasicBot.place_order unreachable_client market_intent
         = Fails (TradingBotError msg)
         /\ PyStr.contains msg (lit "Connection refused")).
Proof.
  split.
  - apply (proj1 (place_order_wraps_client_exceptions
                      rejecting_client market_intent)
             (base_payload market_intent (lit "MARKET"))
             (mkClientException BinanceAPIException
                (lit "APIError(code=-2019): Margin is insufficient.")));
      reflexivity.
  - apply (proj1 (place_order_wraps_client_exceptions
                      unreachable_client market_intent)
             (base_payload market_intent (lit "MARKET"))
             (mkClientException OtherException (lit "Connection refused")));
      reflexivity.
Defined.

(** The messages of the two handlers, and the paths that are not errors
    of the client. *)
Lemma place_order_outcomes (cl : client) (params : OrderParams) (payload : dict) :
  BasicBot._build_order_payload params = Return payload ->
  (forall r, cl payload = Responds r -> BasicBot.place_order cl params = Placed r)
  /\ (forall e, cl payload = Throws e ->
        BasicBot.is_binance_exception (exc_class e) = true ->
        BasicBot.place_order cl params
        = Fails (TradingBotError (lit "Binance API error: " ++ exc_str e)))
  /\ (forall e, cl payload = Throws e ->
        BasicBot.is_binance_exception (exc_class e) = false ->
        BasicBot.place_order cl params
        = Fails (TradingBotError
                   (lit "Unexpected error while placing order: " ++ exc_str e)))
  /\ (forall b, cl payload = Interrupts b ->
        BasicBot.place_order cl params = Interrupted b).
Proof.
  intros Hb. unfold BasicBot.place_order. rewrite Hb.
  repeat split.
  - intros r ->. reflexivity.
  - intros e -> ->. reflexivity.
  - intros e -> E. rewrite E. destruct (exc_class e); try discriminate. reflexivity.
  - intros b ->. reflexivity.
Qed.

(* ------------------------------------------------------------------ *)
(** ** [resolve_credentials] *)
(* ------------------------------------------------------------------ *)

(** C10.  For the key and for the secret the command-line value wins
    over the environment variable, and an empty string counts as an
    absent value on either side.  Resolution fails with the
    configuration error exactly when the key or the secret chosen this
    way is missing, and otherwise returns the chosen key and secret as
    they were given. *)
Theorem resolve_credentials_spec (getenv : environ) (args : Namespace) :
  resolve_credentials getenv args
  = match chosen (ns_api_key args) (getenv (lit "BINANCE_API_KEY")),
          chosen (ns_api_secret args) (getenv (lit "BINANCE_API_SECRET")) with
    | Some k, Some s => Return (Some k, Some s)
    | _, _ => Raise credentials_error
    end
  /\ (forall (v : str) (env : option str), v <> [] -> chosen (Some v) env = Some v)
  /\ (forall env : option str, chosen (Some []) env = chosen None env)
  /\ (forall cli : option str, chosen cli (Some []) = chosen cli None)
  /\ (raises (resolve_credentials getenv args) <->
      chosen (ns_api_key args) (getenv (lit "BINANCE_API_KEY")) = None
      \/ chosen (ns_api_secret args) (getenv (lit "BINANCE_API_SECRET")) = None).
Proof.
  assert (H : resolve_credentials getenv args
              = match chosen (ns_api_key args) (getenv (lit "BINANCE_API_KEY")),
                      chosen (ns_api_secret args) (getenv (lit "BINANCE_API_SECRET"))
                with
                | Some k, Some s => Return (Some k, Some s)
                | _, _ => Raise credentials_error
                end).
  { unfold resolve_credentials, py_or, chosen, non_empty, truthy_opt.
    destruct (ns_api_key args) as [[|c1 k1]|];
      destruct (getenv (lit "BINANCE_API_KEY")) as [[|c2 k2]|];
      destruct (ns_api_secret args) as [[|c3 k3]|];
      destruct (getenv (lit "BINANCE_API_SECRET")) as [[|c4 k4]|];
      reflexivity. }
  split; [exact H|]. split; [|split; [|split]].
  - intros [|c r] env Hv; [congruence | reflexivity].
  - reflexivity.
  - intros [[|c r]|]; reflexivity.
  - rewrite H.
    destruct (chosen (ns_api_key args) _) as [k|];
      destruct (chosen (ns_api_secret args) _) as [s|]; split;
      try (intros _; eexists; reflexivity);
      try (intros _; now left); try (intros _; now right).
    + intros [e He]. discriminate.
    + intros [E|E]; discriminate.
Qed.

Lemma resolve_credentials_spec_witness :
  chosen (Some (lit "cli-key")) (Some (lit "env-key")) = Some (lit "cli-key")
  /\ raises (resolve_credentials (env_of (Some (lit "env-key")) None)
               (credential_args None (Some []))).
Proof.
  split.
  - apply (resolve_credentials_spec (env_of None None) (credential_args None None)).
    discriminate.
  - apply (resolve_credentials_spec (env_of (Some (lit "env-key")) None)
             (credential_args None (Some []))).
    right. reflexivity.
Defined.

(** Runs of the resolution. *)
Example resolve_credentials_cli_over_env :
  resolve_credentials (env_of (Some (lit "env-key")) (Some (lit "env-secret")))
    (credential_args (Some (lit "cli-key")) (Some []))
  = Return (Some (lit "cli-key"), Some (lit "env-secret")).
Proof. reflexivity. Qed.

Example resolve_credentials_missing_secret :
  resolve_credentials (env_of (Some (lit "env-key")) (Some []))
    (credential_args None None)
  = Raise credentials_error.
Proof. reflexivity. Qed.

(* ------------------------------------------------------------------ *)
(** ** Scenarios *)
(* ------------------------------------------------------------------ *)

(** [symbol=BTCUSDT, side=buy, type=mkt, qty=0.001] is normalised to
    BTCUSDT, BUY, MARKET, 0.001 and mapped to a four-entry payload. *)
Example scenario_market :
  InputValidator.validate_order_params (sample_args (lit "mkt") None None)
  = Return market_intent
  /\ BasicBot._build_order_payload market_intent
     = Return [ (lit "symbol", VStr (lit "BTCUSDT")); (lit "side", VStr (lit "BUY"));
                (lit "type", VStr (lit "MARKET"));
                (lit "quantity", VFloat (S754_finite false 4611686018427388 (-62))) ].
Proof. split; vm_compute; reflexivity. Qed.

(** [type=STOP_LIMIT, qty=0.01, price=50000, stop-price=49000]. *)
Example scenario_stop_limit :
  (p <- InputValidator.validate_order_params
          (mkNamespace None None (lit "BTCUSDT") (lit "sell") (lit "STOP_LIMIT")
             (lit "0.01") (Some (lit "50000")) (Some (lit "49000"))) ;;
   BasicBot._build_order_payload p)
  = Return [ (lit "symbol", VStr (lit "BTCUSDT")); (lit "side", VStr (lit "SELL"));
             (lit "type", VStr (lit "STOP")); (lit "quantity", VFloat f_0_01);
             (lit "timeInForce", VStr (lit "GTC"));
             (lit "price", VFloat f_50000);
             (lit "stopPrice", VFloat f_49000) ].
Proof. vm_compute. reflexivity. Qed.

(** [type=LIMIT] without a price names the price as required. *)
Example scenario_limit_without_price :
  InputValidator.validate_order_params (sample_args (lit "LIMIT") None None)
  = Raise (ValueError (lit "Price is required for LIMIT and STOP_LIMIT orders.")).
Proof. vm_compute. reflexivity. Qed.

(** Texts of the numeric fields: a zero, a negative number, an
    underflow to zero and a word are rejected, an infinity is accepted. *)
Example scenario_numbers :
  InputValidator.validate_positive_float (lit "0") (lit "Quantity")
  = Raise (ValueError (lit "Quantity must be greater than 0."))
  /\ InputValidator.validate_positive_float (lit "-1.5") (lit "Price")
     = Raise (ValueError (lit "Price must be greater than 0."))
  /\ InputValidator.validate_positive_float (lit "1e-999") (lit "Price")
     = Raise (ValueError (lit "Price must be greater than 0."))
  /\ InputValidator.validate_positive_float (lit "ten") (lit "Stop price")
     = Raise (ValueError (lit "Stop price must be a number."))
  /\ InputValidator.validate_positive_float (lit " 1_000.5 ") (lit "Price")
     = Return (S754_finite false 8800491068719104 (-43))
  /\ InputValidator.validate_positive_float (lit "inf") (lit "Price")
     = Return (PyFloat.inf false).
Proof. repeat split; vm_compute; reflexivity. Qed.

(* ================================================================== *)
(** * Further properties *)
(* ================================================================== *)

(* ------------------------------------------------------------------ *)
(** ** Normal forms of trimmed and upper-case strings *)
(* ------------------------------------------------------------------ *)

Section NormalForms.

Import PyStr.
Local Open Scope N_scope.

Lemma lstrip_first_space (s : str) : first_space (lstrip s) = false.
Proof.
  induction s as [|c s IH]; simpl; [reflexivity|].
  destruct (isspace c) eqn:E; [assumption | simpl; assumption].
Qed.

Lemma lstrip_fixed (s : str) : first_space s = false -> lstrip s = s.
Proof. destruct s as [|c s]; simpl; [reflexivity | now intros ->]. Qed.

(** Dropping leading whitespace leaves the last character in place. *)
Lemma lstrip_rev_first_space (s : str) :
  first_space (rev s) = false -> first_space (rev (lstrip s)) = false.
Proof.
  induction s as [|c s IH]; simpl; [reflexivity|].
  destruct (isspace c) eqn:E; [|simpl; tauto].
  intros H. destruct (rev s) as [|x r] eqn:Er.
  - assert (s = []) by (apply (f_equal (@rev _)) in Er;
                        now rewrite rev_involutive in Er).
    subst s. reflexivity.
  - apply IH. simpl in *. assumption.
Qed.

Lemma strip_fixed (s : str) :
  first_space s = false -> first_space (rev s) = false -> strip s = s.
Proof.
  intros H1 H2. unfold strip, rstrip.
  rewrite (lstrip_fixed _ H1), (lstrip_fixed _ H2). apply rev_involutive.
Qed.

Lemma strip_ends (s : str) :
  first_space (strip s) = false /\ first_space (rev (strip s)) = false.
Proof.
  unfold strip, rstrip. split.
  - apply lstrip_rev_first_space. rewrite rev_involutive.
    apply lstrip_first_space.
  - rewrite rev_involutive. apply lstrip_first_space.
Qed.

(** Trimming a trimmed string changes nothing. *)
Lemma strip_idempotent (s : str) : strip (strip s) = strip s.
Proof. destruct (strip_ends s). now apply strip_fixed. Qed.

(** The upper-case form of a character is not empty, and all of it is
    whitespace or none of it, as the character is. *)
Lemma upper_cp_shape (c : codepoint) :
  exists h t,
    upper_cp c = h :: t
    /\ forallb (fun x => Bool.eqb (isspace x) (isspace c)) (h :: t) = true.
Proof.
  assert (Hall : forallb
                   (fun e => forallb
                               (fun x => Bool.eqb (isspace x) (isspace (fst e)))
                               (snd e))
                   upper_table = true) by (vm_compute; reflexivity).
  rewrite forallb_forall in Hall.
  pose proof (upper_cp_nonempty c) as Hne.
  destruct (upper_cp_cases c) as [(u & Hin & E) | [E _]].
  - specialize (Hall _ Hin). simpl in Hall. rewrite E in *.
    destruct u as [|h t]; [simpl in Hne; lia|]. now exists h, t.
  - exists c, []. split; [assumption|]. simpl. now rewrite Bool.eqb_reflx.
Qed.

Lemma upper_first_space (s : str) : first_space (upper s) = first_space s.
Proof.
  destruct s as [|c s]; [reflexivity|]. unfold upper. simpl.
  destruct (upper_cp_shape c) as (h & t & -> & H). simpl in *.
  apply andb_prop in H as [H _]. now apply Bool.eqb_prop in H.
Qed.

Lemma upper_app (a b : str) : upper (a ++ b) = upper a ++ upper b.
Proof. unfold upper. apply flat_map_app. Qed.

Lemma upper_rev_first_space (s : str) :
  first_space (rev (upper s)) = first_space (rev s).
Proof.
  destruct (rev s) as [|c r] eqn:Er.
  - assert (s = []) by (apply (f_equal (@rev _)) in Er;
                        now rewrite rev_involutive in Er).
    subst s. reflexivity.
  - assert (Hs : s = rev r ++ [c]).
    { apply (f_equal (@rev _)) in Er. now rewrite rev_involutive in Er. }
    rewrite Hs, upper_app, rev_app_distr.
    unfold upper at 1. simpl. rewrite app_nil_r.
    destruct (upper_cp_shape c) as (h & t & E & H). rewrite E.
    assert (Hall : forall x, In x (rev (h :: t)) -> isspace x = isspace c).
    { intros x Hx. apply in_rev in Hx.
      rewrite forallb_forall in H. now apply Bool.eqb_prop, H. }
    destruct (rev (h :: t)) as [|y l] eqn:Ey.
    + apply (f_equal (@List.length _)) in Ey.
      rewrite length_rev in Ey. discriminate.
    + simpl. apply Hall. now left.
Qed.

(** The upper-case form of a trimmed string is trimmed. *)
Lemma strip_upper_strip (s : str) : strip (upper (strip s)) = upper (strip s).
Proof.
  destruct (strip_ends s) as [H1 H2]. apply strip_fixed.
  - now rewrite upper_first_space.
  - now rewrite upper_rev_first_space.
Qed.

(** Converting to upper case twice is converting once. *)
Lemma upper_cp_idempotent (c : codepoint) : upper (upper_cp c) = upper_cp c.
Proof.
  assert (Hall : forallb (fun e => eqb (upper (snd e)) (snd e)) upper_table = true)
    by (vm_compute; reflexivity).
  rewrite forallb_forall in Hall.
  destruct (upper_cp_cases c) as [(u & Hin & ->) | [E _]].
  - apply str_eqb_eq. exact (Hall _ Hin).
  - rewrite E. unfold upper. simpl. rewrite app_nil_r. exact E.
Qed.

Lemma upper_idempotent (s : str) : upper (upper s) = upper s.
Proof.
  induction s as [|c s IH]; [reflexivity|].
  change (upper (c :: s)) with (upper_cp c ++ upper s).
  now rewrite upper_app, upper_cp_idempotent, IH.
Qed.

(** No ASCII lower-case letter is left in an upper-case form. *)
Lemma upper_no_ascii_lower (s : str) (c : codepoint) :
  In c (upper s) -> is_ascii_lower c = false.
Proof.
  assert (Hall : forallb (fun e => forallb (fun x => negb (is_ascii_lower x)) (snd e))
                   upper_table = true) by (vm_compute; reflexivity).
  rewrite forallb_forall in Hall.
  unfold upper. rewrite in_flat_map. intros (x & _ & Hc).
  destruct (upper_cp_cases x) as [(u & Hin & E) | [E _]]; rewrite E in Hc.
  - specialize (Hall _ Hin). simpl in Hall. rewrite forallb_forall in Hall.
    apply Hall in Hc. now apply negb_true_iff in Hc.
  - destruct Hc as [<-|[]].
    destruct (is_ascii_lower x) eqn:El; [|reflexivity].
    apply is_ascii_lower_bounds in El.
    rewrite upper_cp_ascii in E by lia.
    unfold ascii_fold, is_ascii_lower, in_range in E. revert E. decide_tests.
    intros [= E]. lia.
Qed.

(** The trimmed upper-case form is a fixed point of trimming followed by
    conversion to upper case. *)
Lemma upper_strip_normal (s : str) :
  upper (strip (upper (strip s))) = upper (strip s).
Proof. now rewrite strip_upper_strip, upper_idempotent. Qed.

End NormalForms.

(* ------------------------------------------------------------------ *)
(** ** The single-field validators *)
(* ------------------------------------------------------------------ *)

(** Past the test for emptiness, the side and the order type are
    decided by membership of the trimmed upper-case text. *)
Lemma validate_side_nonempty (c : PyStr.codepoint) (s : str) :
  InputValidator.validate_side (c :: s) =
  if PyStr.mem (PyStr.upper (PyStr.strip (c :: s))) sides
  then Return (PyStr.upper (PyStr.strip (c :: s)))
  else Raise side_invalid_error.
Proof.
  unfold InputValidator.validate_side, sides.
  cbn [PyStr.truthy negb]. cbv zeta.
  destruct (PyStr.mem (PyStr.upper (PyStr.strip (c :: s))) _); reflexivity.
Qed.

Lemma validate_order_type_nonempty (c : PyStr.codepoint) (s : str) :
  InputValidator.validate_order_type (c :: s) =
  if PyStr.mem (InputValidator.aliases_get (PyStr.upper (PyStr.strip (c :: s))))
       canonical_types
  then Return (InputValidator.aliases_get (PyStr.upper (PyStr.strip (c :: s))))
  else Raise type_invalid_error.
Proof.
  unfold InputValidator.validate_order_type, canonical_types.
  cbn [PyStr.truthy negb]. cbv zeta.
  destruct (PyStr.mem
              (InputValidator.aliases_get (PyStr.upper (PyStr.strip (c :: s)))) _);
    reflexivity.
Qed.

(** The inputs [validate_side] and [validate_order_type] accept. *)
Lemma validate_side_accepts_iff_aux (s u : str) :
  InputValidator.validate_side s = Return u <->
  s <> [] /\ u = PyStr.upper (PyStr.strip s) /\ In u sides.
Proof.
  split.
  - destruct s as [|c s]; [discriminate|]. rewrite validate_side_nonempty.
    destruct (PyStr.mem _ sides) eqn:E; [|discriminate].
    intros [= <-]. apply str_mem_In in E.
    split; [discriminate|]. split; [reflexivity | assumption].
  - intros (Hs & -> & Hin). destruct s as [|c s]; [congruence|].
    rewrite validate_side_nonempty.
    apply str_mem_In in Hin. now rewrite Hin.
Qed.

Lemma validate_side_ext_aux (a b : str) :
  PyStr.same_modulo_case a b ->
  InputValidator.validate_side a = InputValidator.validate_side b.
Proof.
  intros H. unfold InputValidator.validate_side.
  now rewrite (same_modulo_case_truthy H), (same_modulo_case_upper_strip H).
Qed.

(** X1.  [validate_side] returns a side exactly for the non-empty inputs
    whose trimmed upper-case form is BUY or SELL, and what it returns is
    that form. *)
Theorem validate_side_accepts_iff (s u : str) :
  InputValidator.validate_side s = Return u <->
  s <> [] /\ u = PyStr.upper (PyStr.strip s) /\ In u sides.
Proof. apply validate_side_accepts_iff_aux. Qed.

Lemma validate_side_accepts_iff_witness :
  InputValidator.validate_side (0x17F%N :: lit "ell ") = Return (lit "SELL")
  /\ In (lit "BUY") sides.
Proof.
  split.
  - apply (validate_side_accepts_iff (0x17F%N :: lit "ell ") (lit "SELL")).
    split; [discriminate|]. split; [vm_compute; reflexivity | simpl; tauto].
  - apply (validate_side_accepts_iff (lit "buy") (lit "BUY")). reflexivity.
Defined.

(** X2.  [validate_side] does not see the case of ASCII letters, and a
    side it returned validates to itself. *)
Theorem validate_side_case_insensitive_idempotent :
  (forall a b : str,
      PyStr.same_modulo_case a b ->
      InputValidator.validate_side a = InputValidator.validate_side b)
  /\ (forall s u : str,
         InputValidator.validate_side s = Return u ->
         InputValidator.validate_side u = Return u).
Proof.
  split.
  - exact validate_side_ext_aux.
  - intros s u H. apply validate_side_Return in H as [-> | ->]; reflexivity.
Qed.

Lemma validate_side_case_insensitive_idempotent_witness :
  InputValidator.validate_side (lit "bUy") = InputValidator.validate_side (lit "Buy")
  /\ InputValidator.validate_side (lit "SELL") = Return (lit "SELL").
Proof.
  destruct validate_side_case_insensitive_idempotent as [Hcase Hidem].
  split.
  - apply Hcase. reflexivity.
  - apply (Hidem (lit " sell")). reflexivity.
Defined.

(** X3.  Blank input.  The empty text is reported as an empty symbol, a
    side not provided and an order type not provided.  A text of
    whitespace only is reported as an empty symbol too, but as an
    invalid side and an invalid order type, since only the symbol is
    trimmed before the test for emptiness. *)
Theorem blank_input_errors (s : str) :
  PyStr.strip s = [] ->
  InputValidator.validate_symbol s = Raise symbol_empty_error
  /\ (s = [] ->
      InputValidator.validate_side s = Raise side_missing_error
      /\ InputValidator.validate_order_type s = Raise type_missing_error)
  /\ (s <> [] ->
      InputValidator.validate_side s = Raise side_invalid_error
      /\ InputValidator.validate_order_type s = Raise type_invalid_error).
Proof.
  intros Hs. split; [|split].
  - unfold InputValidator.validate_symbol. rewrite symbol_empty_test, Hs.
    reflexivity.
  - intros ->. split; reflexivity.
  - intros Hne. destruct s as [|c s]; [congruence|].
    rewrite validate_side_nonempty, validate_order_type_nonempty, Hs.
    split; reflexivity.
Qed.

Lemma blank_input_errors_witness :
  InputValidator.validate_symbol (lit "   ") = Raise symbol_empty_error
  /\ InputValidator.validate_side (lit "   ") = Raise side_invalid_error
  /\ InputValidator.validate_order_type (lit "   ") = Raise type_invalid_error
  /\ InputValidator.validate_side [] = Raise side_missing_error
  /\ InputValidator.validate_order_type [] = Raise type_missing_error.
Proof.
  destruct (@blank_input_errors (lit "   ") eq_refl) as (H1 & _ & H2).
  destruct (@blank_input_errors [] eq_refl) as (_ & H3 & _).
  destruct (H2 ltac:(discriminate)) as [H4 H5].
  destruct (H3 eq_refl) as [H6 H7].
  repeat split; assumption.
Defined.

(** The alias table followed by the membership test, as a relation
    between the trimmed upper-case text and the type returned. *)
Lemma aliases_get_names (u t : str) :
  InputValidator.aliases_get u = t /\ In t canonical_types <->
  In (u, t) type_names.
Proof.
  unfold InputValidator.aliases_get, type_names, canonical_types. split.
  - intros [Ha Hin].
    destruct (PyStr.eqb u (lit "MKT")) eqn:E1.
    { apply str_eqb_eq in E1. subst. simpl. tauto. }
    destruct (PyStr.eqb u (lit "STOP-LIMIT")) eqn:E2.
    { apply str_eqb_eq in E2. subst. simpl. tauto. }
    destruct (PyStr.eqb u (lit "STOPLIMIT")) eqn:E3.
    { apply str_eqb_eq in E3. subst. simpl. tauto. }
    subst t. simpl in Hin. simpl.
    destruct Hin as [<-|[<-|[<-|[]]]]; tauto.
  - simpl.
    intros [H|[H|[H|[H|[H|[H|[]]]]]]]; injection H as <- <-;
      split; vm_compute; tauto.
Qed.

Lemma validate_order_type_accepts_iff_aux (s t : str) :
  InputValidator.validate_order_type s = Return t <->
  s <> [] /\ In (PyStr.upper (PyStr.strip s), t) type_names.
Proof.
  rewrite <- aliases_get_names. split.
  - destruct s as [|c s]; [discriminate|]. rewrite validate_order_type_nonempty.
    destruct (PyStr.mem _ canonical_types) eqn:E; [|discriminate].
    intros [= <-]. apply str_mem_In in E.
    split; [discriminate|]. split; [reflexivity | assumption].
  - intros (Hs & <- & Hin). destruct s as [|c s]; [congruence|].
    rewrite validate_order_type_nonempty.
    apply str_mem_In in Hin. now rewrite Hin.
Qed.

(** X4.  [validate_order_type] returns a type exactly for the non-empty
    inputs whose trimmed upper-case form is one of the six accepted
    names, and the type is the one the name stands for. *)
Theorem validate_order_type_accepts_iff (s t : str) :
  InputValidator.validate_order_type s = Return t <->
  s <> [] /\ In (PyStr.upper (PyStr.strip s), t) type_names.
Proof. apply validate_order_type_accepts_iff_aux. Qed.

Lemma validate_order_type_accepts_iff_witness :
  InputValidator.validate_order_type [0x6C; 0x131; 0x6D; 0x131; 0x74]%N
  = Return (lit "LIMIT")
  /\ In (lit "MKT", lit "MARKET") type_names.
Proof.
  split.
  - apply (validate_order_type_accepts_iff [0x6C; 0x131; 0x6D; 0x131; 0x74]%N
             (lit "LIMIT")).
    split; [discriminate|].
    vm_compute. tauto.
  - apply (validate_order_type_accepts_iff (lit "mkt") (lit "MARKET")).
    reflexivity.
Defined.

(** X5.  A symbol that [validate_symbol] returned has at least six
    characters, no whitespace at either end and no ASCII lower-case
    letter. *)
Theorem validate_symbol_normal_form (s u : str) :
  InputValidator.validate_symbol s = Return u ->
  (6 <= List.length u)%nat
  /\ PyStr.strip u = u
  /\ forall c, In c u -> PyStr.is_ascii_lower c = false.
Proof.
  intros H. apply validate_symbol_Return in H as [-> Hlen].
  split; [assumption|]. split.
  - apply strip_upper_strip.
  - intros c. apply upper_no_ascii_lower.
Qed.

Lemma validate_symbol_normal_form_witness :
  (6 <= List.length [0x2BC; 0x4E; 0x2BC; 0x4E; 0x2BC; 0x4E]%N)%nat
  /\ PyStr.strip [0x2BC; 0x4E; 0x2BC; 0x4E; 0x2BC; 0x4E]%N
     = [0x2BC; 0x4E; 0x2BC; 0x4E; 0x2BC; 0x4E]%N.
Proof.
  destruct (@validate_symbol_normal_form [0x20; 0x149; 0x149; 0x149]%N
              [0x2BC; 0x4E; 0x2BC; 0x4E; 0x2BC; 0x4E]%N
              ltac:(vm_compute; reflexivity)) as (H1 & H2 & _).
  split; assumption.
Defined.

(** X6.  Validating a symbol that [validate_symbol] returned returns it
    unchanged. *)
Theorem validate_symbol_idempotent (s u : str) :
  InputValidator.validate_symbol s = Return u ->
  InputValidator.validate_symbol u = Return u.
Proof.
  intros H. apply validate_symbol_Return in H as [-> Hlen].
  unfold InputValidator.validate_symbol.
  rewrite symbol_empty_test, strip_upper_strip, upper_idempotent.
  destruct (PyStr.upper (PyStr.strip s)) as [|c r] eqn:E;
    [simpl in Hlen; lia|].
  cbn [PyStr.truthy negb].
  apply Nat.ltb_ge in Hlen. now rewrite Hlen.
Qed.

Lemma validate_symbol_idempotent_witness :
  InputValidator.validate_symbol (lit "BTCUSDT") = Return (lit "BTCUSDT")
  /\ InputValidator.validate_symbol [0x2BC; 0x4E; 0x2BC; 0x4E; 0x2BC; 0x4E]%N
     = Return [0x2BC; 0x4E; 0x2BC; 0x4E; 0x2BC; 0x4E]%N.
Proof.
  split.
  - apply (@validate_symbol_idempotent (lit " btcusdt ")). reflexivity.
  - apply (@validate_symbol_idempotent [0x149; 0x149; 0x149]%N).
    vm_compute. reflexivity.
Defined.

(* ------------------------------------------------------------------ *)
(** ** Validated intents *)
(* ------------------------------------------------------------------ *)

(** X7.  In a validated intent the price is set exactly for LIMIT and
    STOP_LIMIT and the stop price exactly for STOP_LIMIT, whatever was
    supplied; a field that is set holds the float its option parses to,
    and that float is not [<= 0]. *)
Theorem price_fields_of_validated_intent (args : Namespace) (p : OrderParams) :
  InputValidator.validate_order_params args = Return p ->
  (price p <> None <-> order_type p = lit "LIMIT" \/ order_type p = lit "STOP_LIMIT")
  /\ (stop_price p <> None <-> order_type p = lit "STOP_LIMIT")
  /\ (forall f, price p = Some f ->
        exists v, ns_price args = Some v
                  /\ PyFloat.of_str v = Some f
                  /\ PyFloat.le f PyFloat.zero = false)
  /\ (forall f, stop_price p = Some f ->
        exists v, ns_stop_price args = Some v
                  /\ PyFloat.of_str v = Some f
                  /\ PyFloat.le f PyFloat.zero = false).
Proof.
  intros H. destruct (validated_prices _ H) as (_ & H1 & H2 & _).
  split; [assumption|]. split; [assumption|].
  apply validate_order_params_Return in H as (_ & _ & _ & _ & Hp & Hs).
  apply price_block_Return in Hp. apply stop_price_block_Return in Hs.
  split.
  - intros f Hf.
    destruct Hp as [(_ & E) | (_ & v & g & Hv & E & Hg)]; [congruence|].
    assert (g = f) by congruence. subst g.
    apply validate_positive_float_Return in Hg as [Hg1 Hg2]. now exists v.
  - intros f Hf.
    destruct Hs as [(_ & E) | (_ & v & g & Hv & E & Hg)]; [congruence|].
    assert (g = f) by congruence. subst g.
    apply validate_positive_float_Return in Hg as [Hg1 Hg2]. now exists v.
Qed.

Lemma price_fields_of_validated_intent_witness :
  (price stop_limit_intent <> None <->
   order_type stop_limit_intent = lit "LIMIT"
   \/ order_type stop_limit_intent = lit "STOP_LIMIT")
  /\ (stop_price stop_limit_intent <> None <->
      order_type stop_limit_intent = lit "STOP_LIMIT")
  /\ (exists v, ns_price stop_limit_args = Some v
                /\ PyFloat.of_str v = Some f_50000
                /\ PyFloat.le f_50000 PyFloat.zero = false)
  /\ (exists v, ns_stop_price stop_limit_args = Some v
                /\ PyFloat.of_str v = Some f_49000
                /\ PyFloat.le f_49000 PyFloat.zero = false).
Proof.
  assert (E : InputValidator.validate_order_params stop_limit_args
              = Return stop_limit_intent) by (vm_compute; reflexivity).
  destruct (price_fields_of_validated_intent _ E) as (H1 & H2 & H3 & H4).
  split; [exact H1|]. split; [exact H2|]. split.
  - apply H3. reflexivity.
  - apply H4. reflexivity.
Defined.

(** X8.  In a validated intent the symbol is the trimmed upper-case text
    of at least six characters, the side is BUY or SELL, the order type
    is MARKET, LIMIT or STOP_LIMIT, and the quantity is the float its
    text parses to and is not [<= 0]. *)
Theorem validated_intent_normal_form (args : Namespace) (p : OrderParams) :
  InputValidator.validate_order_params args = Return p ->
  symbol p = PyStr.upper (PyStr.strip (ns_symbol args))
  /\ (6 <= List.length (symbol p))%nat
  /\ side p = PyStr.upper (PyStr.strip (ns_side args))
  /\ In (side p) sides
  /\ In (PyStr.upper (PyStr.strip (ns_type args)), order_type p) type_names
  /\ In (order_type p) canonical_types
  /\ PyFloat.of_str (ns_qty args) = Some (quantity p)
  /\ PyFloat.le (quantity p) PyFloat.zero = false.
Proof.
  intros H. apply validate_order_params_Return in H
    as (Hsym & Hside & Htype & Hq & _ & _).
  apply validate_symbol_Return in Hsym as [Hsym Hlen].
  apply validate_side_accepts_iff_aux in Hside as (_ & Hside & Hin).
  pose proof (validate_order_type_Return _ Htype) as Hc.
  apply validate_order_type_accepts_iff_aux in Htype as [_ Htype].
  apply validate_positive_float_Return in Hq as [Hq1 Hq2].
  repeat split; assumption.
Qed.

Lemma validated_intent_normal_form_witness :
  symbol market_intent = PyStr.upper (PyStr.strip (lit " btcusdt "))
  /\ In (side market_intent) sides.
Proof.
  assert (E : InputValidator.validate_order_params
                (mkNamespace None None (lit " btcusdt ") (lit "Buy") (lit "Mkt")
                   (lit "1e-3") None None)
              = Return market_intent) by (vm_compute; reflexivity).
  destruct (validated_intent_normal_form _ E) as (H1 & _ & _ & H2 & _).
  split; assumption.
Defined.

Lemma validate_symbol_ext (a b : str) :
  PyStr.upper (PyStr.strip a) = PyStr.upper (PyStr.strip b) ->
  PyStr.truthy (PyStr.strip a) = PyStr.truthy (PyStr.strip b) ->
  InputValidator.validate_symbol a = InputValidator.validate_symbol b.
Proof.
  intros Hu Ht. unfold InputValidator.validate_symbol.
  now rewrite !symbol_empty_test, Hu, Ht.
Qed.

Lemma same_modulo_case_strip (a b : str) :
  PyStr.same_modulo_case a b ->
  PyStr.same_modulo_case (PyStr.strip a) (PyStr.strip b).
Proof.
  unfold PyStr.same_modulo_case. intros H.
  now rewrite <- !(strip_map _ _ isspace_fold), H.
Qed.

(** X9.  Validation of a command line does not see the case of the
    ASCII letters of symbol, side and order type. *)
Theorem validate_order_params_case_insensitive
  (args : Namespace) (sym sd ty : str) :
  PyStr.same_modulo_case sym (ns_symbol args) ->
  PyStr.same_modulo_case sd (ns_side args) ->
  PyStr.same_modulo_case ty (ns_type args) ->
  InputValidator.validate_order_params (with_texts args sym sd ty)
  = InputValidator.validate_order_params args.
Proof.
  intros Hsym Hsd Hty. rewrite !validate_order_params_eq. simpl.
  assert (E1 : InputValidator.validate_symbol sym
               = InputValidator.validate_symbol (ns_symbol args)).
  { apply validate_symbol_ext.
    - now apply same_modulo_case_upper_strip.
    - now apply same_modulo_case_truthy, same_modulo_case_strip. }
  assert (E2 : InputValidator.validate_side sd
               = InputValidator.validate_side (ns_side args))
    by now apply validate_side_ext_aux.
  assert (E3 : InputValidator.validate_order_type ty
               = InputValidator.validate_order_type (ns_type args)).
  { apply validate_order_type_ext.
    - now apply same_modulo_case_truthy.
    - now apply same_modulo_case_upper_strip. }
  rewrite E1, E2, E3. reflexivity.
Qed.

Lemma validate_order_params_case_insensitive_witness :
  InputValidator.validate_order_params
    (with_texts (sample_args (lit "stop-limit") (Some (lit "50000"))
                   (Some (lit "49000")))
       (lit "btcUSDT") (lit "BUY") (lit "Stop-Limit"))
  = InputValidator.validate_order_params
      (sample_args (lit "stop-limit") (Some (lit "50000")) (Some (lit "49000"))).
Proof.
  apply validate_order_params_case_insensitive; reflexivity.
Defined.

(* ------------------------------------------------------------------ *)
(** ** Payloads *)
(* ------------------------------------------------------------------ *)

(** The payload of each order type, and the error outside them. *)
Lemma build_order_payload_cases (p : OrderParams) :
  (order_type p = lit "MARKET"
   /\ BasicBot._build_order_payload p = Return (base_payload p (lit "MARKET")))
  \/ (order_type p = lit "LIMIT"
      /\ BasicBot._build_order_payload p
         = Return (base_payload p (lit "LIMIT")
                   ++ [ (lit "timeInForce", VStr (lit "GTC"));
                        (lit "price", of_optional (price p)) ]))
  \/ (order_type p = lit "STOP_LIMIT"
      /\ BasicBot._build_order_payload p
         = Return (base_payload p (lit "STOP")
                   ++ [ (lit "timeInForce", VStr (lit "GTC"));
                        (lit "price", of_optional (price p));
                        (lit "stopPrice", of_optional (stop_price p)) ]))
  \/ (~ In (order_type p) canonical_types
      /\ BasicBot._build_order_payload p
         = Raise (TradingBotError
                    (lit "Unsupported internal order type: " ++ order_type p))).
Proof.
  unfold BasicBot._build_order_payload.
  destruct (PyStr.eqb (order_type p) (lit "MARKET")) eqn:E1.
  { apply str_eqb_eq in E1. left. now split. }
  destruct (PyStr.eqb (order_type p) (lit "LIMIT")) eqn:E2.
  { apply str_eqb_eq in E2. right; left. now split. }
  destruct (PyStr.eqb (order_type p) (lit "STOP_LIMIT")) eqn:E3.
  { apply str_eqb_eq in E3. right; right; left. now split. }
  right; right; right. split; [|reflexivity].
  apply str_eqb_neq in E1, E2, E3. simpl. intuition congruence.
Qed.

(** X10.  A payload that is returned never carries the placeholder of
    its [type] entry: the entry is MARKET, LIMIT or STOP, and it is
    MARKET, LIMIT, STOP exactly for the order types MARKET, LIMIT,
    STOP_LIMIT.  Every key of the payload is one of the seven keys of
    the request. *)
Theorem payload_type_is_filled (p : OrderParams) (d : dict) :
  BasicBot._build_order_payload p = Return d ->
  (exists t, dict_get d (lit "type") = Some (VStr t)
             /\ In t exchange_types
             /\ (t = lit "MARKET" <-> order_type p = lit "MARKET")
             /\ (t = lit "LIMIT" <-> order_type p = lit "LIMIT")
             /\ (t = lit "STOP" <-> order_type p = lit "STOP_LIMIT"))
  /\ (forall k v, In (k, v) d -> In k payload_keys).
Proof.
  intros H.
  destruct (build_order_payload_cases p)
    as [[Ht E] | [[Ht E] | [[Ht E] | [_ E]]]];
    rewrite E in H; try discriminate; injection H as <-; rewrite Ht.
  - split.
    + exists (lit "MARKET"). split; [reflexivity|].
      split; [simpl; tauto|]. repeat split; intros; try reflexivity;
        discriminate.
    + simpl. intros k v Hin.
      repeat (destruct Hin as [Hin|Hin]; [injection Hin as <- _; tauto|]).
      contradiction.
  - split.
    + exists (lit "LIMIT"). split; [reflexivity|].
      split; [simpl; tauto|]. repeat split; intros; try reflexivity;
        discriminate.
    + simpl. intros k v Hin.
      repeat (destruct Hin as [Hin|Hin]; [injection Hin as <- _; tauto|]).
      contradiction.
  - split.
    + exists (lit "STOP"). split; [reflexivity|].
      split; [simpl; tauto|]. repeat split; intros; try reflexivity;
        discriminate.
    + simpl. intros k v Hin.
      repeat (destruct Hin as [Hin|Hin]; [injection Hin as <- _; tauto|]).
      contradiction.
Qed.

Lemma payload_type_is_filled_witness :
  exists t, dict_get (base_payload market_intent (lit "MARKET")) (lit "type")
            = Some (VStr t)
            /\ In t exchange_types.
Proof.
  destruct (@payload_type_is_filled market_intent
              (base_payload market_intent (lit "MARKET")) eq_refl)
    as [(t & H1 & H2 & _) _].
  exists t. split; assumption.
Defined.

(** X11.  The payload built from a validated intent has no [None]
    value: every entry is a string or a float. *)
Theorem validated_payload_has_no_none
  (args : Namespace) (p : OrderParams) (d : dict) :
  InputValidator.validate_order_params args = Return p ->
  BasicBot._build_order_payload p = Return d ->
  forall k v, In (k, v) d -> v <> VNone.
Proof.
  intros Hv Hb.
  destruct (validated_prices _ Hv) as (_ & Hp & Hs & _).
  assert (Hprice : order_type p = lit "LIMIT" \/ order_type p = lit "STOP_LIMIT" ->
                   of_optional (price p) <> VNone).
  { intros Ht. apply Hp in Ht. destruct (price p); [discriminate | congruence]. }
  assert (Hstop : order_type p = lit "STOP_LIMIT" ->
                  of_optional (stop_price p) <> VNone).
  { intros Ht. apply Hs in Ht. destruct (stop_price p); [discriminate | congruence]. }
  destruct (build_order_payload_cases p)
    as [[Ht E] | [[Ht E] | [[Ht E] | [_ E]]]];
    rewrite E in Hb; try discriminate; injection Hb as <-;
    simpl; intros k v Hin;
    repeat (destruct Hin as [Hin|Hin];
            [injection Hin as _ <-; try discriminate; auto|]);
    contradiction.
Qed.

Lemma validated_payload_has_no_none_witness :
  (In (lit "price", VFloat f_50000) stop_limit_payload
   /\ VFloat f_50000 <> VNone)
  /\ (In (lit "stopPrice", VFloat f_49000) stop_limit_payload
      /\ VFloat f_49000 <> VNone).
Proof.
  assert (E : InputValidator.validate_order_params stop_limit_args
              = Return stop_limit_intent) by (vm_compute; reflexivity).
  assert (B : BasicBot._build_order_payload stop_limit_intent
              = Return stop_limit_payload) by reflexivity.
  assert (I1 : In (lit "price", VFloat f_50000) stop_limit_payload)
    by (simpl; tauto).
  assert (I2 : In (lit "stopPrice", VFloat f_49000) stop_limit_payload)
    by (simpl; tauto).
  split; (split; [assumption|]).
  - exact (@validated_payload_has_no_none _ _ _ E B _ _ I1).
  - exact (@validated_payload_has_no_none _ _ _ E B _ _ I2).
Defined.

(** X12.  [_build_order_payload] fails exactly when the order type is
    not literally MARKET, LIMIT or STOP_LIMIT; it does not normalise the
    type, and its error names the type it was given. *)
Theorem build_order_payload_fails_iff (p : OrderParams) :
  (raises (BasicBot._build_order_payload p) <-> ~ In (order_type p) canonical_types)
  /\ (forall e, BasicBot._build_order_payload p = Raise e ->
        e = TradingBotError
              (lit "Unsupported internal order type: " ++ order_type p)).
Proof.
  split; [split|].
  - intros [e He]. now apply build_order_payload_Raise in He.
  - intros Hn.
    destruct (build_order_payload_cases p)
      as [[Ht E] | [[Ht E] | [[Ht E] | [_ E]]]];
      try (exfalso; apply Hn; rewrite Ht; simpl; tauto).
    eexists; exact E.
  - intros e He. now apply build_order_payload_Raise in He.
Qed.

Lemma build_order_payload_fails_iff_witness :
  raises (BasicBot._build_order_payload
            (mkOrderParams (lit "BTCUSDT") (lit "BUY") (lit "market") f_0_01
               None None)).
Proof.
  apply (build_order_payload_fails_iff
           (mkOrderParams (lit "BTCUSDT") (lit "BUY") (lit "market") f_0_01
              None None)).
  simpl. intros [H|[H|[H|[]]]]; discriminate.
Defined.

(* ------------------------------------------------------------------ *)
(** ** Submission *)
(* ------------------------------------------------------------------ *)

(** X13.  [place_order] consults the client on the built payload and on
    nothing else: two clients that act alike on that payload give the
    same outcome; and when the payload cannot be built the outcome is
    the error of the build, whatever the client. *)
Theorem place_order_uses_client_once (params : OrderParams) :
  (forall (cl cl' : client) (payload : dict),
      BasicBot._build_order_payload params = Return payload ->
      cl payload = cl' payload ->
      BasicBot.place_order cl params = BasicBot.place_order cl' params)
  /\ (forall (cl : client) (e : exn),
         BasicBot._build_order_payload params = Raise e ->
         BasicBot.place_order cl params = Fails e).
Proof.
  unfold BasicBot.place_order. split.
  - intros cl cl' payload -> ->. reflexivity.
  - intros cl e ->. reflexivity.
Qed.

Lemma place_order_uses_client_once_witness :
  BasicBot.place_order rejecting_client market_intent
  = BasicBot.place_order
      (fun d => if has_key d (lit "price") then Interrupts KeyboardInterrupt
                else rejecting_client d)
      market_intent
  /\ BasicBot.place_order rejecting_client
       (mkOrderParams (lit "BTCUSDT") (lit "BUY") (lit "market") f_0_01 None None)
     = Fails (TradingBotError (lit "Unsupported internal order type: market")).
Proof.
  split.
  - apply (proj1 (place_order_uses_client_once market_intent))
      with (payload := base_payload market_intent (lit "MARKET"));
      reflexivity.
  - apply (proj2 (place_order_uses_client_once
                    (mkOrderParams (lit "BTCUSDT") (lit "BUY") (lit "market")
                       f_0_01 None None))).
    reflexivity.
Defined.

(** X14.  With the payload built: the response of the client is returned
    as it is; an exception of one of the three Binance classes fails
    with the message prefixed by [Binance API error: ], any other with
    the message prefixed by [Unexpected error while placing order: ];
    a [BaseException] outside [Exception] is passed on as it is. *)
Theorem place_order_by_client_outcome
  (cl : client) (params : OrderParams) (payload : dict) :
  BasicBot._build_order_payload params = Return payload ->
  (forall r, cl payload = Responds r -> BasicBot.place_order cl params = Placed r)
  /\ (forall e, cl payload = Throws e ->
        exc_class e <> OtherException ->
        BasicBot.place_order cl params
        = Fails (TradingBotError (lit "Binance API error: " ++ exc_str e)))
  /\ (forall e, cl payload = Throws e ->
        exc_class e = OtherException ->
        BasicBot.place_order cl params
        = Fails (TradingBotError
                   (lit "Unexpected error while placing order: " ++ exc_str e)))
  /\ (forall b, cl payload = Interrupts b ->
        BasicBot.place_order cl params = Interrupted b).
Proof.
  intros Hb. destruct (place_order_outcomes cl params Hb) as (H1 & H2 & H3 & H4).
  split; [assumption|]. split; [|split; [|assumption]].
  - intros e He Hc. apply H2; [assumption|].
    destruct (exc_class e); try reflexivity. congruence.
  - intros e He Hc. apply H3; [assumption|]. now rewrite Hc.
Qed.

Lemma place_order_by_client_outcome_witness :
  BasicBot.place_order unreachable_client market_intent
  = Fails (TradingBotError
             (lit "Unexpected error while placing order: Connection refused"))
  /\ BasicBot.place_order (fun _ => Interrupts SystemExit) market_intent
     = Interrupted SystemExit.
Proof.
  split.
  - apply (@place_order_by_client_outcome unreachable_client market_intent
             (base_payload market_intent (lit "MARKET")) eq_refl)
      with (e := mkClientException OtherException (lit "Connection refused"));
      reflexivity.
  - apply (@place_order_by_client_outcome (fun _ => Interrupts SystemExit)
             market_intent (base_payload market_intent (lit "MARKET")) eq_refl).
    reflexivity.
Defined.

(* ------------------------------------------------------------------ *)
(** ** Dictionaries *)
(* ------------------------------------------------------------------ *)

Lemma dict_get_set_same (d : dict) (k : str) (v : pyval) :
  dict_get (dict_set d k v) k = Some v.
Proof.
  induction d as [|[k' v'] d IH]; simpl.
  - now rewrite str_eqb_refl.
  - destruct (PyStr.eqb k' k) eqn:E; simpl; rewrite E; [reflexivity | exact IH].
Qed.

Lemma dict_get_set_other (d : dict) (k k' : str) (v : pyval) :
  k' <> k -> dict_get (dict_set d k v) k' = dict_get d k'.
Proof.
  intros Hne. induction d as [|[k0 v0] d IH]; simpl.
  - apply str_eqb_neq in Hne.
    destruct (PyStr.eqb k k') eqn:E; [|reflexivity].
    apply str_eqb_eq in E. apply str_eqb_neq in Hne. congruence.
  - destruct (PyStr.eqb k0 k) eqn:E; simpl.
    + apply str_eqb_eq in E. subst k0.
      destruct (PyStr.eqb k k') eqn:E'; [|reflexivity].
      apply str_eqb_eq in E'. congruence.
    + destruct (PyStr.eqb k0 k'); [reflexivity | exact IH].
Qed.

(** Assigning to a key that is present keeps the keys and their order. *)
Lemma dict_set_keys (d : dict) (k : str) (v : pyval) :
  has_key d k = true -> List.map fst (dict_set d k v) = List.map fst d.
Proof.
  unfold has_key. induction d as [|[k' v'] d IH]; simpl; [discriminate|].
  destruct (PyStr.eqb k' k) eqn:E; simpl; [reflexivity|].
  intros H. f_equal. now apply IH.
Qed.

(* ------------------------------------------------------------------ *)
(** ** Construction of the bot *)
(* ------------------------------------------------------------------ *)

(** X15.  A bot is constructed only for the testnet: with [testnet]
    false the constructor fails with the restriction error whatever the
    library's constructor would do, and with [testnet] true it returns a
    bot whose client was built with [testnet=True] from the same key and
    secret. *)
Theorem bot_is_testnet_only
  (Client : client_constructor) (api_key api_secret : option str) :
  BasicBotObject.__init__ Client api_key api_secret false = Raise mainnet_error
  /\ (exists bot,
         BasicBotObject.__init__ Client api_key api_secret true = Return bot
         /\ List.map fst (bot_client bot)
            = List.map fst (Client api_key api_secret true))
  /\ (forall Client' : client_constructor,
         Client' api_key api_secret true = Client api_key api_secret true ->
         BasicBotObject.__init__ Client' api_key api_secret true
         = BasicBotObject.__init__ Client api_key api_secret true).
Proof.
  unfold BasicBotObject.__init__. simpl. split; [reflexivity|]. split.
  - eexists. split; [reflexivity|]. simpl.
    set (c0 := Client api_key api_secret true).
    assert (H1 : List.map fst
                   (if has_key c0 (lit "FUTURES_URL")
                    then dict_set c0 (lit "FUTURES_URL")
                           (VStr BasicBotObject.TESTNET_FUTURES_BASE_URL)
                    else c0) = List.map fst c0).
    { destruct (has_key c0 (lit "FUTURES_URL")) eqn:E; [|reflexivity].
      now apply dict_set_keys. }
    set (c1 := if has_key c0 (lit "FUTURES_URL")
               then dict_set c0 (lit "FUTURES_URL")
                      (VStr BasicBotObject.TESTNET_FUTURES_BASE_URL)
               else c0) in *.
    destruct (has_key c1 (lit "FUTURES_DATA_URL")) eqn:E; [|exact H1].
    rewrite dict_set_keys by assumption. exact H1.
  - intros Client' ->. reflexivity.
Qed.

(** X16.  In the client of a constructed bot each of [FUTURES_URL] and
    [FUTURES_DATA_URL] is the testnet base URL if the library's object
    has that attribute and is absent otherwise; every other attribute is
    as the library set it. *)
Theorem bot_client_urls_are_testnet
  (Client : client_constructor) (api_key api_secret : option str) (bot : Bot) :
  BasicBotObject.__init__ Client api_key api_secret true = Return bot ->
  (forall a, In a url_attributes ->
     dict_get (bot_client bot) a
     = if has_key (Client api_key api_secret true) a
       then Some (VStr BasicBotObject.TESTNET_FUTURES_BASE_URL)
       else None)
  /\ (forall a, ~ In a url_attributes ->
        dict_get (bot_client bot) a
        = dict_get (Client api_key api_secret true) a).
Proof.
  unfold BasicBotObject.__init__. simpl. intros [= <-]. simpl.
  set (c0 := Client api_key api_secret true).
  set (url := VStr BasicBotObject.TESTNET_FUTURES_BASE_URL).
  assert (Hne : lit "FUTURES_DATA_URL" <> lit "FUTURES_URL") by discriminate.
  assert (Hne' : lit "FUTURES_URL" <> lit "FUTURES_DATA_URL") by discriminate.
  set (c1 := if has_key c0 (lit "FUTURES_URL")
             then dict_set c0 (lit "FUTURES_URL") url else c0).
  assert (H1 : dict_get c1 (lit "FUTURES_URL")
               = if has_key c0 (lit "FUTURES_URL") then Some url else None).
  { unfold c1. destruct (has_key c0 (lit "FUTURES_URL")) eqn:E.
    - apply dict_get_set_same.
    - unfold has_key in E. destruct (dict_get c0 (lit "FUTURES_URL"));
        [discriminate | reflexivity]. }
  assert (H1' : forall a, a <> lit "FUTURES_URL" -> dict_get c1 a = dict_get c0 a).
  { intros a Ha. unfold c1. destruct (has_key c0 (lit "FUTURES_URL"));
      [now apply dict_get_set_other | reflexivity]. }
  assert (Hk : has_key c1 (lit "FUTURES_DATA_URL")
               = has_key c0 (lit "FUTURES_DATA_URL")).
  { unfold has_key. now rewrite (H1' _ Hne). }
  split.
  - intros a [<-|[<-|[]]].
    + destruct (has_key c1 (lit "FUTURES_DATA_URL"));
        [rewrite dict_get_set_other by exact Hne'|]; exact H1.
    + rewrite Hk. destruct (has_key c0 (lit "FUTURES_DATA_URL")) eqn:E.
      * apply dict_get_set_same.
      * rewrite (H1' _ Hne). unfold has_key in E.
        destruct (dict_get c0 (lit "FUTURES_DATA_URL"));
          [discriminate | reflexivity].
  - intros a Ha.
    assert (Ha1 : a <> lit "FUTURES_URL") by (intros ->; apply Ha; simpl; tauto).
    assert (Ha2 : a <> lit "FUTURES_DATA_URL")
      by (intros ->; apply Ha; simpl; tauto).
    destruct (has_key c1 (lit "FUTURES_DATA_URL"));
      [rewrite dict_get_set_other by exact Ha2|]; now apply H1'.
Qed.

Lemma bot_client_urls_are_testnet_witness :
  dict_get
    [ (lit "API_URL", VStr (lit "https://api.binance.com/api"));
      (lit "FUTURES_URL", VStr BasicBotObject.TESTNET_FUTURES_BASE_URL);
      (lit "FUTURES_DATA_URL", VStr BasicBotObject.TESTNET_FUTURES_BASE_URL) ]
    (lit "FUTURES_URL")
  = Some (VStr BasicBotObject.TESTNET_FUTURES_BASE_URL).
Proof.
  apply (proj1 (@bot_client_urls_are_testnet mainnet_constructor
                  (Some (lit "key")) (Some (lit "secret")) _ eq_refl)
           (lit "FUTURES_URL")).
  simpl. tauto.
Defined.

Lemma bot_is_testnet_only_witness :
  BasicBotObject.__init__ mainnet_constructor None None false = Raise mainnet_error
  /\ BasicBotObject.__init__ bare_constructor (Some (lit "k")) (Some (lit "s")) true
     = BasicBotObject.__init__ (fun _ _ _ => bare_constructor None None false)
         (Some (lit "k")) (Some (lit "s")) true.
Proof.
  split.
  - apply (bot_is_testnet_only mainnet_constructor None None).
  - apply (bot_is_testnet_only (fun _ _ _ => bare_constructor None None false)
             (Some (lit "k")) (Some (lit "s"))).
    reflexivity.
Defined.

(* ------------------------------------------------------------------ *)
(** ** The order summary *)
(* ------------------------------------------------------------------ *)

Section SummaryFacts.

Variable float_repr : float -> str.

(** X17.  The summary is eight calls of [print] and reads six keys of
    the response: two responses that agree on [orderId], [symbol],
    [side], [type], [status] and [executedQty] print the same summary. *)
Theorem print_order_summary_reads_six_keys (order order' : dict) :
  List.length (print_order_summary float_repr order) = 8%nat
  /\ ((forall k, In k summary_keys -> py_get order k = py_get order' k) ->
      print_order_summary float_repr order = print_order_summary float_repr order').
Proof.
  split; [reflexivity|].
  intros H. unfold print_order_summary.
  rewrite !(H _) by (simpl; tauto). reflexivity.
Qed.

(** X18.  A key the response lacks is printed as [None], like a key
    whose value is [None]: for each of the six keys, without it the line
    of that key is its label followed by [None]. *)
Theorem print_order_summary_missing_key (order : dict) :
  (has_key order (lit "orderId") = false ->
   nth 1 (print_order_summary float_repr order) [] = lit "Order ID         : None")
  /\ (has_key order (lit "symbol") = false ->
      nth 2 (print_order_summary float_repr order) [] = lit "Symbol           : None")
  /\ (has_key order (lit "side") = false ->
      nth 3 (print_order_summary float_repr order) [] = lit "Side             : None")
  /\ (has_key order (lit "type") = false ->
      nth 4 (print_order_summary float_repr order) [] = lit "Type             : None")
  /\ (has_key order (lit "status") = false ->
      nth 5 (print_order_summary float_repr order) [] = lit "Status           : None")
  /\ (has_key order (lit "executedQty") = false ->
      nth 6 (print_order_summary float_repr order) [] = lit "Executed Quantity: None").
Proof.
  assert (H : forall k, has_key order k = false -> py_get order k = VNone).
  { intros k. unfold has_key, py_get.
    destruct (dict_get order k); [discriminate | reflexivity]. }
  unfold print_order_summary.
  repeat split; intros Hk; simpl; rewrite (H _ Hk); reflexivity.
Qed.

End SummaryFacts.

Lemma print_order_summary_reads_six_keys_witness :
  print_order_summary sample_float_repr sample_response
  = print_order_summary sample_float_repr
      ((lit "avgPrice", VStr (lit "0.0")) :: rev sample_response).
Proof.
  apply print_order_summary_reads_six_keys.
  intros k Hk. simpl in Hk.
  repeat (destruct Hk as [<-|Hk]; [reflexivity|]). contradiction.
Defined.

Lemma print_order_summary_missing_key_witness :
  nth 1 (print_order_summary sample_float_repr []) [] = lit "Order ID         : None"
  /\ nth 5 (print_order_summary sample_float_repr [(lit "orderId", VNone)]) []
     = lit "Status           : None".
Proof.
  split.
  - apply (print_order_summary_missing_key sample_float_repr []). reflexivity.
  - apply (print_order_summary_missing_key sample_float_repr
             [(lit "orderId", VNone)]).
    reflexivity.
Defined.

(** One call of [setup_logging] from any state. *)
Lemma setup_logging_once (level : Z) (logger : Logger) :
  setup_logging level logger = mkLogger level [console_handler level].
Proof.
  unfold setup_logging, console_handler. simpl.
  destruct (logger_handlers logger); reflexivity.
Qed.


(* ------------------------------------------------------------------ *)
(** ** The entry point *)
(* ------------------------------------------------------------------ *)

Section MainFacts.

Variable float_repr : float -> str.
Variable logger : Logger.

(** X19.  A command line that fails validation makes [main] print the
    one line [Error: ] followed by the message of the validation error,
    whatever the environment and the client library: the credentials
    are not looked at and no client is built or called. *)
Theorem main_reports_validation_first
  (getenv : environ) (Client : client_constructor)
  (futures_create_order : client_method) (args : Namespace) (e : exn) :
  InputValidator.validate_order_params args = Raise e ->
  main float_repr logger getenv Client futures_create_order (Parsed args)
  = mkMainResult [lit "Error: " ++ exn_str e] None
      (setup_logging INFO logger).
Proof.
  intros H. unfold main, main_try. rewrite H. destruct e; reflexivity.
Qed.

(** X20.  With a valid command line and unresolved credentials [main]
    prints the one line [Error: ] followed by the message of the
    credentials error, whatever the client library: no client is built
    or called. *)
Theorem main_reports_missing_credentials
  (getenv : environ) (Client : client_constructor)
  (futures_create_order : client_method) (args : Namespace)
  (p : OrderParams) (e : exn) :
  InputValidator.validate_order_params args = Return p ->
  resolve_credentials getenv args = Raise e ->
  main float_repr logger getenv Client futures_create_order (Parsed args)
  = mkMainResult [lit "Error: " ++ exn_str e] None
      (setup_logging INFO logger).
Proof.
  intros Hv Hc. unfold main, main_try. rewrite Hv, Hc. destruct e; reflexivity.
Qed.

(** The run of [main] past validation and credentials is that of
    [place_order] on the client of the bot. *)
Lemma main_try_submission
  (getenv : environ) (Client : client_constructor)
  (futures_create_order : client_method) (args : Namespace)
  (p : OrderParams) (k s : option str) (bot : Bot) :
  InputValidator.validate_order_params args = Return p ->
  resolve_credentials getenv args = Return (k, s) ->
  BasicBotObject.__init__ Client k s true = Return bot ->
  main_try getenv Client futures_create_order (Parsed args)
  = match BasicBot.place_order (futures_create_order (bot_client bot)) p with
    | Placed r => inl r
    | Fails e => inr (RaisedExn e)
    | ClientExceptionEscapes e => inr (RaisedClientException e)
    | Interrupted b => inr (RaisedBaseException b)
    end.
Proof.
  intros Hv Hc Hb. unfold main_try. rewrite Hv, Hc, Hb. reflexivity.
Qed.

(** X21.  With a valid command line and resolved credentials, [main]
    submits the payload of the validated intent to the client of the
    bot built from those credentials, and prints the summary of the
    response. *)
Theorem main_prints_summary_of_response
  (getenv : environ) (Client : client_constructor)
  (futures_create_order : client_method) (args : Namespace)
  (p : OrderParams) (k s : option str) (bot : Bot) (payload r : dict) :
  InputValidator.validate_order_params args = Return p ->
  resolve_credentials getenv args = Return (k, s) ->
  BasicBotObject.__init__ Client k s true = Return bot ->
  BasicBot._build_order_payload p = Return payload ->
  futures_create_order (bot_client bot) payload = Responds r ->
  main float_repr logger getenv Client futures_create_order (Parsed args)
  = mkMainResult (print_order_summary float_repr r) None
      (setup_logging INFO logger).
Proof.
  intros Hv Hc Hb Hp Hr. unfold main.
  rewrite (@main_try_submission _ _ futures_create_order _ _ _ _ _ Hv Hc Hb).
  unfold BasicBot.place_order. rewrite Hp, Hr. reflexivity.
Qed.

(** X22.  When the client raises an [Exception] during the submission,
    [main] prints the one line [Error: ] followed by the message of
    [place_order], which ends with the message of the client.  When the
    submission is left by [KeyboardInterrupt], it prints the
    interruption line instead; any other [BaseException] leaves [main]
    with nothing printed. *)
Theorem main_reports_submission_failure
  (getenv : environ) (Client : client_constructor)
  (futures_create_order : client_method) (args : Namespace)
  (p : OrderParams) (k s : option str) (bot : Bot) (payload : dict) :
  InputValidator.validate_order_params args = Return p ->
  resolve_credentials getenv args = Return (k, s) ->
  BasicBotObject.__init__ Client k s true = Return bot ->
  BasicBot._build_order_payload p = Return payload ->
  (forall e, futures_create_order (bot_client bot) payload = Throws e ->
     main float_repr logger getenv Client futures_create_order (Parsed args)
     = mkMainResult
         [lit "Error: "
          ++ (if BasicBot.is_binance_exception (exc_class e)
              then lit "Binance API error: "
              else lit "Unexpected error while placing order: ")
          ++ exc_str e] None (setup_logging INFO logger))
  /\ (futures_create_order (bot_client bot) payload = Interrupts KeyboardInterrupt ->
      main float_repr logger getenv Client futures_create_order (Parsed args)
      = mkMainResult [nl ++ lit "Execution interrupted by user."] None
          (setup_logging INFO logger))
  /\ (forall b, b <> KeyboardInterrupt ->
        futures_create_order (bot_client bot) payload = Interrupts b ->
        main float_repr logger getenv Client futures_create_order (Parsed args)
        = mkMainResult [] (Some (RaisedBaseException b))
            (setup_logging INFO logger)).
Proof.
  intros Hv Hc Hb Hp. unfold main.
  rewrite (@main_try_submission _ _ futures_create_order _ _ _ _ _ Hv Hc Hb).
  unfold BasicBot.place_order. rewrite Hp. split; [|split].
  - intros e ->.
    destruct (BasicBot.is_binance_exception (exc_class e)) eqn:E; [reflexivity|].
    destruct (exc_class e); try discriminate. reflexivity.
  - intros ->. reflexivity.
  - intros b Hne ->. destruct b; [congruence | reflexivity | reflexivity].
Qed.




End MainFacts.

(** A bad side and no credentials: the side is reported. *)
Lemma main_reports_validation_first_witness :
  main sample_float_repr initial_logger (env_of None None) mainnet_constructor
    answering_method
    (Parsed (mkNamespace None None (lit "BTCUSDT") (lit "hold") (lit "mkt")
               (lit "1") None None))
  = mkMainResult [lit "Error: Side must be BUY or SELL."] None
      (setup_logging INFO initial_logger).
Proof.
  apply (@main_reports_validation_first sample_float_repr initial_logger
           (env_of None None) mainnet_constructor answering_method _ side_invalid_error).
  reflexivity.
Defined.

Lemma main_reports_missing_credentials_witness :
  main sample_float_repr initial_logger (env_of (Some (lit "env-key")) None)
    mainnet_constructor answering_method
    (Parsed (sample_args (lit "mkt") None None))
  = mkMainResult [lit "Error: " ++ exn_str credentials_error] None
      (setup_logging INFO initial_logger).
Proof.
  apply (@main_reports_missing_credentials sample_float_repr initial_logger
           (env_of (Some (lit "env-key")) None) mainnet_constructor
           answering_method _ market_intent credentials_error).
  - vm_compute. reflexivity.
  - reflexivity.
Defined.

Lemma main_prints_summary_of_response_witness :
  main sample_float_repr initial_logger full_env mainnet_constructor
    answering_method (Parsed (sample_args (lit "mkt") None None))
  = mkMainResult
      [ nl ++ lit "=== Order Summary ===";
        lit "Order ID         : 12345";
        lit "Symbol           : BTCUSDT";
        lit "Side             : BUY";
        lit "Type             : MARKET";
        lit "Status           : NEW";
        lit "Executed Quantity: 0";
        lit "=====================" ++ nl ] None
      (setup_logging INFO initial_logger).
Proof.
  apply (@main_prints_summary_of_response sample_float_repr initial_logger full_env
           mainnet_constructor answering_method _ market_intent
           (Some (lit "env-key")) (Some (lit "env-secret"))
           (mkBot [ (lit "API_URL", VStr (lit "https://api.binance.com/api"));
                    (lit "FUTURES_URL",
                      VStr BasicBotObject.TESTNET_FUTURES_BASE_URL);
                    (lit "FUTURES_DATA_URL",
                      VStr BasicBotObject.TESTNET_FUTURES_BASE_URL) ])
           (base_payload market_intent (lit "MARKET")) sample_response).
  - vm_compute. reflexivity.
  - reflexivity.
  - reflexivity.
  - reflexivity.
  - reflexivity.
Defined.

Lemma main_reports_submission_failure_witness :
  main sample_float_repr initial_logger full_env bare_constructor rejecting_method
    (Parsed (sample_args (lit "mkt") None None))
  = mkMainResult
      [lit "Error: Binance API error: APIError(code=-2019): Margin is insufficient."]
      None (setup_logging INFO initial_logger)
  /\ main sample_float_repr initial_logger full_env bare_constructor
       interrupted_method (Parsed (sample_args (lit "mkt") None None))
     = mkMainResult [nl ++ lit "Execution interrupted by user."] None
         (setup_logging INFO initial_logger)
  /\ main sample_float_repr initial_logger full_env bare_constructor
       exiting_method (Parsed (sample_args (lit "mkt") None None))
     = mkMainResult [] (Some (RaisedBaseException SystemExit))
         (setup_logging INFO initial_logger).
Proof.
  assert (Hv : InputValidator.validate_order_params
                 (sample_args (lit "mkt") None None) = Return market_intent)
    by (vm_compute; reflexivity).
  split; [|split].
  - apply (proj1 (@main_reports_submission_failure sample_float_repr
                    initial_logger full_env bare_constructor rejecting_method
                    (sample_args (lit "mkt") None None) market_intent
                    (Some (lit "env-key")) (Some (lit "env-secret"))
                    (mkBot (bare_constructor None None true))
                    (base_payload market_intent (lit "MARKET"))
                    Hv eq_refl eq_refl eq_refl)
             (mkClientException BinanceAPIException
                (lit "APIError(code=-2019): Margin is insufficient."))).
    reflexivity.
  - apply (proj1 (proj2 (@main_reports_submission_failure sample_float_repr
                    initial_logger full_env bare_constructor interrupted_method
                    (sample_args (lit "mkt") None None) market_intent
                    (Some (lit "env-key")) (Some (lit "env-secret"))
                    (mkBot (bare_constructor None None true))
                    (base_payload market_intent (lit "MARKET"))
                    Hv eq_refl eq_refl eq_refl))).
    reflexivity.
  - apply (proj2 (proj2 (@main_reports_submission_failure sample_float_repr
                    initial_logger full_env bare_constructor exiting_method
                    (sample_args (lit "mkt") None None) market_intent
                    (Some (lit "env-key")) (Some (lit "env-secret"))
                    (mkBot (bare_constructor None None true))
                    (base_payload market_intent (lit "MARKET"))
                    Hv eq_refl eq_refl eq_refl)) SystemExit).
    + discriminate.
    + reflexivity.
Defined.


(* ------------------------------------------------------------------ *)
(** ** Logging configuration *)
(* ------------------------------------------------------------------ *)

(** X24.  After one or more calls of [setup_logging], from any state of
    the root logger, the logger has the level of the last call and
    exactly one handler, the console handler at that level: calling it
    again does not pile up handlers. *)
Theorem setup_logging_leaves_one_handler
  (levels : list Z) (level : Z) (logger : Logger) :
  setup_logging_runs (levels ++ [level]) logger
  = mkLogger level [console_handler level].
Proof.
  unfold setup_logging_runs. rewrite fold_left_app. simpl.
  apply setup_logging_once.
Qed.

(* ------------------------------------------------------------------ *)
(** ** Text outside ASCII *)
(* ------------------------------------------------------------------ *)

(** Three U+0149 become six characters and pass as a symbol; a long s
    makes a side, dotless i an order type; Cyrillic letters are
    converted; full-width and Arabic-Indic digits are numbers. *)
Example non_ascii_texts :
  InputValidator.validate_symbol [0x149; 0x149; 0x149]%N
  = Return [0x2BC; 0x4E; 0x2BC; 0x4E; 0x2BC; 0x4E]%N
  /\ InputValidator.validate_side (0x17F%N :: lit "ell") = Return (lit "SELL")
  /\ InputValidator.validate_order_type [0x6C; 0x131; 0x6D; 0x131; 0x74]%N
     = Return (lit "LIMIT")
  /\ PyStr.upper [0x43F; 0x440; 0x438; 0x432; 0x435; 0x442]%N
     = [0x41F; 0x420; 0x418; 0x412; 0x415; 0x422]%N
  /\ InputValidator.validate_positive_float [0xFF11]%N (lit "Price")
     = Return (S754_finite false 4503599627370496 (-52))
  /\ PyFloat.of_str [0x661; 0x2E; 0x665; 0xA0]%N
     = Some (S754_finite false 6755399441055744 (-52)).
Proof. repeat split; vm_compute; reflexivity. Qed.
